(** * CCX Marketplace API: a shallow embedding of [marketplace_api]

    The three Python modules of the repository are embedded as Rocq
    modules of the same names:

    - [DataModels] for [data_models.py] (the pydantic models),
    - [Database] for [database.py] (the SQLite persistence layer),
    - [Main] for [main.py] (token check, digest, route handlers).

    Two libraries the program calls are embedded as well, as far as the
    program uses them: [hashlib.sha256] (module [Sha256], FIPS 180-4) and
    the part of SQLite that the statements of [database.py] exercise
    (module [Sqlite]: 64-bit INTEGER storage, string literals of the SQL
    text, transactions with commit and rollback).

    A Python [str] is a [string] holding its UTF-8 bytes, so [str.encode()]
    is the byte list of the string and concatenation is [++]. *)

From Stdlib Require Import ZArith List String Ascii Bool Lia.
From Stdlib Require Import PrimFloat SpecFloat FloatOps.
From Stdlib Require Import DecimalString DecimalPos DecimalZ.
Import ListNotations.

Local Open Scope string_scope.
Local Open Scope list_scope.
Local Open Scope Z_scope.

(* ================================================================= *)
(** ** hashlib.sha256 *)

Module Sha256.

Definition word := Z.

Definition mask32 : Z := 0xffffffff.
Definition wrap (x : Z) : word := Z.land x mask32.
Definition add32 (x y : word) : word := wrap (x + y).
Definition not32 (x : word) : word := Z.lxor x mask32.
Definition rotr (n : Z) (x : word) : word :=
  wrap (Z.lor (Z.shiftr x n) (Z.shiftl x (32 - n))).
Definition shr (n : Z) (x : word) : word := Z.shiftr x n.

Definition Ch (x y z : word) : word :=
  Z.lxor (Z.land x y) (Z.land (not32 x) z).
Definition Maj (x y z : word) : word :=
  Z.lxor (Z.lxor (Z.land x y) (Z.land x z)) (Z.land y z).
Definition Sigma0 (x : word) : word :=
  Z.lxor (Z.lxor (rotr 2 x) (rotr 13 x)) (rotr 22 x).
Definition Sigma1 (x : word) : word :=
  Z.lxor (Z.lxor (rotr 6 x) (rotr 11 x)) (rotr 25 x).
Definition sigma0 (x : word) : word :=
  Z.lxor (Z.lxor (rotr 7 x) (rotr 18 x)) (shr 3 x).
Definition sigma1 (x : word) : word :=
  Z.lxor (Z.lxor (rotr 17 x) (rotr 19 x)) (shr 10 x).

(** The constants are taken from the primes, as the standard defines
    them: the first 32 bits of the fractional part of the cube root (for
    [K], the first 64 primes) and of the square root (for [H0], the first
    8 primes). *)
Definition is_prime (n : Z) : bool :=
  (1 <? n) && forallb (fun d => negb (n mod Z.of_nat d =? 0)) (seq 2 (Z.to_nat n - 2)).

Definition primes_below (bound : nat) : list Z :=
  filter is_prime (map Z.of_nat (seq 0 bound)).

(** The largest [r] below [2 ^ bits] with [r ^ 3 <= x], bit by bit. *)
Fixpoint cube_root (bits : nat) (x r : Z) : Z :=
  match bits with
  | O => r
  | S bits' =>
      let r' := r + 2 ^ Z.of_nat bits' in
      cube_root bits' x (if r' * r' * r' <=? x then r' else r)
  end.

Definition frac32_cube_root (p : Z) : word := wrap (cube_root 36 (p * 2 ^ 96) 0).
Definition frac32_square_root (p : Z) : word := wrap (Z.sqrt (p * 2 ^ 64)).

Definition K : list word :=
  Eval vm_compute in map frac32_cube_root (primes_below 312).

Definition H0 : list word :=
  Eval vm_compute in map frac32_square_root (primes_below 20).

(** Big-endian bytes of a number, [n] of them. *)
Fixpoint be_bytes (n : nat) (x : Z) : list Z :=
  match n with
  | O => []
  | S n' => Z.land (Z.shiftr x (8 * Z.of_nat n')) 0xff :: be_bytes n' x
  end.

(** The message, a 1 bit, zeros up to 56 modulo 64, the bit length. *)
Definition pad (msg : list Z) : list Z :=
  let l := Z.of_nat (List.length msg) in
  let zeros := Z.to_nat ((55 - l) mod 64) in
  msg ++ 0x80 :: repeat 0 zeros ++ be_bytes 8 (8 * l).

Fixpoint words_of_bytes (n : nat) (bs : list Z) : list word :=
  match n, bs with
  | S n', b0 :: b1 :: b2 :: b3 :: rest =>
      (Z.shiftl b0 24 + Z.shiftl b1 16 + Z.shiftl b2 8 + b3)
        :: words_of_bytes n' rest
  | _, _ => []
  end.

Definition w (l : list word) (i : nat) : word := nth i l 0.

(** Message schedule: [n] more words after the ones in [ws]. *)
Fixpoint schedule (n : nat) (ws : list word) : list word :=
  match n with
  | O => ws
  | S n' =>
      let t := List.length ws in
      let wt := add32 (add32 (sigma1 (w ws (t - 2))) (w ws (t - 7)))
                      (add32 (sigma0 (w ws (t - 15))) (w ws (t - 16))) in
      schedule n' (ws ++ [wt])
  end.

Record regs := Regs { ra : word; rb : word; rc : word; rd : word;
                      re : word; rf : word; rg : word; rh : word }.

Definition round (s : regs) (kw : word * word) : regs :=
  let t1 := add32 (add32 (add32 (rh s) (Sigma1 (re s)))
                         (add32 (Ch (re s) (rf s) (rg s)) (fst kw)))
                  (snd kw) in
  let t2 := add32 (Sigma0 (ra s)) (Maj (ra s) (rb s) (rc s)) in
  Regs (add32 t1 t2) (ra s) (rb s) (rc s) (add32 (rd s) t1) (re s) (rf s) (rg s).

Definition regs_of (h : list word) : regs :=
  Regs (w h 0) (w h 1) (w h 2) (w h 3) (w h 4) (w h 5) (w h 6) (w h 7).

Definition compress (h : list word) (block : list word) : list word :=
  let s0 := regs_of h in
  let s := fold_left round (combine K (schedule 48 block)) s0 in
  [ add32 (ra s0) (ra s); add32 (rb s0) (rb s); add32 (rc s0) (rc s);
    add32 (rd s0) (rd s); add32 (re s0) (re s); add32 (rf s0) (rf s);
    add32 (rg s0) (rg s); add32 (rh s0) (rh s) ].

(** [n] blocks of 64 bytes, one after the other. *)
Fixpoint blocks (n : nat) (h : list word) (bs : list Z) : list word :=
  match n with
  | O => h
  | S n' => blocks n' (compress h (words_of_bytes 16 bs)) (skipn 64 bs)
  end.

Definition digest (msg : list Z) : list Z :=
  let p := pad msg in
  flat_map (be_bytes 4) (blocks (List.length p / 64) H0 p).

Definition hex_digit (n : Z) : ascii :=
  nth (Z.to_nat n) (list_ascii_of_string "0123456789abcdef") "0"%char.

Fixpoint hex (bs : list Z) : string :=
  match bs with
  | [] => ""
  | b :: rest => String (hex_digit (b / 16)) (String (hex_digit (b mod 16)) (hex rest))
  end.

(** [hashlib.sha256(data).hexdigest()], [data] a [bytes] object *)
Definition hexdigest (data : list Z) : string := hex (digest data).

End Sha256.

(* ================================================================= *)
(** ** Python values, exceptions and the outcome of a call *)

Module Py.

Inductive exn :=
| HTTPException (status_code : Z) (detail : string)
| AttributeError (msg : string)
| KeyError (key : string)
| OverflowError (msg : string)
| DatabaseError (msg : string).

(** A call returns or raises. *)
Inductive outcome (A : Type) :=
| Return (a : A)
| Raise (e : exn).
Arguments Return {A} a.
Arguments Raise {A} e.

(** Values of the dictionaries that are returned as JSON. *)
Inductive value :=
| Str (s : string)
| Int (z : Z)
| Float (f : float).

(** A [dict] keeps its keys in insertion order. *)
Definition dict (V : Type) := list (string * V).

Fixpoint get {V : Type} (d : dict V) (key : string) : option V :=
  match d with
  | [] => None
  | (k, v) :: d' => if String.eqb k key then Some v else get d' key
  end.

(** [d[key] = v]: an existing key keeps its place. *)
Fixpoint set {V : Type} (d : dict V) (key : string) (v : V) : dict V :=
  match d with
  | [] => [(key, v)]
  | (k, v') :: d' =>
      if String.eqb k key then (k, v) :: d' else (k, v') :: set d' key v
  end.

Definition keys {V : Type} (d : dict V) : list string := map fst d.

(** [d[key]] *)
Definition item {V : Type} (d : dict V) (key : string) : outcome V :=
  match get d key with
  | Some v => Return v
  | None => Raise (KeyError key)
  end.

Definition bind {A B : Type} (c : outcome A) (k : A -> outcome B) : outcome B :=
  match c with
  | Return a => k a
  | Raise e => Raise e
  end.

(** A list comprehension whose element expression may raise. *)
Fixpoint comprehension {A B : Type} (f : A -> outcome B) (l : list A) : outcome (list B) :=
  match l with
  | [] => Return []
  | a :: l' => bind (f a) (fun b => bind (comprehension f l') (fun bs => Return (b :: bs)))
  end.

(** The attributes of the built-in [dict] type that are not dunder names. *)
Definition dict_attributes : list string :=
  [ "clear"; "copy"; "fromkeys"; "get"; "items"; "keys"; "pop"; "popitem";
    "setdefault"; "update"; "values" ].

Definition dict_hasattr (name : string) : bool :=
  existsb (String.eqb name) dict_attributes.

(** [str(z)], which is also what an f-string puts for [{z}]. *)
Definition str_of_int (z : Z) : string := NilZero.string_of_int (Z.to_int z).

(** [s.encode()]: the UTF-8 bytes. *)
Definition encode (s : string) : list Z :=
  map (fun c => Z.of_N (N_of_ascii c)) (list_ascii_of_string s).

(** The double nearest to an integer, ties to even. *)
Definition nearest_double (z : Z) : float :=
  SF2Prim (binary_normalize prec emax z 0 false).

(** [float(z)] raises when the nearest double would not be finite. *)
Definition float_of_int (z : Z) : exn + float :=
  if Z.abs z <? 2 ^ 1024 - 2 ^ 970
  then inr (nearest_double z)
  else inl (OverflowError "int too large to convert to float").

(** [z * f] for an [int] and a [float]. *)
Definition int_mul_float (z : Z) (f : float) : exn + float :=
  match float_of_int z with
  | inl e => inl e
  | inr fz => inr (fz * f)%float
  end.

(** [f < z] for a [float] and an [int]: Python compares the exact values. *)
Definition float_lt_int (f : float) (z : Z) : bool :=
  match Prim2SF f with
  | S754_nan => false
  | S754_infinity s => s
  | S754_zero _ => 0 <? z
  | S754_finite s m e =>
      let n := if s then Z.neg m else Z.pos m in
      if 0 <=? e then n * 2 ^ e <? z else n <? z * 2 ^ (- e)
  end.

End Py.

(* ================================================================= *)
(** ** json *)

Module Json.

#[local] Unset Elimination Schemes.
Inductive value :=
| Null
| Bool (b : bool)
| Number (n : Z)
| String_ (s : string)
| Array (items : list value)
| Object (members : list (string * value)).
#[local] Set Elimination Schemes.

(** The text [json.dumps v], kept as the value it encodes; [json.loads]
    reads that value back. *)
Record text := dumps { loads : value }.

End Json.

(* ================================================================= *)
(** ** SQLite, as far as database.py uses it *)

Module Sqlite.

(** *** Numbers in an INTEGER column *)

Inductive number :=
| Integer (z : Z)
| Real (f : float).

Definition fits_int64 (z : Z) : bool := (- 2 ^ 63 <=? z) && (z <=? 2 ^ 63 - 1).

Definition real_of_int (z : Z) : float := Py.nearest_double z.

(** The integer a double is equal to, when there is one. *)
Definition int_of_real (f : float) : option Z :=
  match Prim2SF f with
  | S754_zero _ => Some 0
  | S754_finite s m e =>
      let n := if s then Z.neg m else Z.pos m in
      if 0 <=? e then Some (n * 2 ^ e)
      else if n mod 2 ^ (- e) =? 0 then Some (n / 2 ^ (- e))
      else None
  | _ => None
  end.

(** INTEGER affinity on store: a REAL that is an integer strictly inside
    the 64-bit range is stored as that integer. *)
Definition integer_affinity (v : number) : number :=
  match v with
  | Integer z => Integer z
  | Real f =>
      match int_of_real f with
      | Some z => if (- 2 ^ 63 <? z) && (z <? 2 ^ 63 - 1) then Integer z else Real f
      | None => Real f
      end
  end.

(** [v - ?] with an integer bound to [?]: 64-bit integer subtraction,
    carried out on doubles when it would overflow. *)
Definition sub (v : number) (q : Z) : number :=
  match v with
  | Integer z =>
      if fits_int64 (z - q) then Integer (z - q)
      else Real (real_of_int z - real_of_int q)%float
  | Real f => Real (f - real_of_int q)%float
  end.

(** *** The aggregate [SUM] *)

(** The running total: the sum as a double, the sum as an integer while
    every input was an integer and no addition overflowed, and the two
    flags.  (A REAL total is the plain running sum of the doubles, as
    SQLite adds them before 3.43; later versions compensate its rounding
    error.  An integer total is the same in all of them.) *)
Record sum_context := SumContext {
  rSum : float;
  iSum : Z;
  cnt : nat;
  approx : bool;
  overflow : bool
}.

Definition sum_step (p : sum_context) (v : number) : sum_context :=
  match v with
  | Integer z =>
      let r := (rSum p + real_of_int z)%float in
      if negb (approx p || overflow p) then
        if fits_int64 (iSum p + z)
        then SumContext r (iSum p + z) (S (cnt p)) false false
        else SumContext r (iSum p) (S (cnt p)) true true
      else SumContext r (iSum p) (S (cnt p)) (approx p) (overflow p)
  | Real f => SumContext (rSum p + f)%float (iSum p) (S (cnt p)) true (overflow p)
  end.

Inductive sum_result :=
| SumNull
| SumValue (v : number)
| SumError (msg : string).

Definition sum_finalize (p : sum_context) : sum_result :=
  match cnt p with
  | O => SumNull
  | S _ =>
      if overflow p then SumError "integer overflow"
      else if approx p then SumValue (Real (rSum p))
      else SumValue (Integer (iSum p))
  end.

(** [SELECT SUM(column)] over the values of a NOT NULL column. *)
Definition sum (vs : list number) : sum_result :=
  sum_finalize (fold_left sum_step vs (SumContext 0 0 0 false false)).

(** *** String literals of the SQL text *)

Definition quote : ascii := "'"%char.
Definition nul : ascii := "000"%char.

(** The tokenizer on the text after an opening quote: two quotes in a row
    stand for one, a single quote ends the literal, and the end of the
    text before that is an error.  The result is the literal's value and
    the text that follows it. *)
Fixpoint scan_literal (z : string) : option (string * string) :=
  match z with
  | EmptyString => None
  | String c z' =>
      if Ascii.eqb c quote then
        match z' with
        | String c' z'' =>
            if Ascii.eqb c' quote then
              match scan_literal z'' with
              | Some (lit, rest) => Some (String quote lit, rest)
              | None => None
              end
            else Some (EmptyString, z')
        | EmptyString => Some (EmptyString, EmptyString)
        end
      else
        match scan_literal z' with
        | Some (lit, rest) => Some (String c lit, rest)
        | None => None
        end
  end.

Fixpoint has_nul (s : string) : bool :=
  match s with
  | EmptyString => false
  | String c s' => Ascii.eqb c nul || has_nul s'
  end.

Fixpoint strip_prefix (p s : string) : option string :=
  match p, s with
  | EmptyString, _ => Some s
  | String a p', String b s' => if Ascii.eqb a b then strip_prefix p' s' else None
  | String _ _, EmptyString => None
  end.

(** What a statement [<select> WHERE <column> = '...] asks for. *)
Inductive where_clause :=
| Equals (lit : string)
| Malformed (msg : string)
| Continued (sql_tail : string).

(** [cursor.execute(command)] for a command that starts with [select_eq],
    the text up to and including the opening quote. *)
Definition parse_where (select_eq command : string) : where_clause :=
  if has_nul command then Malformed "the query contains a null character"
  else
    match strip_prefix select_eq command with
    | None => Malformed "syntax error"
    | Some z =>
        match scan_literal z with
        | None => Malformed "unrecognized token"
        | Some (lit, EmptyString) => Equals lit
        | Some (_, rest) => Continued rest
        end
    end.

(** *** A connection and its transaction *)

(** [disk] is the committed database; [pending] is what the connection
    sees, with the writes of its open transaction. *)
Record connection (S : Type) := Connection { disk : S; pending : S }.
Arguments Connection {S} disk pending.
Arguments disk {S} c.
Arguments pending {S} c.

Definition connect {S : Type} (db : S) : connection S := Connection db db.
Definition write {S : Type} (c : connection S) (s : S) : connection S :=
  Connection (disk c) s.
Definition commit {S : Type} (c : connection S) : connection S :=
  Connection (pending c) (pending c).
Definition rollback {S : Type} (c : connection S) : connection S :=
  Connection (disk c) (disk c).
Definition close {S : Type} (c : connection S) : S := disk c.

End Sqlite.

(* ================================================================= *)
(** ** data_models.py *)

Module DataModels.

Module CarbonCredit.
Record t := Build {
  id : string;
  project_name : string;
  supplier : string;
  credit_type : string;
  vintage : Z;
  quantity_available : Z;
  price_per_ton : float;
  location : string;
  verification_status : string;
  methodology : string;
  public_details : Json.value;
  private_details : option Json.value
}.
End CarbonCredit.

Module PublicCreditListing.
Record t := Build {
  id : string;
  project_name : string;
  supplier : string;
  credit_type : string;
  vintage : Z;
  quantity_available : Sqlite.number;
  price_per_ton : float;
  location : string;
  verification_status : string;
  methodology : string
}.
End PublicCreditListing.

Module TransactionRequest.
Record t := Build {
  credit_id : string;
  quantity : Z
}.
End TransactionRequest.

Module CreditTransaction.
Record t := Build {
  id : string;
  credit_id : string;
  buyer_id : string;
  quantity : Z;
  price_per_ton : float;
  transaction_date : string;
  status : string;
  transaction_hash : string
}.
End CreditTransaction.

End DataModels.

(* ================================================================= *)
(** ** database.py *)

Module Database.

Import Py.

(** A row of [carbon_credits]. *)
Module CreditRow.
Record t := Build {
  id : string;
  project_name : string;
  supplier : string;
  credit_type : string;
  vintage : Z;
  quantity_available : Sqlite.number;
  price_per_ton : float;
  location : string;
  verification_status : string;
  methodology : string;
  public_details : Json.text;
  private_details : option Json.text;
  created_at : string;
  updated_at : string
}.
End CreditRow.

(** A row of [transactions]. *)
Module TransactionRow.
Record t := Build {
  id : string;
  credit_id : string;
  buyer_id : string;
  quantity : Z;
  price_per_ton : float;
  transaction_date : string;
  transaction_hash : string;
  status : string
}.
End TransactionRow.

(** The two tables, rows in rowid order. *)
Record DB := {
  carbon_credits : list CreditRow.t;
  transactions : list TransactionRow.t
}.

(** The dictionary made of a credit row: [dict(row)] with the two detail
    columns replaced by what [json.loads] reads from them. *)
Module Credit.
Record t := Build {
  id : string;
  project_name : string;
  supplier : string;
  credit_type : string;
  vintage : Z;
  quantity_available : Sqlite.number;
  price_per_ton : float;
  location : string;
  verification_status : string;
  methodology : string;
  public_details : Json.value;
  private_details : Json.value;
  created_at : string;
  updated_at : string
}.
End Credit.

Definition credit_of_row (row : CreditRow.t) : Credit.t :=
  Credit.Build
    (CreditRow.id row) (CreditRow.project_name row) (CreditRow.supplier row)
    (CreditRow.credit_type row) (CreditRow.vintage row)
    (CreditRow.quantity_available row) (CreditRow.price_per_ton row)
    (CreditRow.location row) (CreditRow.verification_status row)
    (CreditRow.methodology row)
    (Json.loads (CreditRow.public_details row))
    (match CreditRow.private_details row with
     | Some text => Json.loads text
     | None => Json.Null
     end)
    (CreditRow.created_at row) (CreditRow.updated_at row).

Definition get_credits (db : DB) : list Credit.t :=
  map credit_of_row (carbon_credits db).

(** *** What a request takes from its surroundings *)

(** The values a call reads from outside the program: the fresh
    identifier, the two clocks, whether the storage engine fails a
    statement for a reason of its own (a full disk, a lock that is not
    released in time), and what SQLite makes of a SELECT on
    [carbon_credits] whose text goes on after the string literal of its
    WHERE clause.  Such a statement is SQL of the caller: SQLite rejects
    it with a message, or runs it and [fetchone] gives no row or the
    first row of its result, which need not be the row of any stored
    credit (its fourteen values are taken at the types of the columns,
    as those of every row here).  The embedding does not evaluate that
    SQL: [select_continued] stands for what SQLite does with it, and
    every theorem holds whatever this function is. *)
Record Env := {
  uuid4 : string;
  datetime_now_isoformat : string;
  current_timestamp : string;
  insert_io_error : bool;
  update_io_error : bool;
  commit_io_error : bool;
  select_continued : string -> DB -> string + option CreditRow.t
}.

(** [f"SELECT * FROM carbon_credits WHERE id = '{credit_id}'"] *)
Definition select_credit_eq : string := "SELECT * FROM carbon_credits WHERE id = '".

Definition select_credit_command (credit_id : string) : string :=
  (select_credit_eq ++ credit_id ++ "'")%string.

Definition get_credit_by_id (env : Env) (db : DB) (credit_id : string)
    : outcome (option Credit.t) :=
  let command := select_credit_command credit_id in
  match Sqlite.parse_where select_credit_eq command with
  | Sqlite.Malformed msg => Raise (DatabaseError msg)
  | Sqlite.Continued sql_tail =>
      match select_continued env command db with
      | inl msg => Raise (DatabaseError msg)
      | inr (Some r) => Return (Some (credit_of_row r))
      | inr None => Return None
      end
  | Sqlite.Equals lit =>
      let row := find (fun r => String.eqb (CreditRow.id r) lit) (carbon_credits db) in
      match row with
      | Some r => Return (Some (credit_of_row r))
      | None => Return None
      end
  end.

Definition row_of_transaction (t : DataModels.CreditTransaction.t) : TransactionRow.t :=
  TransactionRow.Build
    (DataModels.CreditTransaction.id t)
    (DataModels.CreditTransaction.credit_id t)
    (DataModels.CreditTransaction.buyer_id t)
    (DataModels.CreditTransaction.quantity t)
    (DataModels.CreditTransaction.price_per_ton t)
    (DataModels.CreditTransaction.transaction_date t)
    (DataModels.CreditTransaction.transaction_hash t)
    (DataModels.CreditTransaction.status t).

(** [INSERT INTO transactions (...) VALUES (?, ?, ?, ?, ?, ?, ?, ?)]: the
    quantity has to fit an SQLite INTEGER to be bound, a NaN is bound as
    NULL and the column is NOT NULL, and [id] is the PRIMARY KEY. *)
Definition execute_insert (env : Env) (t : DataModels.CreditTransaction.t)
    (conn : Sqlite.connection DB) : exn + Sqlite.connection DB :=
  let db := Sqlite.pending conn in
  if negb (Sqlite.fits_int64 (DataModels.CreditTransaction.quantity t)) then
    inl (OverflowError "Python int too large to convert to SQLite INTEGER")
  else if insert_io_error env then
    inl (DatabaseError "disk I/O error")
  else if PrimFloat.is_nan (DataModels.CreditTransaction.price_per_ton t) then
    inl (DatabaseError "NOT NULL constraint failed: transactions.price_per_ton")
  else if existsb (fun r => String.eqb (TransactionRow.id r) (DataModels.CreditTransaction.id t))
                  (transactions db) then
    inl (DatabaseError "UNIQUE constraint failed: transactions.id")
  else
    inr (Sqlite.write conn
           {| carbon_credits := carbon_credits db;
              transactions := transactions db ++ [row_of_transaction t] |}).

(** [SET quantity_available = quantity_available - ?, updated_at = CURRENT_TIMESTAMP] *)
Definition decrement (env : Env) (quantity : Z) (row : CreditRow.t) : CreditRow.t :=
  CreditRow.Build
    (CreditRow.id row) (CreditRow.project_name row) (CreditRow.supplier row)
    (CreditRow.credit_type row) (CreditRow.vintage row)
    (Sqlite.integer_affinity (Sqlite.sub (CreditRow.quantity_available row) quantity))
    (CreditRow.price_per_ton row)
    (CreditRow.location row) (CreditRow.verification_status row)
    (CreditRow.methodology row)
    (CreditRow.public_details row) (CreditRow.private_details row)
    (CreditRow.created_at row) (current_timestamp env).

(** [UPDATE carbon_credits SET ... WHERE id = ?] *)
Definition execute_update (env : Env) (quantity : Z) (credit_id : string)
    (conn : Sqlite.connection DB) : exn + Sqlite.connection DB :=
  let db := Sqlite.pending conn in
  if negb (Sqlite.fits_int64 quantity) then
    inl (OverflowError "Python int too large to convert to SQLite INTEGER")
  else if update_io_error env then
    inl (DatabaseError "disk I/O error")
  else
    inr (Sqlite.write conn
           {| carbon_credits :=
                map (fun row => if String.eqb (CreditRow.id row) credit_id
                                then decrement env quantity row else row)
                    (carbon_credits db);
              transactions := transactions db |}).

(** [conn.commit()] *)
Definition commit (env : Env) (conn : Sqlite.connection DB)
    : exn + Sqlite.connection DB :=
  if commit_io_error env then inl (DatabaseError "disk I/O error")
  else inr (Sqlite.commit conn).

(** The [try] block runs the two statements and the commit; the [except]
    block rolls back, on the connection as the failed step left it. *)
Definition purchase_credit (env : Env) (transaction : DataModels.CreditTransaction.t)
    (db : DB) : bool * DB :=
  let conn := Sqlite.connect db in
  match execute_insert env transaction conn with
  | inl e => (false, Sqlite.close (Sqlite.rollback conn))
  | inr conn1 =>
      match execute_update env (DataModels.CreditTransaction.quantity transaction)
                           (DataModels.CreditTransaction.credit_id transaction) conn1 with
      | inl e => (false, Sqlite.close (Sqlite.rollback conn1))
      | inr conn2 =>
          match commit env conn2 with
          | inl e => (false, Sqlite.close (Sqlite.rollback conn2))
          | inr conn3 => (true, Sqlite.close conn3)
          end
      end
  end.

(** [dict(row)] for a row of [transactions]: the columns in table order. *)
Definition dict_of_transaction (r : TransactionRow.t) : dict value :=
  [ ("id", Str (TransactionRow.id r));
    ("credit_id", Str (TransactionRow.credit_id r));
    ("buyer_id", Str (TransactionRow.buyer_id r));
    ("quantity", Int (TransactionRow.quantity r));
    ("price_per_ton", Float (TransactionRow.price_per_ton r));
    ("transaction_date", Str (TransactionRow.transaction_date r));
    ("transaction_hash", Str (TransactionRow.transaction_hash r));
    ("status", Str (TransactionRow.status r)) ].

(** [if buyer_id:] holds for a string that is not empty; [None] is the
    default of the parameter. *)
Definition truthy (buyer_id : option string) : bool :=
  match buyer_id with
  | Some (String _ _) => true
  | _ => false
  end.

Definition get_transactions (db : DB) (buyer_id : option string) : list (dict value) :=
  let rows :=
    if truthy buyer_id then
      filter (fun r => match buyer_id with
                       | Some b => String.eqb (TransactionRow.buyer_id r) b
                       | None => false
                       end)
             (transactions db)
    else transactions db in
  map dict_of_transaction rows.

(** [SELECT SUM(quantity_available) ...], and
    [result[0] if result and result[0] is not None else 0]. *)
Definition get_total_available_amount (db : DB) : outcome Sqlite.number :=
  match Sqlite.sum (map CreditRow.quantity_available (carbon_credits db)) with
  | Sqlite.SumError msg => Raise (DatabaseError msg)
  | Sqlite.SumNull => Return (Sqlite.Integer 0)
  | Sqlite.SumValue total => Return total
  end.

(** The database file: each of the two tables is there or not yet. *)
Record File := {
  credits_table : option (list CreditRow.t);
  transactions_table : option (list TransactionRow.t)
}.

(** [CREATE TABLE IF NOT EXISTS], twice, and the commit. *)
Definition init_database (file : File) : DB :=
  {| carbon_credits := match credits_table file with Some rows => rows | None => [] end;
     transactions := match transactions_table file with Some rows => rows | None => [] end |}.

(** An object of the list that [json.load] reads from
    sample_credits.json: each of the twelve keys that [init_sample_data]
    subscripts is there or not; a key that is there holds a value of the
    type that data_models.CarbonCredit declares for it, [private_details]
    being any JSON value, [null] included. *)
Module SampleCredit.
Record t := Build {
  id : option string;
  project_name : option string;
  supplier : option string;
  credit_type : option string;
  vintage : option Z;
  quantity_available : option Z;
  price_per_ton : option float;
  location : option string;
  verification_status : option string;
  methodology : option string;
  public_details : option Json.value;
  private_details : option Json.value
}.
End SampleCredit.

(** [credit[key]] on such an object. *)
Definition subscript {A : Type} (field : option A) (key : string) : exn + A :=
  match field with
  | Some v => inr v
  | None => inl (KeyError key)
  end.

Definition and_then {A B : Type} (r : exn + A) (k : A -> exn + B) : exn + B :=
  match r with
  | inl e => inl e
  | inr a => k a
  end.

(** The tuple of the INSERT of [init_sample_data], as the row it makes:
    the twelve subscripts from left to right, the first missing key
    raising KeyError; the two detail values as [json.dumps] writes them
    ([None] becomes the text [null]); the two timestamps by their
    DEFAULT. *)
Definition row_of_credit (env : Env) (credit : SampleCredit.t) : exn + CreditRow.t :=
  and_then (subscript (SampleCredit.id credit) "id") (fun id =>
  and_then (subscript (SampleCredit.project_name credit) "project_name") (fun project_name =>
  and_then (subscript (SampleCredit.supplier credit) "supplier") (fun supplier =>
  and_then (subscript (SampleCredit.credit_type credit) "credit_type") (fun credit_type =>
  and_then (subscript (SampleCredit.vintage credit) "vintage") (fun vintage =>
  and_then (subscript (SampleCredit.quantity_available credit) "quantity_available")
           (fun quantity_available =>
  and_then (subscript (SampleCredit.price_per_ton credit) "price_per_ton") (fun price_per_ton =>
  and_then (subscript (SampleCredit.location credit) "location") (fun location =>
  and_then (subscript (SampleCredit.verification_status credit) "verification_status")
           (fun verification_status =>
  and_then (subscript (SampleCredit.methodology credit) "methodology") (fun methodology =>
  and_then (subscript (SampleCredit.public_details credit) "public_details")
           (fun public_details =>
  and_then (subscript (SampleCredit.private_details credit) "private_details")
           (fun private_details =>
  inr (CreditRow.Build
         id project_name supplier credit_type vintage
         (Sqlite.Integer quantity_available) price_per_ton
         location verification_status methodology
         (Json.dumps public_details) (Some (Json.dumps private_details))
         (current_timestamp env) (current_timestamp env)))))))))))))).

(** A Python [int] is bound when it fits an SQLite INTEGER; a [float]
    always is. *)
Definition binds (v : Sqlite.number) : bool :=
  match v with
  | Sqlite.Integer z => Sqlite.fits_int64 z
  | Sqlite.Real _ => true
  end.

(** [INSERT INTO carbon_credits (...) VALUES (?, ..., ?)]: the tuple is
    built first; the two integers have to fit an SQLite INTEGER to be
    bound, a NaN is bound as NULL and the column is NOT NULL, and [id] is
    the PRIMARY KEY. *)
Definition execute_insert_credit (env : Env) (credit : SampleCredit.t)
    (conn : Sqlite.connection DB) : exn + Sqlite.connection DB :=
  let db := Sqlite.pending conn in
  and_then (row_of_credit env credit) (fun row =>
  if negb (Sqlite.fits_int64 (CreditRow.vintage row)
           && binds (CreditRow.quantity_available row)) then
    inl (OverflowError "Python int too large to convert to SQLite INTEGER")
  else if insert_io_error env then
    inl (DatabaseError "disk I/O error")
  else if PrimFloat.is_nan (CreditRow.price_per_ton row) then
    inl (DatabaseError "NOT NULL constraint failed: carbon_credits.price_per_ton")
  else if existsb (fun r => String.eqb (CreditRow.id r) (CreditRow.id row))
                  (carbon_credits db) then
    inl (DatabaseError "UNIQUE constraint failed: carbon_credits.id")
  else
    inr (Sqlite.write conn
           {| carbon_credits := carbon_credits db ++ [row];
              transactions := transactions db |})).

(** The [for] loop over the sample: the first subscript or INSERT that
    fails ends it. *)
Fixpoint insert_credits (env : Env) (sample_credits : list SampleCredit.t)
    (conn : Sqlite.connection DB) : exn + Sqlite.connection DB :=
  match sample_credits with
  | [] => inr conn
  | credit :: rest =>
      match execute_insert_credit env credit conn with
      | inl e => inl e
      | inr conn' => insert_credits env rest conn'
      end
  end.

(** [init_sample_data], with the list read from the JSON file as its
    argument.  Nothing catches an exception of the loop or of the commit:
    it leaves the function with the transaction open, and what was
    inserted is not in the file. *)
Definition init_sample_data (env : Env) (file : File)
    (sample_credits : list SampleCredit.t) : outcome unit * DB :=
  let db := init_database file in
  let existing_credits := get_credits db in
  match existing_credits with
  | _ :: _ => (Return tt, db)
  | [] =>
      let conn := Sqlite.connect db in
      match insert_credits env sample_credits conn with
      | inl e => (Raise e, Sqlite.disk conn)
      | inr conn' =>
          match commit env conn' with
          | inl e => (Raise e, Sqlite.disk conn')
          | inr conn'' => (Return tt, Sqlite.close conn'')
          end
      end
  end.

End Database.

(* ================================================================= *)
(** ** main.py *)

Module Main.

Import Py.
Import DataModels.
Import Database.

Notation "x <- c ;; k" := (Py.bind c (fun x => k))
  (at level 61, c at next level, right associativity).

Definition BUYER_PERMISSIONS : list string := [ "buyer"; "admin" ].

Module User.
Record t := Build { user_type : string; user_id : string }.
End User.

Definition verify_token (token : string) : outcome User.t :=
  if String.eqb token "demo_public_token" then
    Return (User.Build "public" "public_user")
  else if String.eqb token "demo_buyer_token" then
    Return (User.Build "buyer" "buyer_001")
  else if String.eqb token "demo_admin_token" then
    Return (User.Build "admin" "admin_001")
  else Raise (HTTPException 401 "Invalid authentication credentials").

(** The dictionary [transaction] of [purchase_credits], before the digest
    is added to it. *)
Module Transaction.
Record t := Build {
  id : string;
  credit_id : string;
  buyer_id : string;
  quantity : Z;
  price_per_ton : float;
  transaction_date : string;
  status : string
}.
End Transaction.

(** The f-string of [create_transaction_hash]. *)
Definition hash_input (transaction_data : Transaction.t) : string :=
  (Transaction.credit_id transaction_data
   ++ Transaction.buyer_id transaction_data
   ++ str_of_int (Transaction.quantity transaction_data)
   ++ Transaction.transaction_date transaction_data)%string.

Definition create_transaction_hash (transaction_data : Transaction.t) : string :=
  Sha256.hexdigest (encode (hash_input transaction_data)).

(** The [CreditTransaction] built from the keys of [transaction], once
    [transaction_hash] is among them. *)
Definition credit_transaction_of (transaction : Transaction.t) (transaction_hash : string)
    : CreditTransaction.t :=
  CreditTransaction.Build
    (Transaction.id transaction) (Transaction.credit_id transaction)
    (Transaction.buyer_id transaction) (Transaction.quantity transaction)
    (Transaction.price_per_ton transaction) (Transaction.transaction_date transaction)
    (Transaction.status transaction) transaction_hash.

(** The [PublicCreditListing] built from the keys of a dictionary: the
    declared fields, the others dropped. *)
Definition public_listing_of (fields : Credit.t) : PublicCreditListing.t :=
  PublicCreditListing.Build
    (Credit.id fields) (Credit.project_name fields) (Credit.supplier fields)
    (Credit.credit_type fields) (Credit.vintage fields)
    (Credit.quantity_available fields) (Credit.price_per_ton fields)
    (Credit.location fields) (Credit.verification_status fields)
    (Credit.methodology fields).

Inductive credit_view :=
| PublicView (listing : PublicCreditListing.t)
| FullView (credit : Credit.t).

(** [credit.dict()] on the dictionary that [get_credit_by_id] returns. *)
Definition credit_dot_dict (credit : Credit.t) : outcome Credit.t :=
  if dict_hasattr "dict" then Return credit
  else Raise (AttributeError "'dict' object has no attribute 'dict'").

Definition get_credit_details (env : Env) (db : DB) (credit_id : string) (user : User.t)
    : outcome credit_view :=
  found <- get_credit_by_id env db credit_id ;;
  match found with
  | None => Raise (HTTPException 404 "Credit not found")
  | Some credit =>
      if String.eqb (User.user_type user) "public" then
        fields <- credit_dot_dict credit ;;
        Return (PublicView (public_listing_of fields))
      else if existsb (String.eqb (User.user_type user)) [ "buyer"; "admin" ] then
        Return (FullView credit)
      else Raise (HTTPException 403 "Access forbidden")
  end.

(** [a < z] for a stored number and an [int]. *)
Definition number_lt_int (a : Sqlite.number) (z : Z) : bool :=
  match a with
  | Sqlite.Integer n => n <? z
  | Sqlite.Real f => float_lt_int f z
  end.

Module PurchaseResponse.
Record t := Build {
  transaction_id : string;
  transaction_hash : string;
  total_cost : float;
  status : string
}.
End PurchaseResponse.

(** The dictionary literal of [purchase_credits]. *)
Definition new_transaction (env : Env) (request : TransactionRequest.t) (user : User.t)
    (credit : Credit.t) : Transaction.t :=
  Transaction.Build
    (uuid4 env)
    (TransactionRequest.credit_id request)
    (User.user_id user)
    (TransactionRequest.quantity request)
    (Credit.price_per_ton credit)
    (datetime_now_isoformat env)
    "completed".

Definition purchase_credits (env : Env) (request : TransactionRequest.t) (user : User.t)
    (db : DB) : outcome PurchaseResponse.t * DB :=
  if negb (existsb (String.eqb (User.user_type user)) BUYER_PERMISSIONS) then
    (Raise (HTTPException 403 "Only buyers or admin can make purchases"), db)
  else
    match get_credit_by_id env db (TransactionRequest.credit_id request) with
    | Raise e => (Raise e, db)
    | Return None => (Raise (HTTPException 404 "Credit not found"), db)
    | Return (Some credit) =>
        if number_lt_int (Credit.quantity_available credit)
                         (TransactionRequest.quantity request) then
          (Raise (HTTPException 400 "Insufficient quantity available"), db)
        else
          let transaction := new_transaction env request user credit in
          let transaction_hash := create_transaction_hash transaction in
          let credit_transaction := credit_transaction_of transaction transaction_hash in
          let (success, db') := purchase_credit env credit_transaction db in
          if negb success then
            (Raise (HTTPException 500 "Transaction failed"), db')
          else
            match int_mul_float (TransactionRequest.quantity request)
                                (Credit.price_per_ton credit) with
            | inl e => (Raise e, db')
            | inr total_cost =>
                (Return (PurchaseResponse.Build
                           (Transaction.id transaction) transaction_hash
                           total_cost "completed"),
                 db')
            end
    end.

(** [{c["id"]: c for c in credits}] *)
Definition credit_lookup_of (credits : list Credit.t) : dict Credit.t :=
  fold_left (fun lookup c => Py.set lookup (Credit.id c) c) credits [].

(** [credit_lookup.get(key, {}).get("credit_type", "Unknown")] *)
Definition credit_type_of (credit_lookup : dict Credit.t) (key : value) : value :=
  match key with
  | Str k =>
      match Py.get credit_lookup k with
      | Some c => Str (Credit.credit_type c)
      | None => Str "Unknown"
      end
  | _ => Str "Unknown"
  end.

Definition get_transactions (db : DB) (user : User.t) : outcome (list (dict value)) :=
  if String.eqb (User.user_type user) "admin" then
    Return (Database.get_transactions db None)
  else if String.eqb (User.user_type user) "buyer" then
    Return (Database.get_transactions db (Some (User.user_id user)))
  else
    let transactions := Database.get_transactions db None in
    let credits := get_credits db in
    let credit_lookup := credit_lookup_of credits in
    comprehension
      (fun t =>
         transaction_date <- item t "transaction_date" ;;
         credit_id <- item t "credit_id" ;;
         quantity <- item t "quantity" ;;
         price_per_ton <- item t "price_per_ton" ;;
         Return [ ("transaction_date", transaction_date);
                  ("credit_type", credit_type_of credit_lookup credit_id);
                  ("quantity", quantity);
                  ("price_per_ton", price_per_ton) ])
      transactions.

(** The status line of the response: 200 for a returned value, the code of
    an [HTTPException], 500 for any other exception. *)
Definition status_code {A : Type} (r : outcome A) : option Z :=
  match r with
  | Return _ => Some 200
  | Raise (HTTPException code _) => Some code
  | Raise _ => Some 500
  end.

(** [GET /] *)
Definition root : dict value :=
  [ ("message", Str "CCX Marketplace API - Transparent Carbon Trading") ].

(** [GET /api/credits/]: what the handler returns. *)
Definition list_credits (db : DB) : list Credit.t := get_credits db.

(** [GET /api/credits/available_amount/] *)
Definition total_available_amount (db : DB) : outcome (dict Sqlite.number) :=
  total <- get_total_available_amount db ;;
  Return [ ("total_available_amount", total) ].

(** The three routes that take [user: dict = Depends(verify_token)], from
    the bearer token on: the dependency runs first, and the handler only
    when it returned. *)
Definition get_credit_details_with_token (env : Env) (db : DB) (token credit_id : string)
    : outcome credit_view :=
  user <- verify_token token ;;
  get_credit_details env db credit_id user.

Definition purchase_credits_with_token (env : Env) (token : string)
    (request : TransactionRequest.t) (db : DB) : outcome PurchaseResponse.t * DB :=
  match verify_token token with
  | Return user => purchase_credits env request user db
  | Raise e => (Raise e, db)
  end.

Definition get_transactions_with_token (db : DB) (token : string)
    : outcome (list (dict value)) :=
  user <- verify_token token ;;
  get_transactions db user.

End Main.

(* ================================================================= *)
(** ** A small catalog, for the examples *)

Module Sample.

Import Database.

Definition listing (id credit_type : string) (quantity : Z) (price : float) : CreditRow.t :=
  CreditRow.Build id "Project" "Supplier" credit_type 2023
    (Sqlite.Integer quantity) price "Canada" "verified" "ISO 14064"
    (Json.dumps (Json.Object [ ("registry", Json.String_ "CCX") ]))
    (Some (Json.dumps Json.Null))
    "2024-01-01 00:00:00" "2024-01-01 00:00:00".

Definition sale (id credit_id buyer_id : string) (quantity : Z) : TransactionRow.t :=
  TransactionRow.Build id credit_id buyer_id quantity 12.5
    "2024-01-02T10:00:00" "00" "completed".

Definition catalog : DB :=
  {| carbon_credits := [ listing "CC001" "Direct Air Capture" 100 12.5;
                         listing "CC002" "Biochar" 10 80 ];
     transactions := [ sale "t1" "CC001" "buyer_001" 3;
                       sale "t2" "CC002" "admin_001" 1;
                       sale "t3" "CC404" "" 2 ] |}.

(** A catalog whose identifiers hold quote characters. *)
Definition quoted : DB :=
  {| carbon_credits := [ listing "a'b" "Direct Air Capture" 100 12.5;
                         listing "a''b" "Biochar" 1 80 ];
     transactions := [] |}.

(** An environment for the examples; none of them runs a statement that
    goes on after its literal. *)
Definition env : Env :=
  {| uuid4 := "0b0e7c1e-5c0a-4b0e-9d0a-3f1c2d4e5f60";
     datetime_now_isoformat := "2024-01-01T00:00:00";
     current_timestamp := "2024-01-03 09:00:00";
     insert_io_error := false;
     update_io_error := false;
     commit_io_error := false;
     select_continued := fun _ _ => inl "syntax error" |}.

(** An environment in which SQLite answers the statement
    [SELECT * FROM carbon_credits WHERE id = 'CC001' OR '1'='1'], whose
    condition holds of every row, with the first row of the table. *)
Definition injected : Env :=
  {| uuid4 := uuid4 env;
     datetime_now_isoformat := datetime_now_isoformat env;
     current_timestamp := current_timestamp env;
     insert_io_error := false;
     update_io_error := false;
     commit_io_error := false;
     select_continued :=
       fun command db =>
         if String.eqb command "SELECT * FROM carbon_credits WHERE id = 'CC001' OR '1'='1'"
         then inr (hd_error (carbon_credits db))
         else inl "syntax error" |}.

(** A credit as the sample file describes it, and a file with no table. *)
Definition offer (id credit_type : string) (quantity : Z) (price : float)
    : DataModels.CarbonCredit.t :=
  DataModels.CarbonCredit.Build id "Project" "Supplier" credit_type 2023 quantity price
    "Canada" "verified" "ISO 14064"
    (Json.Object [ ("registry", Json.String_ "CCX") ]) None.

Definition empty_file : File := {| credits_table := None; transactions_table := None |}.

Definition buyer : Main.User.t := Main.User.Build "buyer" "buyer_001".
Definition admin : Main.User.t := Main.User.Build "admin" "admin_001".
Definition public : Main.User.t := Main.User.Build "public" "public_user".

End Sample.

(* ================================================================= *)
(** ** Vocabulary of the statements *)

Module Spec.

Import Py.
Import DataModels.
Import Database.
Import Main.

(** An identifier that holds no quote and no NUL character. *)
Fixpoint plain (s : string) : bool :=
  match s with
  | EmptyString => true
  | String c s' =>
      negb (Ascii.eqb c Sqlite.quote) && negb (Ascii.eqb c Sqlite.nul) && plain s'
  end.

(** The digest in the specification's words: SHA-256 over the bytes of
    the four fields one after the other, in lowercase hexadecimal. *)
Definition digest (credit_id buyer_id : string) (quantity : Z) (transaction_date : string)
    : string :=
  Sha256.hex
    (Sha256.digest
       (encode credit_id ++ encode buyer_id ++ encode (str_of_int quantity)
        ++ encode transaction_date)).

Definition lowercase_hex (c : ascii) : bool :=
  existsb (Ascii.eqb c) (list_ascii_of_string "0123456789abcdef").

Fixpoint all_chars (p : ascii -> bool) (s : string) : bool :=
  match s with
  | EmptyString => true
  | String c s' => p c && all_chars p s'
  end.

(** A credit row after [q] of its [a] tons were sold at [stamp]. *)
Definition sold (row : CreditRow.t) (a q : Z) (stamp : string) : CreditRow.t :=
  CreditRow.Build
    (CreditRow.id row) (CreditRow.project_name row) (CreditRow.supplier row)
    (CreditRow.credit_type row) (CreditRow.vintage row)
    (Sqlite.Integer (a - q))
    (CreditRow.price_per_ton row)
    (CreditRow.location row) (CreditRow.verification_status row)
    (CreditRow.methodology row)
    (CreditRow.public_details row) (CreditRow.private_details row)
    (CreditRow.created_at row) stamp.

(** The database after the two statements of a purchase. *)
Definition applied (env : Env) (t : CreditTransaction.t) (db : DB) : DB :=
  {| carbon_credits :=
       map (fun row => if String.eqb (CreditRow.id row) (CreditTransaction.credit_id t)
                       then decrement env (CreditTransaction.quantity t) row else row)
           (carbon_credits db);
     transactions := transactions db ++ [row_of_transaction t] |}.

(** The transaction that [purchase_credits] hands to [purchase_credit]. *)
Definition submitted (env : Env) (request : TransactionRequest.t) (user : User.t)
    (credit : Credit.t) : CreditTransaction.t :=
  credit_transaction_of (new_transaction env request user credit)
    (create_transaction_hash (new_transaction env request user credit)).

(** The call returned a value: the response is a 200. *)
Definition returned {A : Type} (r : outcome A) : bool :=
  match r with
  | Return _ => true
  | _ => false
  end.

(** The storage engine fails none of the three steps. *)
Definition no_io_error (env : Env) : bool :=
  negb (insert_io_error env) && negb (update_io_error env) && negb (commit_io_error env).

(** [quantity_available >= 0] *)
Definition non_negative (v : Sqlite.number) : bool :=
  match v with
  | Sqlite.Integer z => 0 <=? z
  | Sqlite.Real f => negb (float_lt_int f 0)
  end.

Definition stock_non_negative (db : DB) : bool :=
  forallb (fun row => non_negative (CreditRow.quantity_available row)) (carbon_credits db).

(** Every availability is a non-negative SQLite INTEGER. *)
Definition stock_in_range (db : DB) : bool :=
  forallb (fun row => match CreditRow.quantity_available row with
                      | Sqlite.Integer a => (0 <=? a) && Sqlite.fits_int64 a
                      | Sqlite.Real _ => false
                      end)
          (carbon_credits db).

(** Every credit identifier is plain. *)
Definition plain_ids (db : DB) : bool :=
  forallb (fun row => plain (CreditRow.id row)) (carbon_credits db).

(** The credit type the public listing shows for a credit id: that of the
    last row of the catalog with this id, ["Unknown"] when there is none. *)
Definition shown_credit_type (db : DB) (credit_id : string) : string :=
  match find (fun row => String.eqb (CreditRow.id row) credit_id) (rev (carbon_credits db)) with
  | Some row => CreditRow.credit_type row
  | None => "Unknown"
  end.

(** The anonymized entry of a transaction. *)
Definition anonymized (db : DB) (r : TransactionRow.t) : dict value :=
  [ ("transaction_date", Str (TransactionRow.transaction_date r));
    ("credit_type", Str (shown_credit_type db (TransactionRow.credit_id r)));
    ("quantity", Int (TransactionRow.quantity r));
    ("price_per_ton", Float (TransactionRow.price_per_ton r)) ].

(** Two credit rows that differ at most in [quantity_available] and
    [updated_at]. *)
Definition same_listing (r r' : CreditRow.t) : Prop :=
  CreditRow.id r' = CreditRow.id r
  /\ CreditRow.project_name r' = CreditRow.project_name r
  /\ CreditRow.supplier r' = CreditRow.supplier r
  /\ CreditRow.credit_type r' = CreditRow.credit_type r
  /\ CreditRow.vintage r' = CreditRow.vintage r
  /\ CreditRow.price_per_ton r' = CreditRow.price_per_ton r
  /\ CreditRow.location r' = CreditRow.location r
  /\ CreditRow.verification_status r' = CreditRow.verification_status r
  /\ CreditRow.methodology r' = CreditRow.methodology r
  /\ CreditRow.public_details r' = CreditRow.public_details r
  /\ CreditRow.private_details r' = CreditRow.private_details r
  /\ CreditRow.created_at r' = CreditRow.created_at r.

(** The sum of the integer availabilities of a listing. *)
Definition listed_total (credits : list Credit.t) : Z :=
  fold_right (fun c total => match Credit.quantity_available c with
                             | Sqlite.Integer a => a + total
                             | Sqlite.Real _ => total
                             end)
             0 credits.

(** The sum of the integers among the values of a column. *)
Definition integer_total (vs : list Sqlite.number) : Z :=
  fold_right (fun v total => match v with
                             | Sqlite.Integer a => a + total
                             | Sqlite.Real _ => total
                             end)
             0 vs.

(** A non-negative SQLite INTEGER. *)
Definition in_range (v : Sqlite.number) : bool :=
  match v with
  | Sqlite.Integer a => (0 <=? a) && Sqlite.fits_int64 a
  | Sqlite.Real _ => false
  end.

(** The file that holds the two tables of a database. *)
Definition file_of (db : DB) : File :=
  {| credits_table := Some (carbon_credits db);
     transactions_table := Some (transactions db) |}.

(** The JSON object of a credit: every key is there, [private_details]
    with the value [null] when the credit has none. *)
Definition object_of (credit : CarbonCredit.t) : SampleCredit.t :=
  SampleCredit.Build
    (Some (CarbonCredit.id credit)) (Some (CarbonCredit.project_name credit))
    (Some (CarbonCredit.supplier credit)) (Some (CarbonCredit.credit_type credit))
    (Some (CarbonCredit.vintage credit)) (Some (CarbonCredit.quantity_available credit))
    (Some (CarbonCredit.price_per_ton credit))
    (Some (CarbonCredit.location credit)) (Some (CarbonCredit.verification_status credit))
    (Some (CarbonCredit.methodology credit))
    (Some (CarbonCredit.public_details credit))
    (Some (match CarbonCredit.private_details credit with
           | Some details => details
           | None => Json.Null
           end)).

(** A stored row whose numbers SQLite took: the two integers fit 64 bits
    and the price is not a NaN. *)
Definition bound (row : CreditRow.t) : bool :=
  Sqlite.fits_int64 (CreditRow.vintage row)
  && match CreditRow.quantity_available row with
     | Sqlite.Integer q => Sqlite.fits_int64 q
     | Sqlite.Real _ => false
     end
  && negb (PrimFloat.is_nan (CreditRow.price_per_ton row)).

(** The first of the twelve keys, in the order of the INSERT, that an
    object of the sample lacks. *)
Definition first_missing (credit : SampleCredit.t) : option string :=
  let absent {A : Type} (field : option A) :=
    match field with Some _ => false | None => true end in
  if absent (SampleCredit.id credit) then Some "id"
  else if absent (SampleCredit.project_name credit) then Some "project_name"
  else if absent (SampleCredit.supplier credit) then Some "supplier"
  else if absent (SampleCredit.credit_type credit) then Some "credit_type"
  else if absent (SampleCredit.vintage credit) then Some "vintage"
  else if absent (SampleCredit.quantity_available credit) then Some "quantity_available"
  else if absent (SampleCredit.price_per_ton credit) then Some "price_per_ton"
  else if absent (SampleCredit.location credit) then Some "location"
  else if absent (SampleCredit.verification_status credit) then Some "verification_status"
  else if absent (SampleCredit.methodology credit) then Some "methodology"
  else if absent (SampleCredit.public_details credit) then Some "public_details"
  else if absent (SampleCredit.private_details credit) then Some "private_details"
  else None.

(** A credit of the sample whose numbers SQLite takes: the two integers
    fit 64 bits and the price is not a NaN. *)
Definition bindable (credit : CarbonCredit.t) : bool :=
  Sqlite.fits_int64 (CarbonCredit.vintage credit)
  && Sqlite.fits_int64 (CarbonCredit.quantity_available credit)
  && negb (PrimFloat.is_nan (CarbonCredit.price_per_ton credit)).

(** The row that a credit of the sample makes when it is loaded at
    [stamp]. *)
Definition loaded (stamp : string) (credit : CarbonCredit.t) : CreditRow.t :=
  CreditRow.Build
    (CarbonCredit.id credit) (CarbonCredit.project_name credit)
    (CarbonCredit.supplier credit) (CarbonCredit.credit_type credit)
    (CarbonCredit.vintage credit)
    (Sqlite.Integer (CarbonCredit.quantity_available credit))
    (CarbonCredit.price_per_ton credit)
    (CarbonCredit.location credit) (CarbonCredit.verification_status credit)
    (CarbonCredit.methodology credit)
    (Json.dumps (CarbonCredit.public_details credit))
    (Some (Json.dumps (match CarbonCredit.private_details credit with
                       | Some details => details
                       | None => Json.Null
                       end)))
    stamp stamp.

(** A credit of the sample as the listing shows it once it is loaded at
    [stamp]. *)
Definition listed (stamp : string) (credit : CarbonCredit.t) : Credit.t :=
  Credit.Build
    (CarbonCredit.id credit) (CarbonCredit.project_name credit)
    (CarbonCredit.supplier credit) (CarbonCredit.credit_type credit)
    (CarbonCredit.vintage credit)
    (Sqlite.Integer (CarbonCredit.quantity_available credit))
    (CarbonCredit.price_per_ton credit)
    (CarbonCredit.location credit) (CarbonCredit.verification_status credit)
    (CarbonCredit.methodology credit)
    (CarbonCredit.public_details credit)
    (match CarbonCredit.private_details credit with
     | Some details => details
     | None => Json.Null
     end)
    stamp stamp.

End Spec.

(* ================================================================= *)
(** * Properties *)

Import Py.
Import DataModels.
Import Database.
Import Main.

(** ** hashlib.sha256 against the published test vectors *)

Example sha256_constants :
  List.length Sha256.K = 64%nat /\ List.length Sha256.H0 = 8%nat
  /\ nth 0 Sha256.K 0 = 0x428a2f98 /\ nth 63 Sha256.K 0 = 0xc67178f2
  /\ nth 0 Sha256.H0 0 = 0x6a09e667 /\ nth 7 Sha256.H0 0 = 0x5be0cd19.
Proof. repeat split. Qed.

Example sha256_empty :
  Sha256.hexdigest (encode "")
  = "e3b0c44298fc1c149afbf4c8996fb92427ae41e4649b934ca495991b7852b855".
Proof. vm_compute. reflexivity. Qed.

Example sha256_abc :
  Sha256.hexdigest (encode "abc")
  = "ba7816bf8f01cfea414140de5dae2223b00361a396177a9cb410ff61f20015ad".
Proof. vm_compute. reflexivity. Qed.

Example sha256_two_blocks :
  Sha256.hexdigest (encode "aaaaaaaaaaaaaaaaaaaaaaaaaaaaaaaaaaaaaaaaaaaaaaaaaaaaaaaa")
  = "b35439a4ac6f0948b6d6f9e3c6af0f5f590ce20f1bde7090ef7970686ec6738a".
Proof. vm_compute. reflexivity. Qed.

(** ** The SQL text of a lookup *)

Lemma strip_prefix_app (p s : string) :
  Sqlite.strip_prefix p (p ++ s)%string = Some s.
Proof.
  induction p as [|a p IH]; simpl.
  - destruct s; reflexivity.
  - rewrite Ascii.eqb_refl. exact IH.
Qed.

Lemma has_nul_app (a b : string) :
  Sqlite.has_nul (a ++ b)%string = Sqlite.has_nul a || Sqlite.has_nul b.
Proof.
  induction a as [|c a IH]; simpl; [reflexivity|].
  rewrite IH. apply orb_assoc.
Qed.

Lemma plain_no_nul (s : string) : Spec.plain s = true -> Sqlite.has_nul s = false.
Proof.
  induction s as [|c s IH]; simpl; [reflexivity|].
  intros H. apply andb_prop in H as [H Hs]. apply andb_prop in H as [_ Hn].
  apply negb_true_iff in Hn. rewrite Hn. simpl. auto.
Qed.

(** A plain identifier between quotes is read back as itself, and the
    statement ends with it. *)
Lemma scan_literal_plain (s : string) :
  Spec.plain s = true ->
  Sqlite.scan_literal (s ++ "'")%string = Some (s, EmptyString).
Proof.
  induction s as [|c s IH]; simpl; [reflexivity|].
  intros H. apply andb_prop in H as [H Hs]. apply andb_prop in H as [Hq _].
  apply negb_true_iff in Hq. rewrite Hq, (IH Hs). reflexivity.
Qed.

Lemma parse_where_plain (credit_id : string) :
  Spec.plain credit_id = true ->
  Sqlite.parse_where select_credit_eq (select_credit_command credit_id)
  = Sqlite.Equals credit_id.
Proof.
  intros H. unfold Sqlite.parse_where, select_credit_command.
  rewrite !has_nul_app, (plain_no_nul _ H), strip_prefix_app, (scan_literal_plain _ H).
  reflexivity.
Qed.

(** For a plain identifier the lookup is the exact match on [id]. *)
Lemma get_credit_by_id_plain (env : Env) (db : DB) (credit_id : string) :
  Spec.plain credit_id = true ->
  get_credit_by_id env db credit_id
  = Return (option_map credit_of_row
              (find (fun r => String.eqb (CreditRow.id r) credit_id) (carbon_credits db))).
Proof.
  intros H. unfold get_credit_by_id. rewrite (parse_where_plain _ H).
  destruct (find _ _); reflexivity.
Qed.

(** ** Rows under the PRIMARY KEY *)

Lemma same_id_same_row (rows : list CreditRow.t) (r r' : CreditRow.t) :
  NoDup (map CreditRow.id rows) -> In r rows -> In r' rows ->
  CreditRow.id r = CreditRow.id r' -> r = r'.
Proof.
  induction rows as [|x rows IH]; simpl; intros Hnd Hr Hr' Hid; [contradiction|].
  inversion Hnd as [|? ? Hx Hrest]; subst.
  destruct Hr as [->|Hr], Hr' as [->|Hr'].
  - reflexivity.
  - exfalso. apply Hx. rewrite Hid. now apply in_map.
  - exfalso. apply Hx. rewrite <- Hid. now apply in_map.
  - now apply IH.
Qed.

(** Under the PRIMARY KEY the exact match finds the row itself. *)
Lemma find_by_id (rows : list CreditRow.t) (row : CreditRow.t) :
  NoDup (map CreditRow.id rows) -> In row rows ->
  find (fun r => String.eqb (CreditRow.id r) (CreditRow.id row)) rows = Some row.
Proof.
  intros Hnd Hin.
  destruct (find _ rows) as [r|] eqn:Hf.
  - apply find_some in Hf as [Hr Hid]. apply String.eqb_eq in Hid.
    f_equal. now apply (same_id_same_row rows).
  - exfalso. apply (find_none _ _ Hf) in Hin. now rewrite String.eqb_refl in Hin.
Qed.

(** ** The steps of a purchase *)

Lemma execute_insert_inr (env : Env) (t : CreditTransaction.t)
    (conn c1 : Sqlite.connection DB) :
  execute_insert env t conn = inr c1 ->
  Sqlite.fits_int64 (CreditTransaction.quantity t) = true
  /\ c1 = Sqlite.write conn
            {| carbon_credits := carbon_credits (Sqlite.pending conn);
               transactions := transactions (Sqlite.pending conn) ++ [row_of_transaction t] |}.
Proof.
  unfold execute_insert.
  destruct (Sqlite.fits_int64 (CreditTransaction.quantity t)); simpl; [|discriminate].
  destruct (insert_io_error env); [discriminate|].
  destruct (is_nan (CreditTransaction.price_per_ton t)); [discriminate|].
  destruct (existsb _ _); [discriminate|].
  intros H. injection H as <-. split; reflexivity.
Qed.

Lemma execute_update_inr (env : Env) (q : Z) (credit_id : string)
    (conn c2 : Sqlite.connection DB) :
  execute_update env q credit_id conn = inr c2 ->
  c2 = Sqlite.write conn
         {| carbon_credits :=
              map (fun row => if String.eqb (CreditRow.id row) credit_id
                              then decrement env q row else row)
                  (carbon_credits (Sqlite.pending conn));
            transactions := transactions (Sqlite.pending conn) |}.
Proof.
  unfold execute_update.
  destruct (Sqlite.fits_int64 q); simpl; [|discriminate].
  destruct (update_io_error env); [discriminate|].
  intros H. injection H as <-. reflexivity.
Qed.

Lemma commit_inr (env : Env) (conn c3 : Sqlite.connection DB) :
  commit env conn = inr c3 -> c3 = Sqlite.commit conn.
Proof.
  unfold commit. destruct (commit_io_error env); [discriminate|].
  intros H. injection H as <-. reflexivity.
Qed.

(** A quantity that SQLite stores as an INTEGER is converted to a double
    without an error. *)
Lemma float_of_int_int64 (z : Z) :
  Sqlite.fits_int64 z = true -> float_of_int z = inr (nearest_double z).
Proof.
  unfold Sqlite.fits_int64, float_of_int. intros H.
  apply andb_prop in H as [Hlo Hhi].
  apply Z.leb_le in Hlo. apply Z.leb_le in Hhi.
  assert (Hbig : 2 ^ 63 < 2 ^ 1024 - 2 ^ 970) by (vm_compute; reflexivity).
  destruct (Z.ltb_spec (Z.abs z) (2 ^ 1024 - 2 ^ 970)) as [_|Hge]; [reflexivity|].
  exfalso. revert Hlo Hhi Hbig Hge.
  generalize (2 ^ 1024 - 2 ^ 970). intros big. lia.
Qed.

(** The outcome of [purchase_credit], step by step. *)
Lemma purchase_credit_cases (env : Env) (t : CreditTransaction.t) (db : DB) :
  let conn := Sqlite.connect db in
  let q := CreditTransaction.quantity t in
  let cid := CreditTransaction.credit_id t in
  (((exists e, execute_insert env t conn = inl e)
    \/ (exists c1 e, execute_insert env t conn = inr c1
                     /\ execute_update env q cid c1 = inl e)
    \/ (exists c1 c2 e, execute_insert env t conn = inr c1
                        /\ execute_update env q cid c1 = inr c2
                        /\ commit env c2 = inl e))
   /\ purchase_credit env t db = (false, db))
  \/
  ((exists c1 c2 c3, execute_insert env t conn = inr c1
                     /\ execute_update env q cid c1 = inr c2
                     /\ commit env c2 = inr c3)
   /\ Sqlite.fits_int64 q = true
   /\ purchase_credit env t db = (true, Spec.applied env t db)).
Proof.
  intros conn q cid. unfold purchase_credit. fold conn. fold q. fold cid.
  destruct (execute_insert env t conn) as [e|c1] eqn:Hi.
  { left. split; [left; eauto|reflexivity]. }
  destruct (execute_update env q cid c1) as [e|c2] eqn:Hu.
  { left. apply execute_insert_inr in Hi as [_ ->].
    split; [right; left; eauto|reflexivity]. }
  destruct (commit env c2) as [e|c3] eqn:Hc.
  { left. pose proof Hi as Hi'. pose proof Hu as Hu'.
    apply execute_insert_inr in Hi' as [_ ->]. apply execute_update_inr in Hu' as ->.
    split; [right; right; eauto 6|reflexivity]. }
  right. pose proof Hi as Hi'. pose proof Hu as Hu'. pose proof Hc as Hc'.
  apply execute_insert_inr in Hi' as [Hq ->]. apply execute_update_inr in Hu' as ->.
  apply commit_inr in Hc' as ->.
  split; [eauto 6|]. split; [exact Hq|reflexivity].
Qed.

(** ** The purchase route, once the request has passed its checks *)

Lemma purchase_credits_reached (env : Env) (request : TransactionRequest.t)
    (user : User.t) (db : DB) (credit : Credit.t) :
  existsb (String.eqb (User.user_type user)) BUYER_PERMISSIONS = true ->
  get_credit_by_id env db (TransactionRequest.credit_id request) = Return (Some credit) ->
  number_lt_int (Credit.quantity_available credit) (TransactionRequest.quantity request) = false ->
  purchase_credits env request user db
  = (let (success, db') := purchase_credit env (Spec.submitted env request user credit) db in
     if negb success then (Raise (HTTPException 500 "Transaction failed"), db')
     else
       match int_mul_float (TransactionRequest.quantity request) (Credit.price_per_ton credit) with
       | inl e => (Raise e, db')
       | inr total_cost =>
           (Return (PurchaseResponse.Build
                      (uuid4 env)
                      (create_transaction_hash (new_transaction env request user credit))
                      total_cost "completed"),
            db')
       end).
Proof.
  intros Hp Hl Hq. unfold purchase_credits. rewrite Hp, Hl, Hq. reflexivity.
Qed.

Lemma purchase_credits_failed (env : Env) (request : TransactionRequest.t)
    (user : User.t) (db : DB) (credit : Credit.t) :
  existsb (String.eqb (User.user_type user)) BUYER_PERMISSIONS = true ->
  get_credit_by_id env db (TransactionRequest.credit_id request) = Return (Some credit) ->
  number_lt_int (Credit.quantity_available credit) (TransactionRequest.quantity request) = false ->
  fst (purchase_credit env (Spec.submitted env request user credit) db) = false ->
  purchase_credits env request user db
  = (Raise (HTTPException 500 "Transaction failed"), db).
Proof.
  intros Hp Hl Hq Hf. rewrite (purchase_credits_reached _ _ _ _ _ Hp Hl Hq).
  destruct (purchase_credit_cases env (Spec.submitted env request user credit) db)
    as [[_ ->]|[_ [_ H]]]; [reflexivity|].
  rewrite H in Hf. discriminate.
Qed.

Lemma purchase_credits_succeeded (env : Env) (request : TransactionRequest.t)
    (user : User.t) (db : DB) (credit : Credit.t) :
  existsb (String.eqb (User.user_type user)) BUYER_PERMISSIONS = true ->
  get_credit_by_id env db (TransactionRequest.credit_id request) = Return (Some credit) ->
  number_lt_int (Credit.quantity_available credit) (TransactionRequest.quantity request) = false ->
  fst (purchase_credit env (Spec.submitted env request user credit) db) = true ->
  purchase_credits env request user db
  = (Return (PurchaseResponse.Build
               (uuid4 env)
               (create_transaction_hash (new_transaction env request user credit))
               (nearest_double (TransactionRequest.quantity request)
                * Credit.price_per_ton credit)%float
               "completed"),
     Spec.applied env (Spec.submitted env request user credit) db).
Proof.
  intros Hp Hl Hq Hf. rewrite (purchase_credits_reached _ _ _ _ _ Hp Hl Hq).
  destruct (purchase_credit_cases env (Spec.submitted env request user credit) db)
    as [[_ H]|[_ [Hfit ->]]].
  { rewrite H in Hf. discriminate. }
  cbn [negb]. unfold int_mul_float.
  change (CreditTransaction.quantity (Spec.submitted env request user credit))
    with (TransactionRequest.quantity request) in Hfit.
  rewrite (float_of_int_int64 _ Hfit). reflexivity.
Qed.

(** Every call of the route leaves the database as it was and reports no
    success, or reports success and has applied both statements. *)
Lemma purchase_credits_outcomes (env : Env) (request : TransactionRequest.t)
    (user : User.t) (db : DB) :
  (snd (purchase_credits env request user db) = db
   /\ Spec.returned (fst (purchase_credits env request user db)) = false)
  \/
  (exists credit response,
     get_credit_by_id env db (TransactionRequest.credit_id request) = Return (Some credit)
     /\ purchase_credits env request user db
        = (Return response, Spec.applied env (Spec.submitted env request user credit) db)).
Proof.
  destruct (existsb (String.eqb (User.user_type user)) BUYER_PERMISSIONS) eqn:Hp.
  2:{ left. unfold purchase_credits. rewrite Hp. split; reflexivity. }
  destruct (get_credit_by_id env db (TransactionRequest.credit_id request))
    as [[credit|]|e] eqn:Hl;
    try (left; unfold purchase_credits; rewrite Hp, Hl; split; reflexivity).
  destruct (number_lt_int (Credit.quantity_available credit)
                          (TransactionRequest.quantity request)) eqn:Hq.
  { left. unfold purchase_credits. rewrite Hp, Hl, Hq. split; reflexivity. }
  destruct (fst (purchase_credit env (Spec.submitted env request user credit) db)) eqn:Hf.
  - right. exists credit. eexists. split; [reflexivity|].
    apply purchase_credits_succeeded; assumption.
  - left. rewrite (purchase_credits_failed _ _ _ _ _ Hp Hl Hq Hf). split; reflexivity.
Qed.

(** C1, with an identifier that holds two quotes in a row: a transaction
    is recorded and nothing is decremented.  The catalog has 100 tons
    under [a'b] and no credit [a''b].  A buyer asks for 50 tons of
    [a''b]: in the SQL text of the lookup the two quotes stand for one,
    so the lookup finds [a'b] and the request passes the checks for an
    absent credit and for the stock; the INSERT records a transaction for
    [a''b]; the UPDATE binds the identifier as it is, matches no row and
    succeeds; the commit keeps the INSERT alone. *)
Theorem purchase_without_decrement :
  let db := {| carbon_credits := [ Sample.listing "a'b" "Direct Air Capture" 100 12.5 ];
               transactions := [] |} in
  let request := TransactionRequest.Build "a''b" 50 in
  let result := purchase_credits Sample.env request Sample.buyer db in
  select_credit_command "a''b" = "SELECT * FROM carbon_credits WHERE id = 'a''b'"
  /\ get_credit_by_id Sample.env db "a''b"
     = Return (Some (credit_of_row (Sample.listing "a'b" "Direct Air Capture" 100 12.5)))
  /\ status_code (fst result) = Some 200
  /\ map (fun r => (TransactionRow.credit_id r, TransactionRow.buyer_id r,
                    TransactionRow.quantity r, TransactionRow.status r))
         (transactions (snd result))
     = [ ("a''b", "buyer_001", 50, "completed") ]
  /\ carbon_credits (snd result)
     = [ Sample.listing "a'b" "Direct Air Capture" 100 12.5 ].
Proof.
  vm_compute. repeat split.
Qed.

(** ** All or nothing *)

(** Any of these makes one of the three steps of [purchase_credit] fail. *)
Lemma purchase_credit_fails (env : Env) (t : CreditTransaction.t) (db : DB) :
  Sqlite.fits_int64 (CreditTransaction.quantity t) = false
  \/ Spec.no_io_error env = false
  \/ is_nan (CreditTransaction.price_per_ton t) = true
  \/ In (CreditTransaction.id t) (map TransactionRow.id (transactions db)) ->
  purchase_credit env t db = (false, db).
Proof.
  intros H.
  destruct (purchase_credit_cases env t db) as [[_ Hf]|[[c1 [c2 [c3 [Hi [Hu Hc]]]]] _]];
    [exact Hf|exfalso].
  unfold execute_insert in Hi.
  destruct (Sqlite.fits_int64 (CreditTransaction.quantity t)) eqn:Hq;
    cbn [negb] in Hi; [|discriminate].
  destruct (insert_io_error env) eqn:Hii; [discriminate|].
  destruct (is_nan (CreditTransaction.price_per_ton t)) eqn:Hnan; [discriminate|].
  destruct (existsb _ _) eqn:Hid; [discriminate|].
  unfold execute_update in Hu. rewrite Hq in Hu. cbn [negb] in Hu.
  destruct (update_io_error env) eqn:Hui; [discriminate|].
  unfold commit in Hc. destruct (commit_io_error env) eqn:Hci; [discriminate|].
  destruct H as [H|[H|[H|H]]]; try discriminate.
  - unfold Spec.no_io_error in H. rewrite Hii, Hui, Hci in H. discriminate.
  - cbn [Sqlite.connect Sqlite.pending] in Hid.
    assert (Hex : existsb (fun r => String.eqb (TransactionRow.id r) (CreditTransaction.id t))
                          (transactions db) = true).
    { apply existsb_exists. apply in_map_iff in H as [r [Hr Hin]].
      exists r. split; [exact Hin|]. now apply String.eqb_eq. }
    rewrite Hex in Hid. discriminate.
Qed.

(** The two statements and the commit take effect together or not at
    all.  When the INSERT, the UPDATE or the commit fails,
    [purchase_credit] returns [False] and the database is the one from
    before the call, also when the INSERT had been made; when all three
    succeed, it returns [True], the transaction row is appended, every
    credit row whose [id] is the transaction's [credit_id] has its
    [quantity_available] lowered by the quantity and its [updated_at]
    stamped, and every other row is the same.  The route answers 500
    "Transaction failed" over the unchanged database when a purchase of a
    stored credit, within its stock, meets a failing step; and no call of
    the route ends in a state other than the old one, without a 200, or
    the one that a successful [purchase_credit] leaves, with a 200. *)
Theorem purchase_credit_all_or_nothing (env : Env) :
  (forall (t : CreditTransaction.t) (db : DB),
     let conn := Sqlite.connect db in
     let q := CreditTransaction.quantity t in
     let cid := CreditTransaction.credit_id t in
     let row :=
       TransactionRow.Build
         (CreditTransaction.id t) cid (CreditTransaction.buyer_id t) q
         (CreditTransaction.price_per_ton t) (CreditTransaction.transaction_date t)
         (CreditTransaction.transaction_hash t) (CreditTransaction.status t) in
     (((exists e, execute_insert env t conn = inl e)
       \/ (exists c1 e, execute_insert env t conn = inr c1
                        /\ transactions (Sqlite.pending c1) = transactions db ++ [ row ]
                        /\ execute_update env q cid c1 = inl e)
       \/ (exists c1 c2 e, execute_insert env t conn = inr c1
                           /\ execute_update env q cid c1 = inr c2
                           /\ transactions (Sqlite.pending c2) = transactions db ++ [ row ]
                           /\ commit env c2 = inl e))
      /\ purchase_credit env t db = (false, db))
     \/
     ((exists c1 c2 c3, execute_insert env t conn = inr c1
                        /\ execute_update env q cid c1 = inr c2
                        /\ commit env c2 = inr c3)
      /\ purchase_credit env t db
         = (true,
            {| carbon_credits :=
                 map (fun r =>
                        if String.eqb (CreditRow.id r) cid
                        then CreditRow.Build
                               (CreditRow.id r) (CreditRow.project_name r)
                               (CreditRow.supplier r) (CreditRow.credit_type r)
                               (CreditRow.vintage r)
                               (Sqlite.integer_affinity
                                  (Sqlite.sub (CreditRow.quantity_available r) q))
                               (CreditRow.price_per_ton r) (CreditRow.location r)
                               (CreditRow.verification_status r) (CreditRow.methodology r)
                               (CreditRow.public_details r) (CreditRow.private_details r)
                               (CreditRow.created_at r) (current_timestamp env)
                        else r)
                     (carbon_credits db);
               transactions := transactions db ++ [ row ] |})))
  /\
  (forall a q : Z,
     Sqlite.fits_int64 (a - q) = true ->
     Sqlite.integer_affinity (Sqlite.sub (Sqlite.Integer a) q) = Sqlite.Integer (a - q))
  /\
  (forall (request : TransactionRequest.t) (user : User.t) (db : DB) (c : CreditRow.t),
     existsb (String.eqb (User.user_type user)) BUYER_PERMISSIONS = true ->
     NoDup (map CreditRow.id (carbon_credits db)) ->
     In c (carbon_credits db) ->
     TransactionRequest.credit_id request = CreditRow.id c ->
     Spec.plain (CreditRow.id c) = true ->
     number_lt_int (CreditRow.quantity_available c) (TransactionRequest.quantity request)
     = false ->
     Sqlite.fits_int64 (TransactionRequest.quantity request) = false
     \/ Spec.no_io_error env = false
     \/ is_nan (CreditRow.price_per_ton c) = true
     \/ In (uuid4 env) (map TransactionRow.id (transactions db)) ->
     purchase_credits env request user db
     = (Raise (HTTPException 500 "Transaction failed"), db))
  /\
  (forall (request : TransactionRequest.t) (user : User.t) (db : DB),
     (snd (purchase_credits env request user db) = db
      /\ Spec.returned (fst (purchase_credits env request user db)) = false)
     \/
     (exists credit,
        get_credit_by_id env db (TransactionRequest.credit_id request) = Return (Some credit)
        /\ purchase_credit env (Spec.submitted env request user credit) db
           = (true, snd (purchase_credits env request user db))
        /\ Spec.returned (fst (purchase_credits env request user db)) = true)).
Proof.
  split; [|split; [|split]].
  - intros t db conn q cid row.
    destruct (purchase_credit_cases env t db) as [[Hs H]|[Hs [_ H]]].
    + left. split; [|exact H].
      destruct Hs as [Hs|[[c1 [e [Hi Hu]]]|[c1 [c2 [e [Hi [Hu Hc]]]]]]].
      * left. exact Hs.
      * right. left. exists c1, e. split; [exact Hi|]. split; [|exact Hu].
        apply execute_insert_inr in Hi as [_ ->]. reflexivity.
      * right. right. exists c1, c2, e. split; [exact Hi|]. split; [exact Hu|].
        split; [|exact Hc].
        apply execute_insert_inr in Hi as [_ ->]. apply execute_update_inr in Hu as ->.
        reflexivity.
    + right. split; [exact Hs|]. rewrite H. reflexivity.
  - intros a q Hfit. unfold Sqlite.sub. rewrite Hfit. reflexivity.
  - intros request user db c Hp Hnd Hin Hid Hplain Hq Hfail.
    assert (Hl : get_credit_by_id env db (TransactionRequest.credit_id request)
                 = Return (Some (credit_of_row c))).
    { rewrite Hid, (get_credit_by_id_plain _ _ _ Hplain), (find_by_id _ _ Hnd Hin).
      reflexivity. }
    apply (purchase_credits_failed _ _ _ _ _ Hp Hl Hq).
    rewrite purchase_credit_fails; [reflexivity|exact Hfail].
  - intros request user db.
    destruct (purchase_credits_outcomes env request user db)
      as [[Hdb Hr]|[credit [response [Hl H]]]].
    + left. split; [exact Hdb|exact Hr].
    + right. exists credit. split; [exact Hl|]. rewrite H. cbn [fst snd Spec.returned].
      split; [|reflexivity].
      destruct (purchase_credit_cases env (Spec.submitted env request user credit) db)
        as [[_ Hf]|[_ [_ Ht]]]; [|exact Ht].
      exfalso. pose proof (purchase_credits_reached env request user db credit) as Hreach.
      assert (Hp : existsb (String.eqb (User.user_type user)) BUYER_PERMISSIONS = true).
      { destruct (existsb _ BUYER_PERMISSIONS) eqn:E; [reflexivity|].
        unfold purchase_credits in H. rewrite E in H. discriminate H. }
      assert (Hq : number_lt_int (Credit.quantity_available credit)
                                 (TransactionRequest.quantity request) = false).
      { destruct (number_lt_int _ _) eqn:E; [|reflexivity].
        unfold purchase_credits in H. rewrite Hp, Hl, E in H. discriminate H. }
      rewrite (Hreach Hp Hl Hq), Hf in H. discriminate H.
Qed.

(** A full disk during the UPDATE: the INSERT is rolled back, the route
    answers 500 and the database is the one from before the call. *)
Lemma purchase_credit_all_or_nothing_example :
  purchase_credits
    {| uuid4 := uuid4 Sample.env;
       datetime_now_isoformat := datetime_now_isoformat Sample.env;
       current_timestamp := current_timestamp Sample.env;
       insert_io_error := false;
       update_io_error := true;
       commit_io_error := false;
       select_continued := select_continued Sample.env |}
    (TransactionRequest.Build "CC002" 4) Sample.buyer Sample.catalog
  = (Raise (HTTPException 500 "Transaction failed"), Sample.catalog).
Proof.
  refine (proj1 (proj2 (proj2 (purchase_credit_all_or_nothing _))) _ _ _
            (Sample.listing "CC002" "Biochar" 10 80) _ _ _ _ _ _ _).
  - reflexivity.
  - repeat constructor; simpl; intuition discriminate.
  - simpl. tauto.
  - reflexivity.
  - reflexivity.
  - reflexivity.
  - right. left. reflexivity.
Defined.

(** ** Requests beyond the stock *)

(** C3, with an identifier that holds two quotes in a row: a request
    beyond the stock is accepted.  The catalog has 100 tons under [a'b]
    and 1 ton under [a''b].  A buyer asks for 50 tons of [a''b], more
    than the 1 ton this credit has: the lookup reads [a'b], the check
    [quantity_available < quantity] compares 100 with 50, and the request
    is answered 200, not 400; a transaction for [a''b] is appended and
    the row of [a''b] is decremented. *)
Theorem purchase_beyond_stock_accepted :
  let request := TransactionRequest.Build "a''b" 50 in
  let result := purchase_credits Sample.env request Sample.buyer Sample.quoted in
  find (fun r => String.eqb (CreditRow.id r) (TransactionRequest.credit_id request))
       (carbon_credits Sample.quoted)
  = Some (Sample.listing "a''b" "Biochar" 1 80)
  /\ number_lt_int (CreditRow.quantity_available (Sample.listing "a''b" "Biochar" 1 80))
                   (TransactionRequest.quantity request) = true
  /\ status_code (fst result) = Some 200
  /\ map (fun r => (TransactionRow.credit_id r, TransactionRow.quantity r))
         (transactions (snd result))
     = map (fun r => (TransactionRow.credit_id r, TransactionRow.quantity r))
           (transactions Sample.quoted) ++ [ ("a''b", 50) ]
  /\ map (fun r => (CreditRow.id r, CreditRow.quantity_available r))
         (carbon_credits (snd result))
     = [ ("a'b", Sqlite.Integer 100); ("a''b", Sqlite.Integer (-49)) ].
Proof.
  vm_compute. repeat split.
Qed.

(** For a credit stored under a plain identifier the check is made
    against that credit: a request of a buyer or an admin for more than
    its [quantity_available] is answered 400 "Insufficient quantity
    available" and both tables are the ones from before the call. *)
Theorem purchase_beyond_stock_refused (env : Env) (request : TransactionRequest.t)
    (user : User.t) (db : DB) (c : CreditRow.t) :
  existsb (String.eqb (User.user_type user)) BUYER_PERMISSIONS = true ->
  NoDup (map CreditRow.id (carbon_credits db)) ->
  In c (carbon_credits db) ->
  TransactionRequest.credit_id request = CreditRow.id c ->
  Spec.plain (CreditRow.id c) = true ->
  number_lt_int (CreditRow.quantity_available c) (TransactionRequest.quantity request) = true ->
  purchase_credits env request user db
  = (Raise (HTTPException 400 "Insufficient quantity available"), db)
  /\ status_code (fst (purchase_credits env request user db)) = Some 400
  /\ carbon_credits (snd (purchase_credits env request user db)) = carbon_credits db
  /\ transactions (snd (purchase_credits env request user db)) = transactions db.
Proof.
  intros Hp Hnd Hin Hid Hplain Hlt.
  assert (H : purchase_credits env request user db
              = (Raise (HTTPException 400 "Insufficient quantity available"), db)).
  { unfold purchase_credits.
    rewrite Hp, Hid, (get_credit_by_id_plain _ _ _ Hplain), (find_by_id _ _ Hnd Hin).
    cbn [negb option_map credit_of_row Credit.quantity_available].
    rewrite Hlt. reflexivity. }
  rewrite H. repeat split.
Qed.

(** Eleven tons of a credit that has ten. *)
Lemma purchase_beyond_stock_refused_example :
  purchase_credits Sample.env (TransactionRequest.Build "CC002" 11) Sample.buyer Sample.catalog
  = (Raise (HTTPException 400 "Insufficient quantity available"), Sample.catalog).
Proof.
  refine (proj1 (purchase_beyond_stock_refused Sample.env (TransactionRequest.Build "CC002" 11)
                   Sample.buyer Sample.catalog (Sample.listing "CC002" "Biochar" 10 80)
                   _ _ _ _ _ _)).
  - reflexivity.
  - repeat constructor; simpl; intuition discriminate.
  - simpl. tauto.
  - reflexivity.
  - reflexivity.
  - reflexivity.
Defined.

(** ** The digest *)

Lemma list_ascii_of_string_app (a b : string) :
  list_ascii_of_string (a ++ b)%string = list_ascii_of_string a ++ list_ascii_of_string b.
Proof.
  induction a as [|c a IH]; simpl; [reflexivity|]. now rewrite IH.
Qed.

Lemma encode_app (a b : string) : encode (a ++ b)%string = encode a ++ encode b.
Proof.
  unfold encode. now rewrite list_ascii_of_string_app, map_app.
Qed.

(** The digest of the code is the digest of the specification, over the
    four fields of the dictionary. *)
Lemma create_transaction_hash_spec (t : Transaction.t) :
  create_transaction_hash t
  = Spec.digest (Transaction.credit_id t) (Transaction.buyer_id t)
                (Transaction.quantity t) (Transaction.transaction_date t).
Proof.
  unfold create_transaction_hash, hash_input, Spec.digest, Sha256.hexdigest.
  now rewrite !encode_app.
Qed.

Lemma be_bytes_length (n : nat) (x : Z) : List.length (Sha256.be_bytes n x) = n.
Proof.
  induction n as [|n IH]; simpl; [reflexivity|]. now rewrite IH.
Qed.

Lemma be_bytes_range (n : nat) (x : Z) :
  Forall (fun b => 0 <= b < 256) (Sha256.be_bytes n x).
Proof.
  induction n as [|n IH]; simpl; constructor; [|exact IH].
  change 255 with (Z.ones 8). rewrite Z.land_ones by lia.
  apply Z.mod_pos_bound. lia.
Qed.

Lemma blocks_length (n : nat) (h : list Z) (bs : list Z) :
  List.length h = 8%nat -> List.length (Sha256.blocks n h bs) = 8%nat.
Proof.
  revert h bs. induction n as [|n IH]; intros h bs Hh; simpl; [exact Hh|].
  apply IH. reflexivity.
Qed.

Lemma digest_length (msg : list Z) : List.length (Sha256.digest msg) = 32%nat.
Proof.
  unfold Sha256.digest.
  pose proof (blocks_length (List.length (Sha256.pad msg) / 64) Sha256.H0 (Sha256.pad msg)
                eq_refl) as H.
  destruct (Sha256.blocks _ _ _) as [|h0 [|h1 [|h2 [|h3 [|h4 [|h5 [|h6 [|h7 [|]]]]]]]]];
    try discriminate H.
  simpl. reflexivity.
Qed.

Lemma digest_range (msg : list Z) : Forall (fun b => 0 <= b < 256) (Sha256.digest msg).
Proof.
  unfold Sha256.digest. generalize (Sha256.blocks (List.length (Sha256.pad msg) / 64)
                                      Sha256.H0 (Sha256.pad msg)).
  intros l. induction l as [|x l IH]; cbn [flat_map]; [constructor|].
  apply Forall_app. split; [apply be_bytes_range|exact IH].
Qed.

Lemma hex_length (bs : list Z) :
  String.length (Sha256.hex bs) = (2 * List.length bs)%nat.
Proof.
  induction bs as [|b bs IH]; simpl; [reflexivity|]. rewrite IH. lia.
Qed.

Lemma hex_digit_lowercase (n : Z) :
  0 <= n < 16 -> Spec.lowercase_hex (Sha256.hex_digit n) = true.
Proof.
  intros H. unfold Sha256.hex_digit.
  assert (Hk : (Z.to_nat n < 16)%nat) by lia.
  revert Hk. generalize (Z.to_nat n). intros k Hk.
  do 16 (destruct k as [|k]; [reflexivity|]). lia.
Qed.

Lemma hex_lowercase (bs : list Z) :
  Forall (fun b => 0 <= b < 256) bs ->
  Spec.all_chars Spec.lowercase_hex (Sha256.hex bs) = true.
Proof.
  induction 1 as [|b bs Hb _ IH]; [reflexivity|].
  cbn [Sha256.hex Spec.all_chars].
  rewrite !hex_digit_lowercase, IH; [reflexivity| |].
  - apply Z.mod_pos_bound. lia.
  - split; [apply Z.div_pos; lia|apply Z.div_lt_upper_bound; lia].
Qed.

(** A digest is 64 lowercase hexadecimal characters. *)
Lemma digest_shape (credit_id buyer_id : string) (quantity : Z) (date : string) :
  String.length (Spec.digest credit_id buyer_id quantity date) = 64%nat
  /\ Spec.all_chars Spec.lowercase_hex (Spec.digest credit_id buyer_id quantity date) = true.
Proof.
  unfold Spec.digest. split.
  - rewrite hex_length, digest_length. reflexivity.
  - apply hex_lowercase, digest_range.
Qed.

(** A call of the route that returns has passed the three checks, has
    stored the transaction it built and answers with its fields. *)
Lemma purchase_credits_returned (env : Env) (request : TransactionRequest.t)
    (user : User.t) (db db' : DB) (response : PurchaseResponse.t) :
  purchase_credits env request user db = (Return response, db') ->
  exists credit,
    get_credit_by_id env db (TransactionRequest.credit_id request) = Return (Some credit)
    /\ number_lt_int (Credit.quantity_available credit)
                     (TransactionRequest.quantity request) = false
    /\ response
       = PurchaseResponse.Build
           (uuid4 env)
           (create_transaction_hash (new_transaction env request user credit))
           (nearest_double (TransactionRequest.quantity request)
            * Credit.price_per_ton credit)%float
           "completed"
    /\ db' = Spec.applied env (Spec.submitted env request user credit) db.
Proof.
  intros H.
  destruct (existsb (String.eqb (User.user_type user)) BUYER_PERMISSIONS) eqn:Hp.
  2:{ unfold purchase_credits in H. rewrite Hp in H. discriminate H. }
  destruct (get_credit_by_id env db (TransactionRequest.credit_id request))
    as [[credit|]|e] eqn:Hl;
    try (unfold purchase_credits in H; rewrite Hp, Hl in H; discriminate H).
  destruct (number_lt_int (Credit.quantity_available credit)
                          (TransactionRequest.quantity request)) eqn:Hq.
  { unfold purchase_credits in H. rewrite Hp, Hl, Hq in H. discriminate H. }
  destruct (fst (purchase_credit env (Spec.submitted env request user credit) db)) eqn:Hf.
  - rewrite (purchase_credits_succeeded _ _ _ _ _ Hp Hl Hq Hf) in H.
    injection H as <- <-. exists credit. repeat split. exact Hq.
  - rewrite (purchase_credits_failed _ _ _ _ _ Hp Hl Hq Hf) in H. discriminate H.
Qed.

(** C4. The transaction that a purchase records carries, as its
    [transaction_hash], the SHA-256 digest of the UTF-8 bytes of its own
    [credit_id], [buyer_id], decimal [quantity] and [transaction_date],
    joined in this order with nothing between them, written as 64
    lowercase hexadecimal characters; the response carries the same
    digest. *)
Theorem recorded_hash_is_sha256 (env : Env) (request : TransactionRequest.t)
    (user : User.t) (db db' : DB) (response : PurchaseResponse.t) :
  purchase_credits env request user db = (Return response, db') ->
  exists t : TransactionRow.t,
    transactions db' = transactions db ++ [t]
    /\ TransactionRow.transaction_hash t
       = Sha256.hex
           (Sha256.digest
              (encode (TransactionRow.credit_id t)
               ++ encode (TransactionRow.buyer_id t)
               ++ encode (str_of_int (TransactionRow.quantity t))
               ++ encode (TransactionRow.transaction_date t)))
    /\ TransactionRow.transaction_hash t
       = Sha256.hexdigest
           (encode (TransactionRow.credit_id t ++ TransactionRow.buyer_id t
                    ++ str_of_int (TransactionRow.quantity t)
                    ++ TransactionRow.transaction_date t)%string)
    /\ PurchaseResponse.transaction_hash response = TransactionRow.transaction_hash t
    /\ String.length (TransactionRow.transaction_hash t) = 64%nat
    /\ Spec.all_chars Spec.lowercase_hex (TransactionRow.transaction_hash t) = true.
Proof.
  intros H. apply purchase_credits_returned in H as [credit [_ [_ [-> ->]]]].
  exists (row_of_transaction (Spec.submitted env request user credit)).
  split; [reflexivity|].
  cbn [row_of_transaction Spec.submitted credit_transaction_of
       TransactionRow.transaction_hash TransactionRow.credit_id TransactionRow.buyer_id
       TransactionRow.quantity TransactionRow.transaction_date
       CreditTransaction.transaction_hash CreditTransaction.credit_id
       CreditTransaction.buyer_id CreditTransaction.quantity
       CreditTransaction.transaction_date CreditTransaction.id
       CreditTransaction.price_per_ton CreditTransaction.status
       PurchaseResponse.transaction_hash].
  split; [apply create_transaction_hash_spec|].
  split; [reflexivity|]. split; [reflexivity|].
  rewrite create_transaction_hash_spec. apply digest_shape.
Qed.

(** Four tons of CC002 for the buyer of the demo token. *)
Lemma recorded_hash_is_sha256_witness :
  exists t : TransactionRow.t,
    transactions
      (snd (purchase_credits Sample.env (TransactionRequest.Build "CC002" 4)
              Sample.buyer Sample.catalog))
    = transactions Sample.catalog ++ [t]
    /\ TransactionRow.transaction_hash t
       = Sha256.hexdigest (encode "CC002buyer_00142024-01-01T00:00:00").
Proof.
  destruct (recorded_hash_is_sha256 Sample.env (TransactionRequest.Build "CC002" 4)
              Sample.buyer Sample.catalog
              (snd (purchase_credits Sample.env (TransactionRequest.Build "CC002" 4)
                      Sample.buyer Sample.catalog))
              (PurchaseResponse.Build
                 (uuid4 Sample.env)
                 "2a71f08db9158ae087e97b848ce1252eb4f3fd90b8457e5003d861968db7e724"
                 320 "completed"))
    as [t [Ht [_ [Hh _]]]].
  - vm_compute. reflexivity.
  - exists t. split; [exact Ht|].
    rewrite Hh.
    assert (Hlast : last (transactions
                            (snd (purchase_credits Sample.env
                                    (TransactionRequest.Build "CC002" 4)
                                    Sample.buyer Sample.catalog)))
                         t = t)
      by (rewrite Ht; apply last_last).
    rewrite <- Hlast. vm_compute. reflexivity.
Defined.

(** ** The string that is hashed *)









(** ** Purchases within the stock *)

Lemma fresh_id (rows : list TransactionRow.t) (id : string) :
  ~ In id (map TransactionRow.id rows) ->
  existsb (fun r => String.eqb (TransactionRow.id r) id) rows = false.
Proof.
  induction rows as [|r rows IH]; simpl; intros H; [reflexivity|].
  destruct (String.eqb_spec (TransactionRow.id r) id) as [E|_]; [tauto|].
  apply IH. tauto.
Qed.

Lemma decrement_integer (env : Env) (q a : Z) (row : CreditRow.t) :
  CreditRow.quantity_available row = Sqlite.Integer a ->
  Sqlite.fits_int64 (a - q) = true ->
  decrement env q row = Spec.sold row a q (current_timestamp env).
Proof.
  intros Ha Hfit. unfold decrement, Spec.sold, Sqlite.sub.
  now rewrite Ha, Hfit.
Qed.

(** When nothing stands in its way, [purchase_credit] commits. *)
Lemma purchase_credit_commits (env : Env) (t : CreditTransaction.t) (db : DB) :
  Sqlite.fits_int64 (CreditTransaction.quantity t) = true ->
  is_nan (CreditTransaction.price_per_ton t) = false ->
  ~ In (CreditTransaction.id t) (map TransactionRow.id (transactions db)) ->
  Spec.no_io_error env = true ->
  purchase_credit env t db = (true, Spec.applied env t db).
Proof.
  intros Hfit Hnan Hfresh Hio. unfold Spec.no_io_error in Hio.
  apply andb_prop in Hio as [Hio Hc]. apply andb_prop in Hio as [Hi Hu].
  apply negb_true_iff in Hi, Hu, Hc.
  unfold purchase_credit, execute_insert, execute_update, commit.
  cbn [Sqlite.connect Sqlite.pending Sqlite.write Sqlite.disk].
  rewrite Hfit, Hi, Hnan, (fresh_id _ _ Hfresh), Hu, Hc. reflexivity.
Qed.

(** C2, as the code has it.  For a credit row [c] stored under a plain
    identifier (no quote, no NUL) and a request of a buyer or an admin
    that names it with a quantity [q <= c.quantity_available], where [q]
    and the new availability fit a 64-bit SQLite INTEGER, the identifier
    drawn for the transaction is new and the storage engine fails no
    statement: the response is 200 with [transaction_id],
    [transaction_hash], [total_cost = q * c.price_per_ton] and [status];
    [c.quantity_available] is decremented by exactly [q]; exactly one
    transaction is appended, with [quantity = q] and the [price_per_ton]
    of [c] at the time of the call; every other credit row is the same. *)
Theorem purchase_within_stock (env : Env) (request : TransactionRequest.t)
    (user : User.t) (db : DB) (c : CreditRow.t) (a : Z) :
  let q := TransactionRequest.quantity request in
  let h := Spec.digest (CreditRow.id c) (User.user_id user) q (datetime_now_isoformat env) in
  existsb (String.eqb (User.user_type user)) BUYER_PERMISSIONS = true ->
  NoDup (map CreditRow.id (carbon_credits db)) ->
  In c (carbon_credits db) ->
  TransactionRequest.credit_id request = CreditRow.id c ->
  Spec.plain (CreditRow.id c) = true ->
  CreditRow.quantity_available c = Sqlite.Integer a ->
  q <= a ->
  Sqlite.fits_int64 q = true ->
  Sqlite.fits_int64 (a - q) = true ->
  is_nan (CreditRow.price_per_ton c) = false ->
  ~ In (uuid4 env) (map TransactionRow.id (transactions db)) ->
  Spec.no_io_error env = true ->
  purchase_credits env request user db
  = (Return (PurchaseResponse.Build
               (uuid4 env) h
               (nearest_double q * CreditRow.price_per_ton c)%float
               "completed"),
     {| carbon_credits :=
          map (fun r => if String.eqb (CreditRow.id r) (CreditRow.id c)
                        then Spec.sold c a q (current_timestamp env) else r)
              (carbon_credits db);
        transactions :=
          transactions db
          ++ [ TransactionRow.Build
                 (uuid4 env) (CreditRow.id c) (User.user_id user) q
                 (CreditRow.price_per_ton c) (datetime_now_isoformat env) h
                 "completed" ] |})
  /\ status_code (fst (purchase_credits env request user db)) = Some 200.
Proof.
  intros q h Hp Hnd Hin Hid Hplain Ha Hle Hq Hnew Hnan Hfresh Hio.
  assert (Hl : get_credit_by_id env db (TransactionRequest.credit_id request)
               = Return (Some (credit_of_row c))).
  { rewrite Hid, (get_credit_by_id_plain _ _ _ Hplain), (find_by_id _ _ Hnd Hin).
    reflexivity. }
  assert (Hlt : number_lt_int (Credit.quantity_available (credit_of_row c)) q = false).
  { cbn [credit_of_row Credit.quantity_available]. rewrite Ha. cbn [number_lt_int].
    apply Z.ltb_ge. exact Hle. }
  assert (Hc : purchase_credit env (Spec.submitted env request user (credit_of_row c)) db
               = (true, Spec.applied env (Spec.submitted env request user (credit_of_row c)) db)).
  { apply purchase_credit_commits; assumption. }
  assert (H : purchase_credits env request user db
              = (Return (PurchaseResponse.Build
                           (uuid4 env)
                           (create_transaction_hash
                              (new_transaction env request user (credit_of_row c)))
                           (nearest_double q * CreditRow.price_per_ton c)%float
                           "completed"),
                 Spec.applied env (Spec.submitted env request user (credit_of_row c)) db)).
  { apply purchase_credits_succeeded; try assumption. now rewrite Hc. }
  rewrite H. split; [|reflexivity].
  rewrite create_transaction_hash_spec.
  unfold Spec.applied, Spec.submitted, new_transaction, credit_transaction_of, row_of_transaction.
  cbn [CreditTransaction.id CreditTransaction.credit_id CreditTransaction.buyer_id
       CreditTransaction.quantity CreditTransaction.price_per_ton
       CreditTransaction.transaction_date CreditTransaction.transaction_hash
       CreditTransaction.status Transaction.id Transaction.credit_id Transaction.buyer_id
       Transaction.quantity Transaction.price_per_ton Transaction.transaction_date
       Transaction.status credit_of_row Credit.price_per_ton].
  rewrite create_transaction_hash_spec.
  cbn [Transaction.credit_id Transaction.buyer_id Transaction.quantity
       Transaction.transaction_date].
  rewrite Hid. fold q. fold h. f_equal. f_equal.
  apply map_ext_in. intros r Hr.
  destruct (String.eqb_spec (CreditRow.id r) (CreditRow.id c)) as [E|_]; [|reflexivity].
  rewrite (same_id_same_row _ _ _ Hnd Hr Hin E).
  now apply decrement_integer.
Qed.

(** Four of the ten tons of CC002: six are left, one sale is added. *)
Lemma purchase_within_stock_witness :
  map CreditRow.quantity_available
      (carbon_credits
         (snd (purchase_credits Sample.env (TransactionRequest.Build "CC002" 4)
                 Sample.buyer Sample.catalog)))
  = [ Sqlite.Integer 100; Sqlite.Integer 6 ]
  /\ status_code
       (fst (purchase_credits Sample.env (TransactionRequest.Build "CC002" 4)
               Sample.buyer Sample.catalog))
     = Some 200.
Proof.
  destruct (purchase_within_stock Sample.env (TransactionRequest.Build "CC002" 4)
              Sample.buyer Sample.catalog (Sample.listing "CC002" "Biochar" 10 80) 10)
    as [H Hs].
  - reflexivity.
  - repeat constructor; simpl; intuition discriminate.
  - simpl. tauto.
  - reflexivity.
  - reflexivity.
  - reflexivity.
  - simpl. lia.
  - reflexivity.
  - reflexivity.
  - reflexivity.
  - simpl. intuition discriminate.
  - reflexivity.
  - split; [|exact Hs]. rewrite H. reflexivity.
Defined.

(** C2, as the specification words it, fails: a quantity below the
    smallest SQLite INTEGER is within the stock of CC002, and the request
    is answered 500 over an unchanged database. *)
Lemma purchase_within_stock_counterexample :
  In (Sample.listing "CC002" "Biochar" 10 80) (carbon_credits Sample.catalog)
  /\ - 2 ^ 63 - 1 <= 10
  /\ purchase_credits Sample.env (TransactionRequest.Build "CC002" (- 2 ^ 63 - 1))
       Sample.buyer Sample.catalog
     = (Raise (HTTPException 500 "Transaction failed"), Sample.catalog).
Proof.
  split; [simpl; tauto|]. split; [lia|]. vm_compute. reflexivity.
Qed.

(** ** Credit details *)

(** C6, for the [public] role: the code does not return the public view.
    For every credit that the lookup finds, the handler calls [.dict()]
    on the dictionary it got from [get_credit_by_id], a plain [dict] has
    no such attribute, and the request ends in an [AttributeError], a
    response 500. *)
Theorem public_view_raises (env : Env) (db : DB) (credit_id : string) (credit : Credit.t)
    (user : User.t) :
  get_credit_by_id env db credit_id = Return (Some credit) ->
  User.user_type user = "public" ->
  get_credit_details env db credit_id user
  = Raise (AttributeError "'dict' object has no attribute 'dict'")
  /\ status_code (get_credit_details env db credit_id user) = Some 500.
Proof.
  intros Hl Hu. unfold get_credit_details. rewrite Hl, Hu. split; reflexivity.
Qed.

(** CC001 asked for with the public demo token. *)
Lemma public_view_raises_witness :
  verify_token "demo_public_token" = Return Sample.public
  /\ get_credit_details Sample.env Sample.catalog "CC001" Sample.public
     = Raise (AttributeError "'dict' object has no attribute 'dict'").
Proof.
  split; [reflexivity|].
  refine (proj1 (public_view_raises Sample.env Sample.catalog "CC001" _ Sample.public _ _)).
  - vm_compute. reflexivity.
  - reflexivity.
Defined.

(** C7, for an identifier that holds a quote: the lookup raises.  The
    identifier is written into the SQL text, the single quote ["'"]
    leaves the string literal of the statement without its end, SQLite
    rejects the statement, and the route answers 500, whatever the
    catalog holds. *)
Theorem lookup_of_quote_raises (env : Env) (db : DB) (user : User.t) :
  select_credit_command "'" = "SELECT * FROM carbon_credits WHERE id = '''"
  /\ get_credit_by_id env db "'" = Raise (DatabaseError "unrecognized token")
  /\ get_credit_details env db "'" user = Raise (DatabaseError "unrecognized token")
  /\ status_code (get_credit_details env db "'" user) = Some 500.
Proof.
  repeat split.
Qed.

(** For a plain identifier the lookup is as the specification says: an
    identifier that no row has gives [None], and the route answers 404. *)
Lemma lookup_of_absent_plain_id (env : Env) (db : DB) (credit_id : string) (user : User.t) :
  Spec.plain credit_id = true ->
  ~ In credit_id (map CreditRow.id (carbon_credits db)) ->
  get_credit_by_id env db credit_id = Return None
  /\ get_credit_details env db credit_id user = Raise (HTTPException 404 "Credit not found").
Proof.
  intros Hplain Habsent.
  assert (H : get_credit_by_id env db credit_id = Return None).
  { rewrite (get_credit_by_id_plain _ _ _ Hplain).
    destruct (find _ _) as [r|] eqn:Hf; [|reflexivity].
    apply find_some in Hf as [Hr Hid]. apply String.eqb_eq in Hid.
    exfalso. apply Habsent. rewrite <- Hid. now apply in_map. }
  split; [exact H|]. unfold get_credit_details. now rewrite H.
Qed.

Lemma lookup_of_absent_plain_id_example :
  get_credit_details Sample.env Sample.catalog "CC404" Sample.buyer
  = Raise (HTTPException 404 "Credit not found").
Proof.
  refine (proj2 (lookup_of_absent_plain_id Sample.env Sample.catalog "CC404" Sample.buyer _ _)).
  - reflexivity.
  - simpl. intuition discriminate.
Defined.

(** ** The stock *)

(** C9, in a catalog whose identifiers hold quotes: the stock goes below
    zero.  The catalog has 100 tons under [a'b] and 1 ton under [a''b].
    A buyer asks for 50 tons of [a''b]: in the SQL text of the lookup the
    two quotes stand for one, so the check reads the 100 tons of [a'b];
    the UPDATE binds the identifier as it is and takes the 50 tons from
    the 1 ton of [a''b]. *)
Theorem stock_goes_negative :
  let request := TransactionRequest.Build "a''b" 50 in
  let after := snd (purchase_credits Sample.env request Sample.buyer Sample.quoted) in
  Spec.stock_non_negative Sample.quoted = true
  /\ map CreditRow.id (carbon_credits Sample.quoted) = [ "a'b"; "a''b" ]
  /\ option_map Credit.id
       (match get_credit_by_id Sample.env Sample.quoted "a''b" with
        | Return found => found
        | _ => None
        end)
     = Some "a'b"
  /\ status_code (fst (purchase_credits Sample.env request Sample.buyer Sample.quoted))
     = Some 200
  /\ map CreditRow.quantity_available (carbon_credits after)
     = [ Sqlite.Integer 100; Sqlite.Integer (-49) ]
  /\ Spec.stock_non_negative after = false.
Proof.
  vm_compute. repeat split.
Qed.

(** ** The ledger by buyer *)

(** C10. [get_transactions] with the empty string as [buyer_id] returns
    every transaction, as it does with no [buyer_id]; it filters by buyer
    only for a string that is not empty. *)
Theorem get_transactions_empty_buyer (db : DB) :
  Database.get_transactions db (Some "") = map dict_of_transaction (transactions db)
  /\ Database.get_transactions db (Some "") = Database.get_transactions db None
  /\ (forall (c : ascii) (s : string),
        Database.get_transactions db (Some (String c s))
        = map dict_of_transaction
            (filter (fun r => String.eqb (TransactionRow.buyer_id r) (String c s))
                    (transactions db))).
Proof.
  repeat split.
Qed.

(** In the sample ledger one of three transactions has the empty buyer. *)
Example empty_buyer_sample :
  List.length (Database.get_transactions Sample.catalog (Some "")) = 3%nat
  /\ List.length
       (filter (fun r => String.eqb (TransactionRow.buyer_id r) "")
               (transactions Sample.catalog))
     = 1%nat.
Proof.
  split; reflexivity.
Qed.

(** ** The transaction history *)

Lemma get_set {V : Type} (d : dict V) (k k' : string) (v : V) :
  get (Py.set d k v) k' = if String.eqb k k' then Some v else get d k'.
Proof.
  induction d as [|[k0 v0] d IH]; simpl.
  - reflexivity.
  - destruct (String.eqb_spec k0 k) as [->|Hne]; simpl.
    + destruct (String.eqb k k'); reflexivity.
    + rewrite IH. destruct (String.eqb_spec k0 k') as [->|_]; [|reflexivity].
      destruct (String.eqb_spec k k') as [->|_]; [contradiction|reflexivity].
Qed.

Lemma find_app {A : Type} (p : A -> bool) (l1 l2 : list A) :
  find p (l1 ++ l2) = match find p l1 with Some x => Some x | None => find p l2 end.
Proof.
  induction l1 as [|x l1 IH]; simpl; [reflexivity|].
  destruct (p x); [reflexivity|exact IH].
Qed.

(** The dictionary comprehension keeps, for each id, the last credit. *)
Lemma get_credit_lookup (credits : list Credit.t) (d : dict Credit.t) (k : string) :
  get (fold_left (fun lookup c => Py.set lookup (Credit.id c) c) credits d) k
  = match find (fun c => String.eqb (Credit.id c) k) (rev credits) with
    | Some c => Some c
    | None => get d k
    end.
Proof.
  revert d. induction credits as [|c credits IH]; intros d; simpl; [reflexivity|].
  rewrite IH, find_app, get_set. simpl.
  destruct (find _ (rev credits)); [reflexivity|].
  destruct (String.eqb (Credit.id c) k); reflexivity.
Qed.

Lemma find_credit_of_row (rows : list CreditRow.t) (k : string) :
  find (fun c => String.eqb (Credit.id c) k) (map credit_of_row rows)
  = option_map credit_of_row (find (fun r => String.eqb (CreditRow.id r) k) rows).
Proof.
  induction rows as [|r rows IH]; simpl; [reflexivity|].
  destruct (String.eqb (CreditRow.id r) k); [reflexivity|exact IH].
Qed.

Lemma credit_type_of_lookup (db : DB) (credit_id : string) :
  credit_type_of (credit_lookup_of (get_credits db)) (Str credit_id)
  = Str (Spec.shown_credit_type db credit_id).
Proof.
  unfold credit_type_of, credit_lookup_of, get_credits, Spec.shown_credit_type.
  rewrite get_credit_lookup, <- map_rev, find_credit_of_row.
  destruct (find _ (rev (carbon_credits db))); reflexivity.
Qed.

(** The list comprehension of the public branch, row by row. *)
Lemma public_comprehension (db : DB) (rows : list TransactionRow.t) :
  comprehension
    (fun t =>
       transaction_date <- item t "transaction_date" ;;
       credit_id <- item t "credit_id" ;;
       quantity <- item t "quantity" ;;
       price_per_ton <- item t "price_per_ton" ;;
       Return [ ("transaction_date", transaction_date);
                ("credit_type",
                 credit_type_of (credit_lookup_of (get_credits db)) credit_id);
                ("quantity", quantity);
                ("price_per_ton", price_per_ton) ])
    (map dict_of_transaction rows)
  = Return (map (Spec.anonymized db) rows).
Proof.
  induction rows as [|r rows IH]; [reflexivity|].
  cbn [map comprehension]. rewrite IH.
  cbn [dict_of_transaction item get bind String.eqb Ascii.eqb Bool.eqb andb].
  rewrite credit_type_of_lookup. reflexivity.
Qed.

(** C8. For every database and every caller whose token is recognized:
    an admin receives every transaction with all its eight columns, each
    under its name and with its stored value; a buyer receives, in the
    same form, exactly the transactions whose [buyer_id] is the caller's
    [user_id]; a public caller receives one entry for each transaction,
    with the four keys [transaction_date], [credit_type], [quantity] and
    [price_per_ton] and no [buyer_id] and no [id]. *)
Theorem transactions_by_role (db : DB) (token : string) (user : User.t) :
  verify_token token = Return user ->
  (User.user_type user = "admin" \/ User.user_type user = "buyer"
   \/ User.user_type user = "public")
  /\ (User.user_type user = "admin" ->
      Main.get_transactions db user
      = Return (map (fun r =>
                       [ ("id", Str (TransactionRow.id r));
                         ("credit_id", Str (TransactionRow.credit_id r));
                         ("buyer_id", Str (TransactionRow.buyer_id r));
                         ("quantity", Int (TransactionRow.quantity r));
                         ("price_per_ton", Float (TransactionRow.price_per_ton r));
                         ("transaction_date", Str (TransactionRow.transaction_date r));
                         ("transaction_hash", Str (TransactionRow.transaction_hash r));
                         ("status", Str (TransactionRow.status r)) ])
                    (transactions db)))
  /\ (User.user_type user = "buyer" ->
      Main.get_transactions db user
      = Return (map (fun r =>
                       [ ("id", Str (TransactionRow.id r));
                         ("credit_id", Str (TransactionRow.credit_id r));
                         ("buyer_id", Str (TransactionRow.buyer_id r));
                         ("quantity", Int (TransactionRow.quantity r));
                         ("price_per_ton", Float (TransactionRow.price_per_ton r));
                         ("transaction_date", Str (TransactionRow.transaction_date r));
                         ("transaction_hash", Str (TransactionRow.transaction_hash r));
                         ("status", Str (TransactionRow.status r)) ])
                    (filter (fun r => String.eqb (TransactionRow.buyer_id r)
                                                 (User.user_id user))
                            (transactions db))))
  /\ (User.user_type user = "public" ->
      Main.get_transactions db user
      = Return (map (fun r =>
                       [ ("transaction_date", Str (TransactionRow.transaction_date r));
                         ("credit_type",
                          Str (match find (fun row => String.eqb (CreditRow.id row)
                                                        (TransactionRow.credit_id r))
                                          (rev (carbon_credits db)) with
                               | Some row => CreditRow.credit_type row
                               | None => "Unknown"
                               end));
                         ("quantity", Int (TransactionRow.quantity r));
                         ("price_per_ton", Float (TransactionRow.price_per_ton r)) ])
                    (transactions db)))
  /\ (forall r : TransactionRow.t,
        dict_of_transaction r
        = [ ("id", Str (TransactionRow.id r));
            ("credit_id", Str (TransactionRow.credit_id r));
            ("buyer_id", Str (TransactionRow.buyer_id r));
            ("quantity", Int (TransactionRow.quantity r));
            ("price_per_ton", Float (TransactionRow.price_per_ton r));
            ("transaction_date", Str (TransactionRow.transaction_date r));
            ("transaction_hash", Str (TransactionRow.transaction_hash r));
            ("status", Str (TransactionRow.status r)) ]
        /\ keys (dict_of_transaction r)
           = [ "id"; "credit_id"; "buyer_id"; "quantity"; "price_per_ton";
               "transaction_date"; "transaction_hash"; "status" ])
  /\ (forall r : TransactionRow.t,
        keys (Spec.anonymized db r)
        = [ "transaction_date"; "credit_type"; "quantity"; "price_per_ton" ]
        /\ get (Spec.anonymized db r) "buyer_id" = None
        /\ get (Spec.anonymized db r) "id" = None
        /\ get (Spec.anonymized db r) "transaction_date"
           = Some (Str (TransactionRow.transaction_date r))
        /\ get (Spec.anonymized db r) "quantity" = Some (Int (TransactionRow.quantity r))
        /\ get (Spec.anonymized db r) "price_per_ton"
           = Some (Float (TransactionRow.price_per_ton r))).
Proof.
  intros Hv. unfold verify_token in Hv.
  assert (Hpublic : Main.get_transactions db (User.Build "public" "public_user")
                    = Return (map (Spec.anonymized db) (transactions db))).
  { unfold Main.get_transactions. cbn [User.user_type String.eqb Ascii.eqb Bool.eqb].
    apply public_comprehension. }
  destruct (String.eqb token "demo_public_token");
    [|destruct (String.eqb token "demo_buyer_token");
      [|destruct (String.eqb token "demo_admin_token"); [|discriminate Hv]]];
    injection Hv as <-; cbn [User.user_type User.user_id].
  - split; [tauto|]. split; [discriminate|]. split; [discriminate|].
    split; [intros _; exact Hpublic|]. split; [intros r; split; reflexivity|].
    intros r. repeat split.
  - split; [tauto|]. split; [discriminate|]. split; [reflexivity|].
    split; [discriminate|]. split; [intros r; split; reflexivity|].
    intros r. repeat split.
  - split; [tauto|]. split; [reflexivity|]. split; [discriminate|].
    split; [discriminate|]. split; [intros r; split; reflexivity|].
    intros r. repeat split.
Qed.

(** The buyer of the demo token sees the one sale made to buyer_001. *)
Lemma transactions_by_role_witness :
  Main.get_transactions Sample.catalog Sample.buyer
  = Return [ [ ("id", Str "t1");
               ("credit_id", Str "CC001");
               ("buyer_id", Str "buyer_001");
               ("quantity", Int 3);
               ("price_per_ton", Float 12.5);
               ("transaction_date", Str "2024-01-02T10:00:00");
               ("transaction_hash", Str "00");
               ("status", Str "completed") ] ].
Proof.
  refine (proj1 (proj2 (proj2 (transactions_by_role Sample.catalog "demo_buyer_token"
                                Sample.buyer _))) _); reflexivity.
Defined.

(** ** The stock of a catalog with plain identifiers *)

(** In a catalog whose identifiers are plain, a purchase of a quantity
    that is not negative leaves every availability a non-negative
    integer: the row that the check reads is the row that the UPDATE
    decrements. *)
Lemma stock_stays_in_range (env : Env) (request : TransactionRequest.t)
    (user : User.t) (db : DB) :
  NoDup (map CreditRow.id (carbon_credits db)) ->
  Spec.plain_ids db = true ->
  Spec.stock_in_range db = true ->
  0 <= TransactionRequest.quantity request ->
  Spec.stock_in_range (snd (purchase_credits env request user db)) = true.
Proof.
  intros Hnd Hplain Hrange Hq.
  destruct (purchase_credits env request user db) as [[response|e] db'] eqn:H;
    cbn [snd];
    try (destruct (purchase_credits_outcomes env request user db)
           as [[Hsame _]|[credit [response' [_ Heq]]]];
         [rewrite H in Hsame; cbn [snd] in Hsame; now rewrite Hsame
         |rewrite H in Heq; discriminate Heq]).
  apply purchase_credits_returned in H as [credit [Hl [Hlt [_ ->]]]].
  unfold Spec.stock_in_range, Spec.applied. cbn [carbon_credits].
  apply forallb_forall. intros x Hx. apply in_map_iff in Hx as [r [<- Hr]].
  unfold Spec.stock_in_range in Hrange.
  pose proof (proj1 (forallb_forall _ _) Hrange r Hr) as Hrow.
  cbn [Spec.submitted credit_transaction_of new_transaction CreditTransaction.credit_id
       CreditTransaction.quantity Transaction.credit_id Transaction.quantity].
  destruct (String.eqb_spec (CreditRow.id r) (TransactionRequest.credit_id request))
    as [Hid|_]; [|exact Hrow].
  pose proof (proj1 (forallb_forall _ _) Hplain r Hr) as Hp. cbn beta in Hp.
  rewrite Hid in Hp. rewrite (get_credit_by_id_plain _ _ _ Hp) in Hl.
  destruct (find _ (carbon_credits db)) as [r0|] eqn:Hf; [|discriminate Hl].
  injection Hl as <-.
  apply find_some in Hf as [Hr0 Hid0]. apply String.eqb_eq in Hid0.
  assert (r0 = r) as -> by (apply (same_id_same_row _ _ _ Hnd Hr0 Hr); congruence).
  cbn [credit_of_row Credit.quantity_available] in Hlt.
  unfold decrement. cbn beta. cbn [CreditRow.quantity_available]. cbn beta in Hrow.
  destruct (CreditRow.quantity_available r) as [a|f]; [|discriminate Hrow].
  cbn [number_lt_int] in Hlt. apply Z.ltb_ge in Hlt.
  apply andb_prop in Hrow as [H0 Hfit]. apply Z.leb_le in H0.
  unfold Sqlite.fits_int64 in Hfit. apply andb_prop in Hfit as [Hlo Hhi].
  apply Z.leb_le in Hlo, Hhi.
  assert (Hfit' : Sqlite.fits_int64 (a - TransactionRequest.quantity request) = true).
  { unfold Sqlite.fits_int64. apply andb_true_intro. split; apply Z.leb_le; lia. }
  unfold Sqlite.sub. rewrite Hfit'. cbn [Sqlite.integer_affinity].
  rewrite Hfit'. apply andb_true_intro. split; [apply Z.leb_le; lia|reflexivity].
Qed.

Lemma stock_stays_in_range_example :
  Spec.stock_in_range
    (snd (purchase_credits Sample.env (TransactionRequest.Build "CC002" 10)
            Sample.admin Sample.catalog))
  = true.
Proof.
  apply stock_stays_in_range.
  - repeat constructor; simpl; intuition discriminate.
  - reflexivity.
  - reflexivity.
  - simpl. lia.
Defined.

(* ================================================================= *)
(** * Further properties of the code *)

(** ** The digest and its fields *)

(** The four fields are joined with nothing between them: characters
    moved from the end of [credit_id] to the front of [buyer_id] leave the
    digest as it is, whatever the other keys of the two dictionaries. *)
Theorem digest_ignores_field_boundary (id id' status status' : string)
    (price price' : float) (credit_id moved buyer_id : string) (quantity : Z)
    (date : string) :
  create_transaction_hash
    (Transaction.Build id (credit_id ++ moved)%string buyer_id quantity price date status)
  = create_transaction_hash
      (Transaction.Build id' credit_id (moved ++ buyer_id)%string quantity price' date status').
Proof.
  unfold create_transaction_hash, hash_input.
  cbn [Transaction.credit_id Transaction.buyer_id Transaction.quantity
       Transaction.transaction_date].
  apply (f_equal Sha256.hexdigest). rewrite !encode_app. now rewrite !app_assoc.
Qed.

Lemma digest_ignores_field_boundary_sample :
  create_transaction_hash
    (Transaction.Build "t1" "CC00" "1buyer_001" 4 80 "2024-01-01T00:00:00" "completed")
  = create_transaction_hash
      (Transaction.Build "t2" "CC001" "buyer_001" 4 80 "2024-01-01T00:00:00" "completed").
Proof.
  exact (digest_ignores_field_boundary "t2" "t1" "completed" "completed" 80 80
           "CC00" "1" "buyer_001" 4 "2024-01-01T00:00:00").
Defined.

(** Whatever the dictionary holds, the digest is 64 characters, each one
    of [0-9a-f]. *)
Theorem create_transaction_hash_shape (t : Transaction.t) :
  String.length (create_transaction_hash t) = 64%nat
  /\ Spec.all_chars Spec.lowercase_hex (create_transaction_hash t) = true.
Proof.
  rewrite create_transaction_hash_spec. apply digest_shape.
Qed.

(** ** Who can buy *)

(** With any token other than the buyer's and the admin's, the purchase
    route writes nothing and runs no lookup: the answer is 403 for the
    public token and 401 for every other text, whatever the request. *)
Theorem purchase_needs_buyer_or_admin (env : Env) (token : string)
    (request : TransactionRequest.t) (db : DB) :
  token <> "demo_buyer_token" -> token <> "demo_admin_token" ->
  snd (purchase_credits_with_token env token request db) = db
  /\ status_code (fst (purchase_credits_with_token env token request db))
     = Some (if String.eqb token "demo_public_token" then 403 else 401).
Proof.
  intros Hb Ha. apply String.eqb_neq in Hb, Ha.
  unfold purchase_credits_with_token, verify_token. rewrite Hb, Ha.
  destruct (String.eqb token "demo_public_token"); split; reflexivity.
Qed.

(** The public token, and a request whose credit id is SQL text. *)
Lemma purchase_needs_buyer_or_admin_example :
  snd (purchase_credits_with_token Sample.env "demo_public_token"
         (TransactionRequest.Build "' OR '1'='1" 1) Sample.catalog)
  = Sample.catalog
  /\ status_code
       (fst (purchase_credits_with_token Sample.env "demo_public_token"
               (TransactionRequest.Build "' OR '1'='1" 1) Sample.catalog))
     = Some 403.
Proof.
  apply (purchase_needs_buyer_or_admin Sample.env "demo_public_token"
           (TransactionRequest.Build "' OR '1'='1" 1) Sample.catalog); discriminate.
Defined.

(** ** What a purchase leaves alone *)

Lemma decrement_same_listing (env : Env) (q : Z) (r : CreditRow.t) :
  Spec.same_listing r (decrement env q r).
Proof.
  repeat split.
Qed.

Lemma same_listing_refl (r : CreditRow.t) : Spec.same_listing r r.
Proof.
  repeat split.
Qed.

Lemma Forall2_map_r {A B : Type} (R : A -> B -> Prop) (f : A -> B) (l : list A) :
  (forall a, In a l -> R a (f a)) -> Forall2 R l (map f l).
Proof.
  induction l as [|a l IH]; intros H; simpl; constructor.
  - apply H. now left.
  - apply IH. intros x Hx. apply H. now right.
Qed.

(** Every call of the purchase route, whatever its outcome, keeps the
    credit rows in their order and keeps every column of every row but
    [quantity_available] and [updated_at]; it leaves the rows of other
    credit ids as they are; and it keeps every transaction row, adding at
    most one at the end. *)
Theorem purchase_frame (env : Env) (request : TransactionRequest.t) (user : User.t)
    (db : DB) :
  let db' := snd (purchase_credits env request user db) in
  Forall2 Spec.same_listing (carbon_credits db) (carbon_credits db')
  /\ Forall2 (fun r r' => CreditRow.id r <> TransactionRequest.credit_id request -> r' = r)
             (carbon_credits db) (carbon_credits db')
  /\ exists added,
       transactions db' = transactions db ++ added /\ (List.length added <= 1)%nat.
Proof.
  intros db'. subst db'.
  destruct (purchase_credits_outcomes env request user db)
    as [[-> _]|[credit [response [_ ->]]]].
  - split; [|split].
    + rewrite <- (map_id (carbon_credits db)) at 2.
      apply Forall2_map_r. intros r _. apply same_listing_refl.
    + rewrite <- (map_id (carbon_credits db)) at 2.
      apply Forall2_map_r. intros r _ _. reflexivity.
    + exists []. rewrite app_nil_r. split; [reflexivity|simpl; lia].
  - cbn [snd Spec.applied carbon_credits transactions]. split; [|split].
    + apply Forall2_map_r. intros r _.
      destruct (String.eqb _ _); [apply decrement_same_listing|apply same_listing_refl].
    + apply Forall2_map_r. intros r _ Hne.
      cbn [Spec.submitted credit_transaction_of new_transaction
           CreditTransaction.credit_id Transaction.credit_id].
      apply String.eqb_neq in Hne. now rewrite Hne.
    + eexists. split; [reflexivity|simpl; lia].
Qed.

(** ** What a stored purchase has passed *)

Lemma existsb_id_false (rows : list TransactionRow.t) (id : string) :
  existsb (fun r => String.eqb (TransactionRow.id r) id) rows = false ->
  ~ In id (map TransactionRow.id rows).
Proof.
  induction rows as [|r rows IH]; simpl; intros H; [tauto|].
  apply orb_false_elim in H as [Hr Hrest]. apply String.eqb_neq in Hr.
  intros [E|Hin]; [contradiction|]. now apply IH.
Qed.

Lemma execute_insert_fresh (env : Env) (t : CreditTransaction.t)
    (conn c1 : Sqlite.connection DB) :
  execute_insert env t conn = inr c1 ->
  ~ In (CreditTransaction.id t) (map TransactionRow.id (transactions (Sqlite.pending conn))).
Proof.
  unfold execute_insert.
  destruct (Sqlite.fits_int64 (CreditTransaction.quantity t)); simpl; [|discriminate].
  destruct (insert_io_error env); [discriminate|].
  destruct (is_nan (CreditTransaction.price_per_ton t)); [discriminate|].
  destruct (existsb _ _) eqn:He; [discriminate|].
  intros _. now apply existsb_id_false.
Qed.

(** [purchase_credit] returns [True] only for a quantity that SQLite can
    store and an identifier that the ledger does not have yet. *)
Lemma purchase_credit_true (env : Env) (t : CreditTransaction.t) (db db' : DB) :
  purchase_credit env t db = (true, db') ->
  Sqlite.fits_int64 (CreditTransaction.quantity t) = true
  /\ ~ In (CreditTransaction.id t) (map TransactionRow.id (transactions db))
  /\ db' = Spec.applied env t db.
Proof.
  intros H.
  destruct (purchase_credit_cases env t db) as [[_ Hf]|[[c1 [c2 [c3 [Hi _]]]] [Hfit Ht]]].
  - rewrite Hf in H. discriminate H.
  - rewrite Ht in H. injection H as <-.
    split; [exact Hfit|]. split; [|reflexivity].
    exact (execute_insert_fresh _ _ _ _ Hi).
Qed.

Lemma purchase_credits_stored (env : Env) (request : TransactionRequest.t)
    (user : User.t) (db db' : DB) (response : PurchaseResponse.t) :
  purchase_credits env request user db = (Return response, db') ->
  exists credit,
    get_credit_by_id env db (TransactionRequest.credit_id request) = Return (Some credit)
    /\ number_lt_int (Credit.quantity_available credit)
                     (TransactionRequest.quantity request) = false
    /\ purchase_credit env (Spec.submitted env request user credit) db = (true, db').
Proof.
  intros H. pose proof H as H'.
  apply purchase_credits_returned in H' as [credit [Hl [Hlt [_ ->]]]].
  exists credit. split; [exact Hl|]. split; [exact Hlt|].
  destruct (purchase_credit_cases env (Spec.submitted env request user credit) db)
    as [[_ Hf]|[_ [_ Ht]]]; [|exact Ht].
  exfalso.
  destruct (existsb (String.eqb (User.user_type user)) BUYER_PERMISSIONS) eqn:Hp.
  2:{ unfold purchase_credits in H. rewrite Hp in H. discriminate H. }
  rewrite (purchase_credits_failed _ _ _ _ _ Hp Hl Hlt) in H; [discriminate H|].
  now rewrite Hf.
Qed.

(** ** The ledger's identifiers *)

(** When the identifier drawn for the transaction is already in the
    ledger, the route stores nothing and reports no success. *)
Theorem duplicate_transaction_id_stores_nothing (env : Env)
    (request : TransactionRequest.t) (user : User.t) (db : DB) :
  In (uuid4 env) (map TransactionRow.id (transactions db)) ->
  snd (purchase_credits env request user db) = db
  /\ Spec.returned (fst (purchase_credits env request user db)) = false.
Proof.
  intros Hin.
  destruct (purchase_credits_outcomes env request user db)
    as [H|[credit [response [_ H]]]]; [exact H|].
  exfalso. apply purchase_credits_stored in H as [credit' [_ [_ H]]].
  apply purchase_credit_true in H as [_ [Hfresh _]]. exact (Hfresh Hin).
Qed.

(** The sale t1 is in the ledger; a purchase that draws ["t1"] again. *)
Lemma duplicate_transaction_id_example :
  purchase_credits
    {| uuid4 := "t1";
       datetime_now_isoformat := datetime_now_isoformat Sample.env;
       current_timestamp := current_timestamp Sample.env;
       insert_io_error := false;
       update_io_error := false;
       commit_io_error := false;
       select_continued := select_continued Sample.env |}
    (TransactionRequest.Build "CC002" 4) Sample.buyer Sample.catalog
  = (Raise (HTTPException 500 "Transaction failed"), Sample.catalog)
  /\ snd (purchase_credits
            {| uuid4 := "t1";
               datetime_now_isoformat := datetime_now_isoformat Sample.env;
               current_timestamp := current_timestamp Sample.env;
               insert_io_error := false;
               update_io_error := false;
               commit_io_error := false;
       select_continued := select_continued Sample.env |}
            (TransactionRequest.Build "CC002" 4) Sample.buyer Sample.catalog)
     = Sample.catalog.
Proof.
  split; [vm_compute; reflexivity|].
  refine (proj1 (duplicate_transaction_id_stores_nothing _ _ _ _ _)).
  simpl. tauto.
Defined.

Lemma NoDup_snoc {A : Type} (l : list A) (x : A) :
  NoDup l -> ~ In x l -> NoDup (l ++ [x]).
Proof.
  induction l as [|a l IH]; simpl; intros Hnd Hx.
  - constructor; [tauto|constructor].
  - inversion Hnd as [|? ? Ha Hl]; subst. constructor.
    + rewrite in_app_iff. simpl. intros [H|[H|[]]]; [contradiction|].
      apply Hx. now left.
    + apply IH; [exact Hl|]. intros H. apply Hx. now right.
Qed.

(** A ledger whose identifiers are distinct keeps them distinct through
    every call of the purchase route. *)
Theorem ledger_ids_stay_distinct (env : Env) (request : TransactionRequest.t)
    (user : User.t) (db : DB) :
  NoDup (map TransactionRow.id (transactions db)) ->
  NoDup (map TransactionRow.id (transactions (snd (purchase_credits env request user db)))).
Proof.
  intros Hnd.
  destruct (purchase_credits_outcomes env request user db)
    as [[-> _]|[credit [response [_ H]]]]; [exact Hnd|].
  rewrite H. cbn [snd].
  apply purchase_credits_stored in H as [credit' [_ [_ H]]].
  apply purchase_credit_true in H as [_ [Hfresh _]].
  cbn [Spec.applied transactions]. rewrite map_app.
  apply NoDup_snoc; [exact Hnd|exact Hfresh].
Qed.

Lemma ledger_ids_stay_distinct_example :
  NoDup (map TransactionRow.id
           (transactions
              (snd (purchase_credits Sample.env (TransactionRequest.Build "CC002" 4)
                      Sample.buyer Sample.catalog)))).
Proof.
  apply ledger_ids_stay_distinct.
  repeat constructor; simpl; intuition discriminate.
Defined.

(** ** Reading a credit that is stored *)

Lemma stored_plain_id_found (env : Env) (db : DB) (row : CreditRow.t) :
  NoDup (map CreditRow.id (carbon_credits db)) ->
  In row (carbon_credits db) ->
  Spec.plain (CreditRow.id row) = true ->
  get_credit_by_id env db (CreditRow.id row) = Return (Some (credit_of_row row)).
Proof.
  intros Hnd Hin Hplain.
  rewrite (get_credit_by_id_plain _ _ _ Hplain), (find_by_id _ _ Hnd Hin). reflexivity.
Qed.

(** The lookup by a plain identifier returns the row stored under it, the
    two detail columns read back from their JSON text. *)
Theorem lookup_of_stored_plain_id (env : Env) (db : DB) (row : CreditRow.t) :
  NoDup (map CreditRow.id (carbon_credits db)) ->
  In row (carbon_credits db) ->
  Spec.plain (CreditRow.id row) = true ->
  get_credit_by_id env db (CreditRow.id row) = Return (Some (credit_of_row row))
  /\ Credit.public_details (credit_of_row row) = Json.loads (CreditRow.public_details row)
  /\ get_credit_details env db (CreditRow.id row) (User.Build "buyer" "buyer_001")
     = Return (FullView (credit_of_row row)).
Proof.
  intros Hnd Hin Hplain.
  pose proof (stored_plain_id_found env db row Hnd Hin Hplain) as H.
  split; [exact H|]. split; [reflexivity|].
  unfold get_credit_details. rewrite H. reflexivity.
Qed.

Lemma lookup_of_stored_plain_id_example :
  get_credit_by_id Sample.env Sample.catalog "CC002"
  = Return (Some (credit_of_row (Sample.listing "CC002" "Biochar" 10 80))).
Proof.
  refine (proj1 (lookup_of_stored_plain_id Sample.env Sample.catalog
                   (Sample.listing "CC002" "Biochar" 10 80) _ _ _)).
  - repeat constructor; simpl; intuition discriminate.
  - simpl. tauto.
  - reflexivity.
Defined.

(** The lookup raises nothing but what SQLite raises. *)
Lemma get_credit_by_id_raises (env : Env) (db : DB) (credit_id : string) (e : exn) :
  get_credit_by_id env db credit_id = Raise e -> exists msg, e = DatabaseError msg.
Proof.
  unfold get_credit_by_id.
  destruct (Sqlite.parse_where _ _) as [lit|msg|tail].
  - destruct (find _ _); discriminate.
  - intros H. injection H as <-. eauto.
  - destruct (select_continued env _ db) as [msg|[r|]]; try discriminate.
    intros H. injection H as <-. eauto.
Qed.

(** ** The detail route, by token *)

(** [GET /api/credits/{id}] from the bearer token on.  For a credit
    stored under a plain identifier the buyer and the admin token get the
    full record, the public token gets the AttributeError of the public
    branch (a 500), and every other token gets 401; for a plain
    identifier that no row has, the three demo tokens get 404; and no
    token and no identifier is answered 403: [verify_token] gives no role
    other than the three that the handler knows, so its last branch is
    never taken. *)
Theorem credit_details_by_token (env : Env) (db : DB) (token : string) :
  (forall row : CreditRow.t,
     NoDup (map CreditRow.id (carbon_credits db)) ->
     In row (carbon_credits db) ->
     Spec.plain (CreditRow.id row) = true ->
     get_credit_details_with_token env db token (CreditRow.id row)
     = if String.eqb token "demo_public_token"
       then Raise (AttributeError "'dict' object has no attribute 'dict'")
       else if String.eqb token "demo_buyer_token" || String.eqb token "demo_admin_token"
            then Return (FullView (credit_of_row row))
            else Raise (HTTPException 401 "Invalid authentication credentials"))
  /\ (forall credit_id : string,
        Spec.plain credit_id = true ->
        ~ In credit_id (map CreditRow.id (carbon_credits db)) ->
        get_credit_details_with_token env db token credit_id
        = if String.eqb token "demo_public_token" || String.eqb token "demo_buyer_token"
             || String.eqb token "demo_admin_token"
          then Raise (HTTPException 404 "Credit not found")
          else Raise (HTTPException 401 "Invalid authentication credentials"))
  /\ (forall credit_id : string,
        status_code (get_credit_details_with_token env db token credit_id) <> Some 403).
Proof.
  split; [|split].
  - intros row Hnd Hin Hplain.
    unfold get_credit_details_with_token, verify_token, get_credit_details.
    destruct (String.eqb token "demo_public_token");
      [|destruct (String.eqb token "demo_buyer_token");
        [|destruct (String.eqb token "demo_admin_token")]];
      cbn [bind orb]; try reflexivity;
      rewrite (stored_plain_id_found env db row Hnd Hin Hplain); reflexivity.
  - intros credit_id Hplain Habsent.
    assert (H : get_credit_by_id env db credit_id = Return None).
    { rewrite (get_credit_by_id_plain _ _ _ Hplain).
      destruct (find _ _) as [r|] eqn:Hf; [|reflexivity].
      apply find_some in Hf as [Hr Hid]. apply String.eqb_eq in Hid.
      exfalso. apply Habsent. rewrite <- Hid. now apply in_map. }
    unfold get_credit_details_with_token, verify_token, get_credit_details.
    destruct (String.eqb token "demo_public_token");
      [|destruct (String.eqb token "demo_buyer_token");
        [|destruct (String.eqb token "demo_admin_token")]];
      cbn [bind orb]; try reflexivity; rewrite H; reflexivity.
  - intros credit_id.
    unfold get_credit_details_with_token, verify_token, get_credit_details.
    destruct (String.eqb token "demo_public_token");
      [|destruct (String.eqb token "demo_buyer_token");
        [|destruct (String.eqb token "demo_admin_token")]];
      cbn [bind]; try discriminate;
      destruct (get_credit_by_id env db credit_id) as [[credit|]|e] eqn:Hl;
      try (cbn; discriminate);
      apply get_credit_by_id_raises in Hl as [msg ->]; cbn; discriminate.
Qed.

(** ** A purchase and what is read after it *)

(** The purchase of a stored credit under a plain identifier, by the
    conditions of its success. *)
Lemma purchase_of_stored_credit (env : Env) (request : TransactionRequest.t)
    (user : User.t) (db : DB) (c : CreditRow.t) (a : Z) :
  existsb (String.eqb (User.user_type user)) BUYER_PERMISSIONS = true ->
  NoDup (map CreditRow.id (carbon_credits db)) ->
  In c (carbon_credits db) ->
  TransactionRequest.credit_id request = CreditRow.id c ->
  Spec.plain (CreditRow.id c) = true ->
  CreditRow.quantity_available c = Sqlite.Integer a ->
  TransactionRequest.quantity request <= a ->
  Sqlite.fits_int64 (TransactionRequest.quantity request) = true ->
  is_nan (CreditRow.price_per_ton c) = false ->
  ~ In (uuid4 env) (map TransactionRow.id (transactions db)) ->
  Spec.no_io_error env = true ->
  purchase_credits env request user db
  = (Return (PurchaseResponse.Build
               (uuid4 env)
               (create_transaction_hash (new_transaction env request user (credit_of_row c)))
               (nearest_double (TransactionRequest.quantity request)
                * CreditRow.price_per_ton c)%float
               "completed"),
     Spec.applied env (Spec.submitted env request user (credit_of_row c)) db).
Proof.
  intros Hp Hnd Hin Hid Hplain Ha Hle Hq Hnan Hfresh Hio.
  assert (Hl : get_credit_by_id env db (TransactionRequest.credit_id request)
               = Return (Some (credit_of_row c))).
  { rewrite Hid. now apply stored_plain_id_found. }
  apply purchase_credits_succeeded; try assumption.
  - cbn [credit_of_row Credit.quantity_available]. rewrite Ha. cbn [number_lt_int].
    apply Z.ltb_ge. exact Hle.
  - rewrite purchase_credit_commits; [reflexivity|assumption..].
Qed.

(** The credit rows after the two statements, when the identifier is
    that of one stored row and the new availability is an INTEGER. *)
Lemma applied_credits_of_stored (env : Env) (t : CreditTransaction.t) (db : DB)
    (c : CreditRow.t) (a : Z) :
  NoDup (map CreditRow.id (carbon_credits db)) ->
  In c (carbon_credits db) ->
  CreditTransaction.credit_id t = CreditRow.id c ->
  CreditRow.quantity_available c = Sqlite.Integer a ->
  Sqlite.fits_int64 (a - CreditTransaction.quantity t) = true ->
  carbon_credits (Spec.applied env t db)
  = map (fun r => if String.eqb (CreditRow.id r) (CreditRow.id c)
                  then Spec.sold c a (CreditTransaction.quantity t) (current_timestamp env)
                  else r)
        (carbon_credits db).
Proof.
  intros Hnd Hin Hid Ha Hfit. cbn [Spec.applied carbon_credits]. rewrite Hid.
  apply map_ext_in. intros r Hr.
  destruct (String.eqb_spec (CreditRow.id r) (CreditRow.id c)) as [E|_]; [|reflexivity].
  rewrite (same_id_same_row _ _ _ Hnd Hr Hin E). now apply decrement_integer.
Qed.

Lemma sold_in_applied (rows : list CreditRow.t) (c c' : CreditRow.t) :
  In c rows -> CreditRow.id c' = CreditRow.id c ->
  In c' (map (fun r => if String.eqb (CreditRow.id r) (CreditRow.id c) then c' else r) rows)
  /\ map CreditRow.id
         (map (fun r => if String.eqb (CreditRow.id r) (CreditRow.id c) then c' else r) rows)
     = map CreditRow.id rows.
Proof.
  intros Hin Hid. split.
  - apply in_map_iff. exists c. split; [|exact Hin]. now rewrite String.eqb_refl.
  - rewrite map_map. apply map_ext. intros r.
    destruct (String.eqb_spec (CreditRow.id r) (CreditRow.id c)) as [E|_]; [|reflexivity].
    now rewrite Hid, E.
Qed.

(** After the purchase the lookup returns the row with the new
    availability. *)
Lemma lookup_after_purchase (env env' : Env) (t : CreditTransaction.t) (db : DB)
    (c : CreditRow.t) (a : Z) :
  NoDup (map CreditRow.id (carbon_credits db)) ->
  In c (carbon_credits db) ->
  Spec.plain (CreditRow.id c) = true ->
  CreditTransaction.credit_id t = CreditRow.id c ->
  CreditRow.quantity_available c = Sqlite.Integer a ->
  Sqlite.fits_int64 (a - CreditTransaction.quantity t) = true ->
  get_credit_by_id env' (Spec.applied env t db) (CreditRow.id c)
  = Return (Some (credit_of_row
                    (Spec.sold c a (CreditTransaction.quantity t) (current_timestamp env)))).
Proof.
  intros Hnd Hin Hplain Hid Ha Hfit.
  pose proof (applied_credits_of_stored env t db c a Hnd Hin Hid Ha Hfit) as Hc.
  destruct (sold_in_applied (carbon_credits db) c
              (Spec.sold c a (CreditTransaction.quantity t) (current_timestamp env))
              Hin eq_refl) as [Hin' Hids].
  rewrite <- Hc in Hin', Hids.
  change (CreditRow.id c)
    with (CreditRow.id (Spec.sold c a (CreditTransaction.quantity t) (current_timestamp env)))
    at 1.
  apply stored_plain_id_found; [now rewrite Hids|exact Hin'|exact Hplain].
Qed.

(** What was bought can be read back: after a purchase that succeeds,
    the lookup of the credit shows its availability lowered by the
    quantity, and the buyer's transaction listing ends with the new
    transaction, the ledger being one row longer. *)
Theorem purchase_is_read_back (env : Env) (request : TransactionRequest.t)
    (user : User.t) (db : DB) (c : CreditRow.t) (a : Z) :
  let q := TransactionRequest.quantity request in
  let db' := snd (purchase_credits env request user db) in
  existsb (String.eqb (User.user_type user)) BUYER_PERMISSIONS = true ->
  NoDup (map CreditRow.id (carbon_credits db)) ->
  In c (carbon_credits db) ->
  TransactionRequest.credit_id request = CreditRow.id c ->
  Spec.plain (CreditRow.id c) = true ->
  CreditRow.quantity_available c = Sqlite.Integer a ->
  q <= a ->
  Sqlite.fits_int64 q = true ->
  Sqlite.fits_int64 (a - q) = true ->
  is_nan (CreditRow.price_per_ton c) = false ->
  ~ In (uuid4 env) (map TransactionRow.id (transactions db)) ->
  Spec.no_io_error env = true ->
  option_map Credit.quantity_available
    (match get_credit_by_id env db' (CreditRow.id c) with
     | Return found => found
     | _ => None
     end)
  = Some (Sqlite.Integer (a - q))
  /\ last (Database.get_transactions db' (Some (User.user_id user))) []
     = [ ("id", Str (uuid4 env));
         ("credit_id", Str (CreditRow.id c));
         ("buyer_id", Str (User.user_id user));
         ("quantity", Int q);
         ("price_per_ton", Float (CreditRow.price_per_ton c));
         ("transaction_date", Str (datetime_now_isoformat env));
         ("transaction_hash",
          Str (Sha256.hexdigest
                 (encode (CreditRow.id c ++ User.user_id user ++ str_of_int q
                          ++ datetime_now_isoformat env)%string)));
         ("status", Str "completed") ]
  /\ List.length (Database.get_transactions db' None)
     = S (List.length (Database.get_transactions db None)).
Proof.
  intros q db' Hp Hnd Hin Hid Hplain Ha Hle Hq Hfit Hnan Hfresh Hio. subst db'.
  rewrite (purchase_of_stored_credit env request user db c a); try assumption.
  cbn [snd]. split; [|split].
  - rewrite (lookup_after_purchase env env _ db c a); try assumption. reflexivity.
  - unfold Database.get_transactions. cbn [Spec.applied transactions].
    destruct (truthy (Some (User.user_id user))).
    + rewrite filter_app. cbn [filter].
      cbn [row_of_transaction Spec.submitted credit_transaction_of new_transaction
           TransactionRow.buyer_id CreditTransaction.buyer_id Transaction.buyer_id].
      rewrite String.eqb_refl, map_app. cbn [map]. rewrite last_last.
      rewrite <- Hid. reflexivity.
    + rewrite map_app. cbn [map]. rewrite last_last. rewrite <- Hid. reflexivity.
  - unfold Database.get_transactions. cbn [truthy Spec.applied transactions].
    rewrite !length_map, length_app. simpl. lia.
Qed.

Lemma purchase_is_read_back_example :
  option_map Credit.quantity_available
    (match get_credit_by_id Sample.env
             (snd (purchase_credits Sample.env (TransactionRequest.Build "CC002" 4)
                     Sample.buyer Sample.catalog))
             "CC002" with
     | Return found => found
     | _ => None
     end)
  = Some (Sqlite.Integer 6).
Proof.
  refine (proj1 (purchase_is_read_back Sample.env (TransactionRequest.Build "CC002" 4)
                   Sample.buyer Sample.catalog (Sample.listing "CC002" "Biochar" 10 80) 10
                   _ _ _ _ _ _ _ _ _ _ _ _)).
  - reflexivity.
  - repeat constructor; simpl; intuition discriminate.
  - simpl. tauto.
  - reflexivity.
  - reflexivity.
  - reflexivity.
  - simpl. lia.
  - reflexivity.
  - reflexivity.
  - reflexivity.
  - simpl. intuition discriminate.
  - reflexivity.
Defined.

(** One request after another does not oversell: after a purchase of [q]
    out of [a] tons, a request for more than the [a - q] tons that are
    left is answered 400 and changes nothing. *)
Theorem second_purchase_beyond_rest (env env' : Env) (request request' : TransactionRequest.t)
    (user user' : User.t) (db : DB) (c : CreditRow.t) (a : Z) :
  let q := TransactionRequest.quantity request in
  let db' := snd (purchase_credits env request user db) in
  existsb (String.eqb (User.user_type user)) BUYER_PERMISSIONS = true ->
  existsb (String.eqb (User.user_type user')) BUYER_PERMISSIONS = true ->
  NoDup (map CreditRow.id (carbon_credits db)) ->
  In c (carbon_credits db) ->
  TransactionRequest.credit_id request = CreditRow.id c ->
  TransactionRequest.credit_id request' = CreditRow.id c ->
  Spec.plain (CreditRow.id c) = true ->
  CreditRow.quantity_available c = Sqlite.Integer a ->
  q <= a ->
  Sqlite.fits_int64 q = true ->
  Sqlite.fits_int64 (a - q) = true ->
  is_nan (CreditRow.price_per_ton c) = false ->
  ~ In (uuid4 env) (map TransactionRow.id (transactions db)) ->
  Spec.no_io_error env = true ->
  a - q < TransactionRequest.quantity request' ->
  purchase_credits env' request' user' db'
  = (Raise (HTTPException 400 "Insufficient quantity available"), db').
Proof.
  intros q db' Hp Hp' Hnd Hin Hid Hid' Hplain Ha Hle Hq Hfit Hnan Hfresh Hio Hlt.
  subst q db'.
  rewrite (purchase_of_stored_credit env request user db c a); try assumption.
  cbn [snd]. unfold purchase_credits at 1. rewrite Hp', Hid'.
  rewrite (lookup_after_purchase env env' _ db c a); try assumption.
  cbn [negb credit_of_row Credit.quantity_available]. unfold Spec.sold at 1.
  cbn [CreditRow.quantity_available number_lt_int Spec.submitted credit_transaction_of
       new_transaction CreditTransaction.quantity Transaction.quantity].
  apply Z.ltb_lt in Hlt. rewrite Hlt. reflexivity.
Qed.

(** The ten tons of CC002 are bought; one more ton is asked for. *)
Lemma second_purchase_beyond_rest_example :
  fst (purchase_credits Sample.env (TransactionRequest.Build "CC002" 1) Sample.admin
         (snd (purchase_credits Sample.env (TransactionRequest.Build "CC002" 10)
                 Sample.buyer Sample.catalog)))
  = Raise (HTTPException 400 "Insufficient quantity available").
Proof.
  rewrite (second_purchase_beyond_rest Sample.env Sample.env
             (TransactionRequest.Build "CC002" 10) (TransactionRequest.Build "CC002" 1)
             Sample.buyer Sample.admin Sample.catalog
             (Sample.listing "CC002" "Biochar" 10 80) 10).
  - reflexivity.
  - reflexivity.
  - reflexivity.
  - repeat constructor; simpl; intuition discriminate.
  - simpl. tauto.
  - reflexivity.
  - reflexivity.
  - reflexivity.
  - reflexivity.
  - simpl. lia.
  - reflexivity.
  - reflexivity.
  - reflexivity.
  - simpl. intuition discriminate.
  - reflexivity.
  - simpl. lia.
Defined.

(** The route does not ask for a positive quantity.  A request for zero
    or for a negative quantity of a stored credit is within the stock, so
    it is stored like any purchase: the answer is 200, a transaction with
    that quantity is recorded, and the availability does not go down (for
    a negative quantity it goes up). *)
Theorem purchase_of_no_tons (env : Env) (request : TransactionRequest.t)
    (user : User.t) (db : DB) (c : CreditRow.t) (a : Z) :
  let q := TransactionRequest.quantity request in
  let db' := snd (purchase_credits env request user db) in
  existsb (String.eqb (User.user_type user)) BUYER_PERMISSIONS = true ->
  NoDup (map CreditRow.id (carbon_credits db)) ->
  In c (carbon_credits db) ->
  TransactionRequest.credit_id request = CreditRow.id c ->
  Spec.plain (CreditRow.id c) = true ->
  CreditRow.quantity_available c = Sqlite.Integer a ->
  0 <= a ->
  q <= 0 ->
  Sqlite.fits_int64 q = true ->
  Sqlite.fits_int64 (a - q) = true ->
  is_nan (CreditRow.price_per_ton c) = false ->
  ~ In (uuid4 env) (map TransactionRow.id (transactions db)) ->
  Spec.no_io_error env = true ->
  status_code (fst (purchase_credits env request user db)) = Some 200
  /\ a <= a - q
  /\ In (Spec.sold c a q (current_timestamp env)) (carbon_credits db')
  /\ map TransactionRow.quantity (transactions db')
     = map TransactionRow.quantity (transactions db) ++ [q].
Proof.
  intros q db' Hp Hnd Hin Hid Hplain Ha H0 Hq0 Hq Hfit Hnan Hfresh Hio. subst db'.
  rewrite (purchase_of_stored_credit env request user db c a); try assumption; [|lia].
  cbn [fst snd status_code]. split; [reflexivity|]. split; [lia|]. split.
  - rewrite (applied_credits_of_stored env _ db c a); try assumption.
    apply (sold_in_applied (carbon_credits db) c); [exact Hin|reflexivity].
  - cbn [Spec.applied transactions]. rewrite map_app. reflexivity.
Qed.

(** Minus five tons of CC002: the stock goes from 10 to 15. *)
Lemma purchase_of_no_tons_example :
  map CreditRow.quantity_available
      (carbon_credits
         (snd (purchase_credits Sample.env (TransactionRequest.Build "CC002" (-5))
                 Sample.buyer Sample.catalog)))
  = [ Sqlite.Integer 100; Sqlite.Integer 15 ]
  /\ status_code
       (fst (purchase_credits Sample.env (TransactionRequest.Build "CC002" (-5))
               Sample.buyer Sample.catalog))
     = Some 200.
Proof.
  split; [vm_compute; reflexivity|].
  refine (proj1 (purchase_of_no_tons Sample.env (TransactionRequest.Build "CC002" (-5))
                   Sample.buyer Sample.catalog (Sample.listing "CC002" "Biochar" 10 80) 10
                   _ _ _ _ _ _ _ _ _ _ _ _ _)).
  - reflexivity.
  - repeat constructor; simpl; intuition discriminate.
  - simpl. tauto.
  - reflexivity.
  - reflexivity.
  - reflexivity.
  - lia.
  - simpl. lia.
  - reflexivity.
  - reflexivity.
  - reflexivity.
  - simpl. intuition discriminate.
  - reflexivity.
Defined.

(** ** The total of the stock *)

Lemma sum_step_cnt (vs : list Sqlite.number) (p : Sqlite.sum_context) :
  Sqlite.cnt (fold_left Sqlite.sum_step vs p) = (Sqlite.cnt p + List.length vs)%nat.
Proof.
  revert p. induction vs as [|v vs IH]; intros p; simpl; [lia|].
  rewrite IH. destruct v as [z|f]; unfold Sqlite.sum_step.
  - destruct (negb _); [destruct (Sqlite.fits_int64 _)|]; simpl; lia.
  - simpl. lia.
Qed.

(** Once an integer addition has overflowed, the flag stays. *)
Lemma sum_step_overflow (vs : list Sqlite.number) (p : Sqlite.sum_context) :
  Sqlite.overflow p = true ->
  Sqlite.overflow (fold_left Sqlite.sum_step vs p) = true.
Proof.
  revert p. induction vs as [|v vs IH]; intros p Hp; simpl; [exact Hp|].
  apply IH. destruct v as [z|f]; unfold Sqlite.sum_step.
  - rewrite Hp, orb_true_r. reflexivity.
  - exact Hp.
Qed.

(** Over non-negative integers the running integer sum is the total as
    long as the total fits, and the overflow flag is raised when it does
    not. *)
Lemma sum_of_integers (vs : list Sqlite.number) (p : Sqlite.sum_context) :
  Sqlite.approx p = false -> Sqlite.overflow p = false ->
  0 <= Sqlite.iSum p <= 2 ^ 63 - 1 ->
  forallb Spec.in_range vs = true ->
  let p' := fold_left Sqlite.sum_step vs p in
  if Sqlite.iSum p + Spec.integer_total vs <=? 2 ^ 63 - 1
  then Sqlite.iSum p' = Sqlite.iSum p + Spec.integer_total vs
       /\ Sqlite.approx p' = false /\ Sqlite.overflow p' = false
  else Sqlite.overflow p' = true.
Proof.
  revert p. induction vs as [|v vs IH]; intros p Ha Ho Hi Hvs; cbv zeta;
    cbn [fold_left Spec.integer_total fold_right].
  - rewrite Z.add_0_r. destruct (Z.leb_spec (Sqlite.iSum p) (2 ^ 63 - 1)); [tauto|lia].
  - cbn [forallb] in Hvs. apply andb_prop in Hvs as [Hv Hvs].
    destruct v as [z|f]; [|discriminate Hv]. cbn [Spec.in_range] in Hv.
    apply andb_prop in Hv as [Hz _]. apply Z.leb_le in Hz.
    assert (Htail : 0 <= Spec.integer_total vs).
    { clear -Hvs. induction vs as [|v vs IHv]; simpl; [lia|].
      cbn [forallb] in Hvs. apply andb_prop in Hvs as [Hv Hvs].
      destruct v as [z|f]; [|discriminate Hv]. cbn [Spec.in_range] in Hv.
      apply andb_prop in Hv as [Hz _]. apply Z.leb_le in Hz.
      specialize (IHv Hvs). lia. }
    fold (Spec.integer_total vs).
    assert (Hs : Sqlite.sum_step p (Sqlite.Integer z)
                 = if Sqlite.fits_int64 (Sqlite.iSum p + z)
                   then Sqlite.SumContext (Sqlite.rSum p + Sqlite.real_of_int z)%float
                          (Sqlite.iSum p + z) (S (Sqlite.cnt p)) false false
                   else Sqlite.SumContext (Sqlite.rSum p + Sqlite.real_of_int z)%float
                          (Sqlite.iSum p) (S (Sqlite.cnt p)) true true).
    { unfold Sqlite.sum_step. rewrite Ha, Ho. reflexivity. }
    rewrite Hs. clear Hs.
    destruct (Sqlite.fits_int64 (Sqlite.iSum p + z)) eqn:Hfit.
    + unfold Sqlite.fits_int64 in Hfit. apply andb_prop in Hfit as [_ Hhi].
      apply Z.leb_le in Hhi.
      assert (Hi' : 0 <= Sqlite.iSum p + z <= 2 ^ 63 - 1) by lia.
      specialize (IH (Sqlite.SumContext (Sqlite.rSum p + Sqlite.real_of_int z)%float
                        (Sqlite.iSum p + z) (S (Sqlite.cnt p)) false false)
                     eq_refl eq_refl Hi' Hvs).
      cbv zeta in IH. cbn [Sqlite.iSum] in IH.
      rewrite <- Z.add_assoc in IH.
      destruct (Sqlite.iSum p + (z + Spec.integer_total vs) <=? 2 ^ 63 - 1).
      * exact IH.
      * exact IH.
    + assert (Hover : 2 ^ 63 - 1 < Sqlite.iSum p + z).
      { unfold Sqlite.fits_int64 in Hfit. apply andb_false_iff in Hfit as [H|H].
        - apply Z.leb_gt in H. lia.
        - apply Z.leb_gt in H. exact H. }
      destruct (Z.leb_spec (Sqlite.iSum p + (z + Spec.integer_total vs)) (2 ^ 63 - 1));
        [lia|].
      apply sum_step_overflow. reflexivity.
Qed.

Lemma integer_total_of_listing (rows : list CreditRow.t) :
  Spec.listed_total (map credit_of_row rows)
  = Spec.integer_total (map CreditRow.quantity_available rows).
Proof.
  induction rows as [|r rows IH]; simpl; [reflexivity|]. now rewrite IH.
Qed.

(** The total of a stock of non-negative integers. *)
Lemma total_of_stock (db : DB) :
  Spec.stock_in_range db = true ->
  get_total_available_amount db
  = if Spec.listed_total (get_credits db) <=? 2 ^ 63 - 1
    then Return (Sqlite.Integer (Spec.listed_total (get_credits db)))
    else Raise (DatabaseError "integer overflow").
Proof.
  intros Hrange. unfold get_total_available_amount, get_credits.
  rewrite integer_total_of_listing.
  assert (Hvs : forallb Spec.in_range (map CreditRow.quantity_available (carbon_credits db))
                = true).
  { unfold Spec.stock_in_range in Hrange. rewrite forallb_forall in *.
    intros v Hv. apply in_map_iff in Hv as [r [<- Hr]]. exact (Hrange r Hr). }
  destruct (carbon_credits db) as [|r rows] eqn:Hrows; [reflexivity|].
  rewrite <- Hrows in *. clear Hrange.
  unfold Sqlite.sum, Sqlite.sum_finalize.
  assert (H0 : 0 <= Sqlite.iSum (Sqlite.SumContext 0 0 0 false false) <= 2 ^ 63 - 1)
    by (cbn [Sqlite.iSum]; lia).
  pose proof (sum_of_integers _ (Sqlite.SumContext 0 0 0 false false)
                eq_refl eq_refl H0 Hvs) as H.
  cbn zeta in H. cbn [Sqlite.iSum] in H. rewrite Z.add_0_l in H.
  rewrite sum_step_cnt, length_map, Hrows. cbn [Sqlite.cnt List.length Nat.add].
  rewrite <- Hrows.
  destruct (Spec.integer_total _ <=? 2 ^ 63 - 1).
  - destruct H as [-> [-> ->]]. reflexivity.
  - rewrite H. reflexivity.
Qed.

(** The total that [GET /api/credits/available_amount/] reports is the
    sum of [quantity_available] over the listing of [get_credits]: for a
    stock of non-negative integers whose sum fits 64 bits it is that sum
    (0 for an empty catalog); when the sum does not fit, SQLite raises
    "integer overflow" and nothing catches it. *)
Theorem total_is_sum_of_listing (db : DB) :
  Spec.stock_in_range db = true ->
  (Spec.listed_total (list_credits db) <= 2 ^ 63 - 1 ->
   get_total_available_amount db
   = Return (Sqlite.Integer (Spec.listed_total (list_credits db)))
   /\ total_available_amount db
      = Return [ ("total_available_amount",
                  Sqlite.Integer (Spec.listed_total (list_credits db))) ])
  /\ (2 ^ 63 - 1 < Spec.listed_total (list_credits db) ->
      get_total_available_amount db = Raise (DatabaseError "integer overflow")
      /\ status_code (total_available_amount db) = Some 500)
  /\ (carbon_credits db = [] -> get_total_available_amount db = Return (Sqlite.Integer 0)).
Proof.
  intros Hrange. pose proof (total_of_stock db Hrange) as H. unfold list_credits.
  split; [|split].
  - intros Hle. apply Z.leb_le in Hle. rewrite Hle in H.
    split; [exact H|]. unfold total_available_amount. rewrite H. reflexivity.
  - intros Hgt. apply Z.leb_gt in Hgt. rewrite Hgt in H.
    split; [exact H|]. unfold total_available_amount. rewrite H. reflexivity.
  - intros Hempty. unfold get_total_available_amount. rewrite Hempty. reflexivity.
Qed.

Lemma total_is_sum_of_listing_example :
  get_total_available_amount Sample.catalog = Return (Sqlite.Integer 110)
  /\ total_available_amount Sample.catalog
     = Return [ ("total_available_amount", Sqlite.Integer 110) ].
Proof.
  refine (proj1 (total_is_sum_of_listing Sample.catalog _) _).
  - reflexivity.
  - vm_compute. discriminate.
Defined.

(** ** A purchase and the total *)

Lemma stored_within_total (rows : list CreditRow.t) (c : CreditRow.t) (a : Z) :
  forallb Spec.in_range (map CreditRow.quantity_available rows) = true ->
  In c rows -> CreditRow.quantity_available c = Sqlite.Integer a ->
  0 <= a <= Spec.integer_total (map CreditRow.quantity_available rows).
Proof.
  induction rows as [|x rows IH]; cbn [map forallb Spec.integer_total fold_right In];
    intros Hr Hin Ha; [contradiction|].
  apply andb_prop in Hr as [Hx Hr]. fold (Spec.integer_total (map CreditRow.quantity_available rows)).
  assert (Hrest : 0 <= Spec.integer_total (map CreditRow.quantity_available rows)).
  { clear -Hr. induction rows as [|y rows IHr]; simpl; [lia|].
    cbn [map forallb] in Hr. apply andb_prop in Hr as [Hy Hr].
    destruct (CreditRow.quantity_available y) as [z|f]; [|discriminate Hy].
    cbn [Spec.in_range] in Hy. apply andb_prop in Hy as [Hz _]. apply Z.leb_le in Hz.
    specialize (IHr Hr). lia. }
  destruct Hin as [->|Hin].
  - rewrite Ha in *. cbn [Spec.in_range] in Hx. apply andb_prop in Hx as [Hz _].
    apply Z.leb_le in Hz. lia.
  - specialize (IH Hr Hin Ha).
    destruct (CreditRow.quantity_available x) as [z|f]; [|discriminate Hx].
    cbn [Spec.in_range] in Hx. apply andb_prop in Hx as [Hz _]. apply Z.leb_le in Hz. lia.
Qed.

(** Replacing the one row of an identifier by the row after the sale
    lowers the sum of the column by the quantity. *)
Lemma integer_total_after_sale (rows : list CreditRow.t) (c : CreditRow.t) (a q : Z)
    (stamp : string) :
  NoDup (map CreditRow.id rows) -> In c rows ->
  CreditRow.quantity_available c = Sqlite.Integer a ->
  Spec.integer_total
    (map CreditRow.quantity_available
       (map (fun r => if String.eqb (CreditRow.id r) (CreditRow.id c)
                      then Spec.sold c a q stamp else r) rows))
  = Spec.integer_total (map CreditRow.quantity_available rows) - q.
Proof.
  induction rows as [|x rows IH]; cbn [map In]; intros Hnd Hin Ha; [contradiction|].
  inversion Hnd as [|? ? Hx Hrest]; subst.
  destruct Hin as [->|Hin].
  - rewrite String.eqb_refl.
    assert (Hsame : map (fun r => if String.eqb (CreditRow.id r) (CreditRow.id c)
                                  then Spec.sold c a q stamp else r) rows = rows).
    { rewrite <- (map_id rows) at 2. apply map_ext_in. intros r Hr.
      destruct (String.eqb_spec (CreditRow.id r) (CreditRow.id c)) as [E|_]; [|reflexivity].
      exfalso. apply Hx. rewrite <- E. now apply in_map. }
    rewrite Hsame. cbn [Spec.integer_total fold_right Spec.sold CreditRow.quantity_available].
    rewrite Ha. lia.
  - destruct (String.eqb_spec (CreditRow.id x) (CreditRow.id c)) as [E|_].
    + exfalso. apply Hx. rewrite E. now apply in_map.
    + cbn [Spec.integer_total fold_right].
      fold (Spec.integer_total
              (map CreditRow.quantity_available
                 (map (fun r => if String.eqb (CreditRow.id r) (CreditRow.id c)
                                then Spec.sold c a q stamp else r) rows))).
      fold (Spec.integer_total (map CreditRow.quantity_available rows)).
      rewrite (IH Hrest Hin Ha).
      destruct (CreditRow.quantity_available x); lia.
Qed.

Lemma in_range_after_sale (rows : list CreditRow.t) (c : CreditRow.t) (a q : Z)
    (stamp : string) :
  forallb Spec.in_range (map CreditRow.quantity_available rows) = true ->
  0 <= a - q -> Sqlite.fits_int64 (a - q) = true ->
  forallb Spec.in_range
    (map CreditRow.quantity_available
       (map (fun r => if String.eqb (CreditRow.id r) (CreditRow.id c)
                      then Spec.sold c a q stamp else r) rows)) = true.
Proof.
  intros Hr Hpos Hfit. rewrite forallb_forall in *. intros v Hv.
  apply in_map_iff in Hv as [r' [<- Hr']]. apply in_map_iff in Hr' as [r [<- Hin]].
  destruct (String.eqb (CreditRow.id r) (CreditRow.id c)).
  - cbn [Spec.sold CreditRow.quantity_available Spec.in_range].
    rewrite Hfit. apply Z.leb_le in Hpos. now rewrite Hpos.
  - apply Hr. now apply in_map.
Qed.

Lemma stock_in_range_column (db : DB) :
  Spec.stock_in_range db = true <->
  forallb Spec.in_range (map CreditRow.quantity_available (carbon_credits db)) = true.
Proof.
  unfold Spec.stock_in_range.
  induction (carbon_credits db) as [|r rows IH]; cbn [map forallb]; [reflexivity|].
  rewrite !andb_true_iff, IH. reflexivity.
Qed.

(** The total after a purchase is the total before less the quantity
    bought: over a stock of non-negative integers under distinct
    identifiers, a purchase that is within the stock lowers what
    [GET /api/credits/available_amount/] reports by exactly the quantity
    of the request (and raises it for a negative quantity). *)
Theorem purchase_lowers_total (env : Env) (request : TransactionRequest.t)
    (user : User.t) (db : DB) (c : CreditRow.t) (a : Z) :
  let q := TransactionRequest.quantity request in
  let db' := snd (purchase_credits env request user db) in
  let total := Spec.listed_total (list_credits db) in
  existsb (String.eqb (User.user_type user)) BUYER_PERMISSIONS = true ->
  NoDup (map CreditRow.id (carbon_credits db)) ->
  In c (carbon_credits db) ->
  TransactionRequest.credit_id request = CreditRow.id c ->
  Spec.plain (CreditRow.id c) = true ->
  CreditRow.quantity_available c = Sqlite.Integer a ->
  q <= a ->
  Sqlite.fits_int64 q = true ->
  is_nan (CreditRow.price_per_ton c) = false ->
  ~ In (uuid4 env) (map TransactionRow.id (transactions db)) ->
  Spec.no_io_error env = true ->
  Spec.stock_in_range db = true ->
  total <= 2 ^ 63 - 1 ->
  total - q <= 2 ^ 63 - 1 ->
  get_total_available_amount db = Return (Sqlite.Integer total)
  /\ get_total_available_amount db' = Return (Sqlite.Integer (total - q)).
Proof.
  intros q db' total Hp Hnd Hin Hid Hplain Ha Hle Hq Hnan Hfresh Hio Hrange Htotal Hafter.
  subst db' total. unfold list_credits in *.
  pose proof (total_of_stock db Hrange) as Hbefore.
  unfold get_credits in *. rewrite integer_total_of_listing in *.
  apply stock_in_range_column in Hrange.
  pose proof (stored_within_total _ c a Hrange Hin Ha) as Hwithin.
  assert (Hfit : Sqlite.fits_int64 (a - q) = true).
  { unfold Sqlite.fits_int64. apply andb_true_intro. split; apply Z.leb_le; lia. }
  split.
  - apply Z.leb_le in Htotal. rewrite Htotal in Hbefore. exact Hbefore.
  - rewrite (purchase_of_stored_credit env request user db c a); try assumption.
    cbn [snd].
    assert (Hq' : CreditTransaction.quantity (Spec.submitted env request user (credit_of_row c))
                  = q) by reflexivity.
    assert (Hc : carbon_credits (Spec.applied env (Spec.submitted env request user (credit_of_row c)) db)
                 = map (fun r => if String.eqb (CreditRow.id r) (CreditRow.id c)
                                 then Spec.sold c a q (current_timestamp env) else r)
                       (carbon_credits db)).
    { rewrite <- Hq'. apply applied_credits_of_stored; try assumption. }
    assert (Hrange' : Spec.stock_in_range
                        (Spec.applied env (Spec.submitted env request user (credit_of_row c)) db)
                      = true).
    { apply stock_in_range_column. rewrite Hc. apply in_range_after_sale; [assumption|lia|assumption]. }
    rewrite (total_of_stock _ Hrange'). unfold get_credits.
    rewrite integer_total_of_listing, Hc.
    rewrite (integer_total_after_sale _ c a q _ Hnd Hin Ha).
    apply Z.leb_le in Hafter. rewrite Hafter. reflexivity.
Qed.

Lemma purchase_lowers_total_example :
  get_total_available_amount Sample.catalog = Return (Sqlite.Integer 110)
  /\ get_total_available_amount
       (snd (purchase_credits Sample.env (TransactionRequest.Build "CC002" 4)
               Sample.buyer Sample.catalog))
     = Return (Sqlite.Integer 106).
Proof.
  apply (purchase_lowers_total Sample.env (TransactionRequest.Build "CC002" 4)
           Sample.buyer Sample.catalog (Sample.listing "CC002" "Biochar" 10 80) 10).
  - reflexivity.
  - repeat constructor; simpl; intuition discriminate.
  - simpl. tauto.
  - reflexivity.
  - reflexivity.
  - reflexivity.
  - simpl. lia.
  - reflexivity.
  - reflexivity.
  - simpl. intuition discriminate.
  - reflexivity.
  - reflexivity.
  - vm_compute. discriminate.
  - vm_compute. discriminate.
Defined.

(** ** Loading the sample *)

Lemma credit_id_absent (rows : list CreditRow.t) (id : string) :
  existsb (fun r => String.eqb (CreditRow.id r) id) rows = false <->
  ~ In id (map CreditRow.id rows).
Proof.
  induction rows as [|r rows IH]; simpl; [tauto|].
  rewrite orb_false_iff, IH, String.eqb_neq. tauto.
Qed.

(** The tuple of an object that has its twelve keys. *)
Lemma row_of_object (env : Env) (credit : CarbonCredit.t) :
  row_of_credit env (Spec.object_of credit)
  = inr (Spec.loaded (current_timestamp env) credit).
Proof.
  reflexivity.
Qed.

(** The tuple is built only from an object that has its twelve keys, and
    its quantity is an integer. *)
Lemma row_of_credit_inr (env : Env) (credit : SampleCredit.t) (row : CreditRow.t) :
  row_of_credit env credit = inr row ->
  Spec.first_missing credit = None
  /\ SampleCredit.id credit = Some (CreditRow.id row)
  /\ exists q, CreditRow.quantity_available row = Sqlite.Integer q.
Proof.
  destruct credit as [i pn s ct v q p l vs m pu pr].
  unfold row_of_credit, Spec.first_missing.
  cbn [SampleCredit.id SampleCredit.project_name SampleCredit.supplier
       SampleCredit.credit_type SampleCredit.vintage SampleCredit.quantity_available
       SampleCredit.price_per_ton SampleCredit.location SampleCredit.verification_status
       SampleCredit.methodology SampleCredit.public_details SampleCredit.private_details].
  destruct i; [|discriminate]. destruct pn; [|discriminate]. destruct s; [|discriminate].
  destruct ct; [|discriminate]. destruct v; [|discriminate]. destruct q; [|discriminate].
  destruct p; [|discriminate]. destruct l; [|discriminate]. destruct vs; [|discriminate].
  destruct m; [|discriminate]. destruct pu; [|discriminate]. destruct pr; [|discriminate].
  cbn [subscript and_then]. intros H. injection H as <-.
  split; [reflexivity|]. split; [reflexivity|]. eexists. reflexivity.
Qed.

(** The first key that an object lacks is the KeyError of its tuple. *)
Lemma first_missing_raises (env : Env) (credit : SampleCredit.t) (key : string) :
  Spec.first_missing credit = Some key ->
  row_of_credit env credit = inl (KeyError key).
Proof.
  destruct credit as [i pn s ct v q p l vs m pu pr].
  unfold row_of_credit, Spec.first_missing.
  cbn [SampleCredit.id SampleCredit.project_name SampleCredit.supplier
       SampleCredit.credit_type SampleCredit.vintage SampleCredit.quantity_available
       SampleCredit.price_per_ton SampleCredit.location SampleCredit.verification_status
       SampleCredit.methodology SampleCredit.public_details SampleCredit.private_details].
  destruct i; [|intros H; injection H as <-; reflexivity].
  destruct pn; [|intros H; injection H as <-; reflexivity].
  destruct s; [|intros H; injection H as <-; reflexivity].
  destruct ct; [|intros H; injection H as <-; reflexivity].
  destruct v; [|intros H; injection H as <-; reflexivity].
  destruct q; [|intros H; injection H as <-; reflexivity].
  destruct p; [|intros H; injection H as <-; reflexivity].
  destruct l; [|intros H; injection H as <-; reflexivity].
  destruct vs; [|intros H; injection H as <-; reflexivity].
  destruct m; [|intros H; injection H as <-; reflexivity].
  destruct pu; [|intros H; injection H as <-; reflexivity].
  destruct pr; [|intros H; injection H as <-; reflexivity].
  discriminate.
Qed.

(** An INSERT of the loop that succeeds. *)
Lemma execute_insert_credit_inr (env : Env) (credit : SampleCredit.t)
    (conn conn' : Sqlite.connection DB) :
  execute_insert_credit env credit conn = inr conn' ->
  exists row,
    row_of_credit env credit = inr row
    /\ Spec.bound row = true
    /\ insert_io_error env = false
    /\ ~ In (CreditRow.id row) (map CreditRow.id (carbon_credits (Sqlite.pending conn)))
    /\ conn' = Sqlite.Connection (Sqlite.disk conn)
                 {| carbon_credits := carbon_credits (Sqlite.pending conn) ++ [row];
                    transactions := transactions (Sqlite.pending conn) |}.
Proof.
  unfold execute_insert_credit.
  destruct (row_of_credit env credit) as [e|row] eqn:Hrow; cbn [and_then]; [discriminate|].
  pose proof Hrow as Hrow'. apply row_of_credit_inr in Hrow' as [_ [_ [q Hq]]].
  unfold binds. rewrite Hq.
  destruct (Sqlite.fits_int64 (CreditRow.vintage row) && Sqlite.fits_int64 q) eqn:Hfits;
    cbn [negb]; [|discriminate].
  destruct (insert_io_error env); [discriminate|].
  destruct (PrimFloat.is_nan (CreditRow.price_per_ton row)) eqn:Hnan; [discriminate|].
  destruct (existsb _ _) eqn:Hid; [discriminate|].
  apply credit_id_absent in Hid. intros H. injection H as <-.
  exists row. split; [reflexivity|]. split.
  { unfold Spec.bound. rewrite Hq, Hfits, Hnan. reflexivity. }
  split; [reflexivity|]. split; [exact Hid|reflexivity].
Qed.

Lemma execute_insert_credit_ok (env : Env) (credit : CarbonCredit.t)
    (conn : Sqlite.connection DB) :
  Spec.bindable credit = true ->
  insert_io_error env = false ->
  ~ In (CarbonCredit.id credit) (map CreditRow.id (carbon_credits (Sqlite.pending conn))) ->
  execute_insert_credit env (Spec.object_of credit) conn
  = inr (Sqlite.Connection (Sqlite.disk conn)
           {| carbon_credits := carbon_credits (Sqlite.pending conn)
                                ++ [Spec.loaded (current_timestamp env) credit];
              transactions := transactions (Sqlite.pending conn) |}).
Proof.
  unfold execute_insert_credit, Spec.bindable. intros Hb Hio Hid.
  rewrite row_of_object. cbn [and_then Spec.loaded CreditRow.vintage
                              CreditRow.quantity_available CreditRow.price_per_ton
                              CreditRow.id binds].
  apply andb_prop in Hb as [Hfits Hnan]. apply negb_true_iff in Hnan.
  apply credit_id_absent in Hid. rewrite Hfits, Hio, Hnan, Hid. reflexivity.
Qed.

Lemma insert_credits_app (env : Env) (first rest : list SampleCredit.t)
    (conn : Sqlite.connection DB) :
  insert_credits env (first ++ rest) conn
  = match insert_credits env first conn with
    | inl e => inl e
    | inr conn' => insert_credits env rest conn'
    end.
Proof.
  revert conn. induction first as [|c first IH]; intros conn; cbn [app insert_credits];
    [reflexivity|].
  destruct (execute_insert_credit env c conn); [reflexivity|apply IH].
Qed.

(** The loop, when every INSERT succeeds: every object had its keys, the
    rows are appended in the order of the sample to what the connection
    sees, and the file is as it was. *)
Lemma insert_credits_inr (env : Env) (sample : list SampleCredit.t)
    (conn conn' : Sqlite.connection DB) :
  insert_credits env sample conn = inr conn' ->
  exists rows,
    map (row_of_credit env) sample = map inr rows
    /\ conn' = Sqlite.Connection (Sqlite.disk conn)
                 {| carbon_credits := carbon_credits (Sqlite.pending conn) ++ rows;
                    transactions := transactions (Sqlite.pending conn) |}
    /\ forallb Spec.bound rows = true
    /\ NoDup (map CreditRow.id rows)
    /\ (forall id, In id (map CreditRow.id rows) ->
                   ~ In id (map CreditRow.id (carbon_credits (Sqlite.pending conn)))).
Proof.
  revert conn. induction sample as [|c sample IH]; intros conn H; cbn [insert_credits] in H.
  - injection H as <-. exists []. destruct conn as [d [cs ts]]; cbn. rewrite app_nil_r.
    repeat split; [constructor|intros id []].
  - destruct (execute_insert_credit env c conn) as [e|conn1] eqn:H1; [discriminate|].
    apply execute_insert_credit_inr in H1 as [row [Hrow [Hb [_ [Hid ->]]]]].
    apply IH in H as [rows [Hrows [-> [Hbs [Hnd Hnew]]]]].
    cbn [Sqlite.disk Sqlite.pending carbon_credits transactions] in *.
    exists (row :: rows). split; [|split; [|split; [|split]]].
    + cbn [map]. now rewrite Hrow, Hrows.
    + rewrite <- app_assoc. reflexivity.
    + cbn [forallb]. now rewrite Hb, Hbs.
    + cbn [map]. constructor; [|exact Hnd].
      intros Hin. apply (Hnew _ Hin). rewrite map_app, in_app_iff. right. left. reflexivity.
    + cbn [map]. intros id [<-|Hin]; [exact Hid|].
      intros Hold. apply (Hnew _ Hin). rewrite map_app, in_app_iff. now left.
Qed.

Lemma insert_credits_ok (env : Env) (credits : list CarbonCredit.t)
    (conn : Sqlite.connection DB) :
  insert_io_error env = false ->
  forallb Spec.bindable credits = true ->
  NoDup (map CarbonCredit.id credits) ->
  (forall id, In id (map CarbonCredit.id credits) ->
              ~ In id (map CreditRow.id (carbon_credits (Sqlite.pending conn)))) ->
  insert_credits env (map Spec.object_of credits) conn
  = inr (Sqlite.Connection (Sqlite.disk conn)
           {| carbon_credits := carbon_credits (Sqlite.pending conn)
                                ++ map (Spec.loaded (current_timestamp env)) credits;
              transactions := transactions (Sqlite.pending conn) |}).
Proof.
  intros Hio. revert conn.
  induction credits as [|c credits IH]; intros conn Hb Hnd Hnew; cbn [insert_credits map].
  - destruct conn as [d [cs ts]]; cbn. now rewrite app_nil_r.
  - cbn [forallb] in Hb. apply andb_prop in Hb as [Hc Hb].
    cbn [map] in Hnd. inversion Hnd as [|? ? Hfresh Hrest]; subst.
    rewrite (execute_insert_credit_ok env c conn Hc Hio); [|apply Hnew; now left].
    rewrite IH; [|exact Hb|exact Hrest|].
    + cbn [Sqlite.disk Sqlite.pending carbon_credits transactions].
      rewrite <- app_assoc. reflexivity.
    + cbn [Sqlite.pending carbon_credits]. intros id Hin.
      rewrite map_app, in_app_iff. intros [Hold|[E|[]]].
      * apply (Hnew id); [now right|exact Hold].
      * cbn [Spec.loaded CreditRow.id] in E. subst id. contradiction.
Qed.

(** Into an empty catalog the sample is loaded as a whole and in its
    order: when every object has its twelve keys (the objects of a list
    of credits), the identifiers are distinct, the integers fit 64 bits,
    no price is a NaN and the storage engine fails no step, the function
    returns, the listing afterwards is the sample (the quantity an
    INTEGER, a [private_details] that is [null] read back as JSON null,
    both timestamps the time of the load), and the transactions are as
    they were. *)
Theorem init_sample_data_loads (env : Env) (file : File) (credits : list CarbonCredit.t) :
  carbon_credits (init_database file) = [] ->
  insert_io_error env = false -> commit_io_error env = false ->
  NoDup (map CarbonCredit.id credits) ->
  forallb Spec.bindable credits = true ->
  fst (init_sample_data env file (map Spec.object_of credits)) = Return tt
  /\ list_credits (snd (init_sample_data env file (map Spec.object_of credits)))
     = map (Spec.listed (current_timestamp env)) credits
  /\ transactions (snd (init_sample_data env file (map Spec.object_of credits)))
     = transactions (init_database file).
Proof.
  intros Hempty Hio Hcommit Hnd Hb. unfold init_sample_data, get_credits.
  rewrite Hempty. cbn [map].
  rewrite (insert_credits_ok env credits _ Hio Hb Hnd).
  - unfold commit. rewrite Hcommit.
    cbn [fst snd Sqlite.commit Sqlite.close Sqlite.connect Sqlite.disk Sqlite.pending].
    rewrite Hempty. cbn [app]. unfold list_credits, get_credits. cbn [carbon_credits transactions].
    rewrite map_map. repeat split.
  - cbn [Sqlite.connect Sqlite.pending]. rewrite Hempty. intros id _ [].
Qed.

Lemma init_sample_data_loads_example :
  list_credits
    (snd (init_sample_data Sample.env Sample.empty_file
            (map Spec.object_of
               [ Sample.offer "CC001" "Direct Air Capture" 100 12.5;
                 Sample.offer "CC002" "Biochar" 10 80 ])))
  = [ Spec.listed "2024-01-03 09:00:00" (Sample.offer "CC001" "Direct Air Capture" 100 12.5);
      Spec.listed "2024-01-03 09:00:00" (Sample.offer "CC002" "Biochar" 10 80) ].
Proof.
  refine (proj1 (proj2 (init_sample_data_loads Sample.env Sample.empty_file
                          [ Sample.offer "CC001" "Direct Air Capture" 100 12.5;
                            Sample.offer "CC002" "Biochar" 10 80 ] _ _ _ _ _))).
  - reflexivity.
  - reflexivity.
  - reflexivity.
  - repeat constructor; simpl; intuition discriminate.
  - reflexivity.
Defined.

(** An object that lacks a key ends the load with a KeyError: when the
    objects before it are loadable and the first key that it lacks, in
    the order of the INSERT, is [key], the function raises
    [KeyError(key)]; the rows inserted before it are not committed, and
    the file holds no credit. *)
Theorem init_sample_data_missing_key (env : Env) (file : File)
    (credits : list CarbonCredit.t) (credit : SampleCredit.t)
    (rest : list SampleCredit.t) (key : string) :
  carbon_credits (init_database file) = [] ->
  insert_io_error env = false ->
  NoDup (map CarbonCredit.id credits) ->
  forallb Spec.bindable credits = true ->
  Spec.first_missing credit = Some key ->
  init_sample_data env file (map Spec.object_of credits ++ credit :: rest)
  = (Raise (KeyError key), init_database file)
  /\ get_credits (snd (init_sample_data env file
                         (map Spec.object_of credits ++ credit :: rest))) = [].
Proof.
  intros Hempty Hio Hnd Hb Hkey.
  assert (H : init_sample_data env file (map Spec.object_of credits ++ credit :: rest)
              = (Raise (KeyError key), init_database file)).
  { unfold init_sample_data, get_credits. rewrite Hempty. cbn [map].
    rewrite insert_credits_app, (insert_credits_ok env credits _ Hio Hb Hnd).
    - cbn [insert_credits]. unfold execute_insert_credit.
      rewrite (first_missing_raises env credit key Hkey). reflexivity.
    - cbn [Sqlite.connect Sqlite.pending]. rewrite Hempty. intros id _ []. }
  rewrite H. split; [reflexivity|]. cbn [snd]. unfold get_credits. now rewrite Hempty.
Qed.

(** The second object has no [private_details]. *)
Lemma init_sample_data_missing_key_example :
  init_sample_data Sample.env Sample.empty_file
    [ Spec.object_of (Sample.offer "CC001" "Direct Air Capture" 100 12.5);
      SampleCredit.Build (Some "CC002") (Some "Project") (Some "Supplier") (Some "Biochar")
        (Some 2023) (Some 10) (Some 80%float) (Some "Canada") (Some "verified")
        (Some "ISO 14064") (Some (Json.Object [])) None ]
  = (Raise (KeyError "private_details"), init_database Sample.empty_file).
Proof.
  refine (proj1 (init_sample_data_missing_key Sample.env Sample.empty_file
                   [ Sample.offer "CC001" "Direct Air Capture" 100 12.5 ] _ [] _ _ _ _ _ _)).
  - reflexivity.
  - reflexivity.
  - repeat constructor; simpl; intuition discriminate.
  - reflexivity.
  - reflexivity.
Defined.

Lemma NoDup_map_Some {A : Type} (l : list A) : NoDup l -> NoDup (map Some l).
Proof.
  induction 1 as [|x l Hx Hl IH]; cbn [map]; constructor; [|exact IH].
  intros Hin. apply in_map_iff in Hin as [y [Hy Hin]]. injection Hy as ->. contradiction.
Qed.

(** The sample is loaded as a whole or not at all.  When the function
    returns, the catalog is what the file held, if it held any credit, or
    the rows of the whole sample in its order, every object having had
    its twelve keys, with distinct identifiers and numbers that SQLite
    took; when it raises (a subscript, an INSERT or the commit failed),
    the file holds no credit, not even those inserted before the failure.
    The transactions are never touched. *)
Theorem init_sample_data_whole_or_nothing (env : Env) (file : File)
    (sample : list SampleCredit.t) :
  let existing := carbon_credits (init_database file) in
  let db' := snd (init_sample_data env file sample) in
  transactions db' = transactions (init_database file)
  /\ match fst (init_sample_data env file sample) with
     | Return _ =>
         match existing with
         | _ :: _ => carbon_credits db' = existing
         | [] => map (row_of_credit env) sample = map inr (carbon_credits db')
                 /\ map SampleCredit.id sample = map Some (map CreditRow.id (carbon_credits db'))
                 /\ NoDup (map SampleCredit.id sample)
                 /\ forallb Spec.bound (carbon_credits db') = true
         end
     | Raise _ => existing = [] /\ carbon_credits db' = []
     end.
Proof.
  cbv zeta. unfold init_sample_data, get_credits.
  destruct (carbon_credits (init_database file)) as [|r rows] eqn:Hexisting; cbn [map].
  - destruct (insert_credits env sample (Sqlite.connect (init_database file)))
      as [e|conn'] eqn:Hloop; cbn [fst snd Sqlite.connect Sqlite.disk].
    + split; [reflexivity|]. split; [reflexivity|exact Hexisting].
    + apply insert_credits_inr in Hloop as [loaded [Hrows [-> [Hb [Hnd _]]]]].
      cbn [Sqlite.connect Sqlite.disk Sqlite.pending].
      unfold commit. destruct (commit_io_error env);
        cbn [fst snd Sqlite.commit Sqlite.close Sqlite.disk Sqlite.pending
             carbon_credits transactions].
      * split; [reflexivity|]. split; [reflexivity|exact Hexisting].
      * rewrite Hexisting. cbn [app].
        assert (Hids : map SampleCredit.id sample = map Some (map CreditRow.id loaded)).
        { clear -Hrows. revert loaded Hrows.
          induction sample as [|c sample IH]; intros [|row loaded] Hrows;
            cbn [map] in *; try discriminate; [reflexivity|].
          injection Hrows as Hrow Hrows.
          apply row_of_credit_inr in Hrow as [_ [Hid _]].
          now rewrite Hid, (IH loaded Hrows). }
        split; [reflexivity|]. split; [exact Hrows|]. split; [exact Hids|].
        split; [|exact Hb].
        rewrite Hids. now apply NoDup_map_Some.
  - cbn [fst snd]. rewrite Hexisting. split; reflexivity.
Qed.

Lemma init_sample_data_catalog (env : Env) (file : File) (sample : list SampleCredit.t)
    (db : DB) :
  init_sample_data env file sample = (Return tt, db) ->
  (carbon_credits db <> [] /\ db = init_database file)
  \/ map (row_of_credit env) sample = map inr (carbon_credits db).
Proof.
  unfold init_sample_data, get_credits.
  destruct (carbon_credits (init_database file)) as [|r rows] eqn:Hexisting; cbn [map].
  - destruct (insert_credits env sample (Sqlite.connect (init_database file)))
      as [e|conn'] eqn:Hloop; [discriminate|].
    apply insert_credits_inr in Hloop as [loaded [Hrows [-> _]]].
    unfold commit. destruct (commit_io_error env); [discriminate|].
    cbn [Sqlite.commit Sqlite.close Sqlite.connect Sqlite.disk Sqlite.pending].
    rewrite Hexisting. cbn [app]. intros H. injection H as <-. now right.
  - intros H. injection H as <-. left. rewrite Hexisting. split; [discriminate|reflexivity].
Qed.

(** A later start does not load again: once the function has returned
    with a sample that is not empty, running it on the resulting file
    returns the same database, whatever the sample file holds by then
    and whatever the storage engine would do. *)
Theorem init_sample_data_once (env : Env) (file : File) (sample : list SampleCredit.t)
    (db : DB) :
  init_sample_data env file sample = (Return tt, db) ->
  sample <> [] ->
  forall (env' : Env) (sample' : list SampleCredit.t),
    init_sample_data env' (Spec.file_of db) sample' = (Return tt, db).
Proof.
  intros Hrun Hsample env' sample'.
  assert (Hfilled : carbon_credits db <> []).
  { destruct (init_sample_data_catalog env file sample db Hrun) as [[H _]|H]; [exact H|].
    intros Hnone. rewrite Hnone in H. destruct sample; [contradiction|discriminate]. }
  unfold init_sample_data, get_credits, init_database, Spec.file_of.
  cbn [credits_table transactions_table carbon_credits].
  destruct db as [cs ts]. cbn [carbon_credits transactions] in *.
  destruct cs as [|r rows]; [contradiction|]. reflexivity.
Qed.

Lemma init_sample_data_once_example :
  init_sample_data
    {| uuid4 := "u"; datetime_now_isoformat := "d"; current_timestamp := "2025-01-01 00:00:00";
       insert_io_error := true; update_io_error := true; commit_io_error := true;
       select_continued := select_continued Sample.env |}
    (Spec.file_of
       (snd (init_sample_data Sample.env Sample.empty_file
               [ Spec.object_of (Sample.offer "CC001" "Direct Air Capture" 100 12.5) ])))
    [ Spec.object_of (Sample.offer "CC009" "Biochar" 1 1) ]
  = (Return tt,
     snd (init_sample_data Sample.env Sample.empty_file
            [ Spec.object_of (Sample.offer "CC001" "Direct Air Capture" 100 12.5) ])).
Proof.
  apply (init_sample_data_once Sample.env Sample.empty_file
           [ Spec.object_of (Sample.offer "CC001" "Direct Air Capture" 100 12.5) ]).
  - reflexivity.
  - discriminate.
Defined.

(** ** Quotes in the identifier of a lookup *)

Lemma append_assoc (a b c : string) : ((a ++ b) ++ c = a ++ (b ++ c))%string.
Proof.
  induction a as [|x a IH]; cbn [String.append]; [reflexivity|]. now rewrite IH.
Qed.

Lemma plain_no_quote_scan (s rest : string) :
  Spec.plain s = true ->
  Sqlite.scan_literal (s ++ rest)%string
  = match Sqlite.scan_literal rest with
    | Some (lit, z) => Some ((s ++ lit)%string, z)
    | None => None
    end.
Proof.
  induction s as [|c s IH]; cbn [String.append Spec.plain]; intros H.
  - destruct (Sqlite.scan_literal rest) as [[lit z]|]; reflexivity.
  - apply andb_prop in H as [H Hs]. apply andb_prop in H as [Hq _].
    apply negb_true_iff in Hq. cbn [Sqlite.scan_literal]. rewrite Hq, (IH Hs).
    destruct (Sqlite.scan_literal rest) as [[lit z]|]; reflexivity.
Qed.

Lemma command_no_nul (credit_id : string) :
  Sqlite.has_nul credit_id = false ->
  Sqlite.has_nul (select_credit_command credit_id) = false.
Proof.
  intros H. unfold select_credit_command. rewrite !has_nul_app, H. reflexivity.
Qed.

(** An identifier that ends with a quote, and is plain before it, breaks
    the statement for every catalog: the quote of the identifier and the
    closing quote of the command read as one escaped quote, the literal
    has no end, the lookup raises, the detail route answers 500 and a
    buyer's purchase raises the same error and writes nothing. *)
Theorem lookup_of_trailing_quote (env : Env) (db : DB) (s : string) (user : User.t)
    (quantity : Z) :
  Spec.plain s = true ->
  get_credit_by_id env db (s ++ "'") = Raise (DatabaseError "unrecognized token")
  /\ status_code (get_credit_details env db (s ++ "'") user) = Some 500
  /\ purchase_credits env (TransactionRequest.Build (s ++ "'") quantity) Sample.buyer db
     = (Raise (DatabaseError "unrecognized token"), db).
Proof.
  intros Hplain.
  assert (H : get_credit_by_id env db (s ++ "'") = Raise (DatabaseError "unrecognized token")).
  { unfold get_credit_by_id, Sqlite.parse_where.
    rewrite command_no_nul by (rewrite has_nul_app, (plain_no_nul _ Hplain); reflexivity).
    unfold select_credit_command. rewrite strip_prefix_app, append_assoc.
    rewrite (plain_no_quote_scan _ _ Hplain). reflexivity. }
  split; [exact H|]. split.
  - unfold get_credit_details. rewrite H. reflexivity.
  - unfold purchase_credits. cbn [Sample.buyer User.user_type BUYER_PERMISSIONS existsb
                                  String.eqb Ascii.eqb Bool.eqb andb orb negb
                                  TransactionRequest.credit_id].
    rewrite H. reflexivity.
Qed.

Lemma lookup_of_trailing_quote_example :
  get_credit_by_id Sample.env Sample.catalog "CC001'" = Raise (DatabaseError "unrecognized token").
Proof.
  exact (proj1 (lookup_of_trailing_quote Sample.env Sample.catalog "CC001" Sample.public 1
                  eq_refl)).
Defined.

(** Two quotes in a row inside the identifier are read as SQL reads
    them, as one: the lookup by [a''b] searches the catalog for the
    identifier [a'b], so a request reaches a credit whose identifier is
    not the one it names. *)
Theorem lookup_reads_doubled_quote (env : Env) (db : DB) (a b : string) :
  Spec.plain a = true -> Spec.plain b = true ->
  get_credit_by_id env db (a ++ "''" ++ b)
  = Return (option_map credit_of_row
              (find (fun r => String.eqb (CreditRow.id r) (a ++ "'" ++ b)%string)
                    (carbon_credits db))).
Proof.
  intros Ha Hb. unfold get_credit_by_id, Sqlite.parse_where.
  rewrite command_no_nul
    by (rewrite !has_nul_app, (plain_no_nul _ Ha), (plain_no_nul _ Hb); reflexivity).
  unfold select_credit_command. rewrite strip_prefix_app, append_assoc.
  rewrite (plain_no_quote_scan _ _ Ha).
  cbn [String.append Sqlite.scan_literal Sqlite.quote Ascii.eqb Bool.eqb].
  rewrite (scan_literal_plain _ Hb).
  destruct (find _ _); reflexivity.
Qed.

Lemma lookup_reads_doubled_quote_example :
  get_credit_by_id Sample.env Sample.quoted "a''b"
  = Return (Some (credit_of_row (Sample.listing "a'b" "Direct Air Capture" 100 12.5))).
Proof.
  exact (lookup_reads_doubled_quote Sample.env Sample.quoted "a" "b" eq_refl eq_refl).
Defined.

(** ** A purchase in the public listing *)

Lemma find_map_same_id (f : CreditRow.t -> CreditRow.t) (rows : list CreditRow.t)
    (k : string) :
  (forall r, CreditRow.id (f r) = CreditRow.id r) ->
  find (fun r => String.eqb (CreditRow.id r) k) (map f rows)
  = option_map f (find (fun r => String.eqb (CreditRow.id r) k) rows).
Proof.
  intros Hf. induction rows as [|r rows IH]; cbn [map find option_map]; [reflexivity|].
  rewrite Hf. destruct (String.eqb (CreditRow.id r) k); [reflexivity|exact IH].
Qed.

(** The two statements of a purchase change no credit type. *)
Lemma shown_credit_type_applied (env : Env) (t : CreditTransaction.t) (db : DB)
    (k : string) :
  Spec.shown_credit_type (Spec.applied env t db) k = Spec.shown_credit_type db k.
Proof.
  unfold Spec.shown_credit_type. cbn [Spec.applied carbon_credits].
  rewrite <- map_rev, find_map_same_id.
  - destruct (find _ (rev (carbon_credits db))) as [r|]; cbn [option_map]; [|reflexivity].
    destruct (String.eqb (CreditRow.id r) (CreditTransaction.credit_id t)); reflexivity.
  - intros r. destruct (String.eqb (CreditRow.id r) (CreditTransaction.credit_id t));
      reflexivity.
Qed.

Lemma shown_credit_type_stored (db : DB) (c : CreditRow.t) :
  NoDup (map CreditRow.id (carbon_credits db)) -> In c (carbon_credits db) ->
  Spec.shown_credit_type db (CreditRow.id c) = CreditRow.credit_type c.
Proof.
  intros Hnd Hin. unfold Spec.shown_credit_type.
  rewrite (find_by_id (rev (carbon_credits db)) c); [reflexivity| |].
  - rewrite map_rev. now apply NoDup_rev.
  - now apply in_rev in Hin.
Qed.

Lemma public_listing (db : DB) :
  Main.get_transactions db Sample.public
  = Return (map (Spec.anonymized db) (transactions db)).
Proof.
  unfold Main.get_transactions.
  cbn [Sample.public User.user_type String.eqb Ascii.eqb Bool.eqb].
  apply public_comprehension.
Qed.

(** A purchase that succeeds adds one entry to the end of the public
    transaction listing and changes none of the earlier ones: the entry
    holds the date of the purchase, the credit type of the credit bought
    (never ["Unknown"]), the quantity and the credit's price, and nothing
    of the buyer. *)
Theorem purchase_in_public_listing (env : Env) (request : TransactionRequest.t)
    (user : User.t) (db : DB) (c : CreditRow.t) (a : Z) :
  let q := TransactionRequest.quantity request in
  let db' := snd (purchase_credits env request user db) in
  existsb (String.eqb (User.user_type user)) BUYER_PERMISSIONS = true ->
  NoDup (map CreditRow.id (carbon_credits db)) ->
  In c (carbon_credits db) ->
  TransactionRequest.credit_id request = CreditRow.id c ->
  Spec.plain (CreditRow.id c) = true ->
  CreditRow.quantity_available c = Sqlite.Integer a ->
  q <= a ->
  Sqlite.fits_int64 q = true ->
  is_nan (CreditRow.price_per_ton c) = false ->
  ~ In (uuid4 env) (map TransactionRow.id (transactions db)) ->
  Spec.no_io_error env = true ->
  forall before : list (dict value),
    Main.get_transactions db Sample.public = Return before ->
    Main.get_transactions db' Sample.public
    = Return (before
              ++ [ [ ("transaction_date", Str (datetime_now_isoformat env));
                     ("credit_type", Str (CreditRow.credit_type c));
                     ("quantity", Int q);
                     ("price_per_ton", Float (CreditRow.price_per_ton c)) ] ]).
Proof.
  intros q db' Hp Hnd Hin Hid Hplain Ha Hle Hq Hnan Hfresh Hio before Hbefore. subst db'.
  rewrite public_listing in Hbefore. injection Hbefore as <-.
  rewrite (purchase_of_stored_credit env request user db c a); try assumption.
  cbn [snd]. rewrite public_listing. cbn [Spec.applied transactions].
  rewrite map_app. cbn [map]. f_equal. f_equal.
  - apply map_ext. intros r. unfold Spec.anonymized.
    now rewrite shown_credit_type_applied.
  - unfold Spec.anonymized. rewrite shown_credit_type_applied.
    cbn [row_of_transaction Spec.submitted credit_transaction_of new_transaction
         TransactionRow.credit_id TransactionRow.transaction_date TransactionRow.quantity
         TransactionRow.price_per_ton CreditTransaction.credit_id
         CreditTransaction.transaction_date CreditTransaction.quantity
         CreditTransaction.price_per_ton Transaction.credit_id Transaction.transaction_date
         Transaction.quantity Transaction.price_per_ton credit_of_row Credit.price_per_ton].
    rewrite Hid, (shown_credit_type_stored db c Hnd Hin). reflexivity.
Qed.

Lemma purchase_in_public_listing_example :
  Main.get_transactions
    (snd (purchase_credits Sample.env (TransactionRequest.Build "CC002" 4)
            Sample.buyer Sample.catalog))
    Sample.public
  = Return (map (Spec.anonymized Sample.catalog) (transactions Sample.catalog)
            ++ [ [ ("transaction_date", Str "2024-01-01T00:00:00");
                   ("credit_type", Str "Biochar");
                   ("quantity", Int 4);
                   ("price_per_ton", Float 80) ] ]).
Proof.
  apply (purchase_in_public_listing Sample.env (TransactionRequest.Build "CC002" 4)
           Sample.buyer Sample.catalog (Sample.listing "CC002" "Biochar" 10 80) 10).
  - reflexivity.
  - repeat constructor; simpl; intuition discriminate.
  - simpl. tauto.
  - reflexivity.
  - reflexivity.
  - reflexivity.
  - simpl. lia.
  - reflexivity.
  - reflexivity.
  - simpl. intuition discriminate.
  - reflexivity.
  - reflexivity.
Defined.

(** ** A purchase through a lookup that goes on after its literal *)

Lemma continued_not_plain (credit_id tail : string) :
  Sqlite.parse_where select_credit_eq (select_credit_command credit_id)
  = Sqlite.Continued tail ->
  Spec.plain credit_id = false.
Proof.
  intros H. destruct (Spec.plain credit_id) eqn:Hplain; [|reflexivity].
  rewrite (parse_where_plain _ Hplain) in H. discriminate H.
Qed.

(** When the identifier of a request ends the string literal of the
    lookup and goes on as SQL, the handler goes on with the row that
    SQLite returns for that statement: the checks are made against this
    row, the transaction is recorded under the text of the request with
    the price of this row, and, in a catalog whose identifiers are plain,
    the UPDATE matches no row, so that no availability is decremented;
    the response is 200. *)
Theorem purchase_through_continued_lookup (env : Env) (request : TransactionRequest.t)
    (user : User.t) (db : DB) (tail : string) (row : CreditRow.t) :
  let q := TransactionRequest.quantity request in
  let cid := TransactionRequest.credit_id request in
  let h := Spec.digest cid (User.user_id user) q (datetime_now_isoformat env) in
  existsb (String.eqb (User.user_type user)) BUYER_PERMISSIONS = true ->
  Sqlite.parse_where select_credit_eq (select_credit_command cid) = Sqlite.Continued tail ->
  select_continued env (select_credit_command cid) db = inr (Some row) ->
  number_lt_int (CreditRow.quantity_available row) q = false ->
  Sqlite.fits_int64 q = true ->
  is_nan (CreditRow.price_per_ton row) = false ->
  ~ In (uuid4 env) (map TransactionRow.id (transactions db)) ->
  Spec.no_io_error env = true ->
  Spec.plain_ids db = true ->
  purchase_credits env request user db
  = (Return (PurchaseResponse.Build
               (uuid4 env) h
               (nearest_double q * CreditRow.price_per_ton row)%float
               "completed"),
     {| carbon_credits := carbon_credits db;
        transactions :=
          transactions db
          ++ [ TransactionRow.Build
                 (uuid4 env) cid (User.user_id user) q
                 (CreditRow.price_per_ton row) (datetime_now_isoformat env) h
                 "completed" ] |})
  /\ status_code (fst (purchase_credits env request user db)) = Some 200.
Proof.
  intros q cid h Hp Hparse Hsel Hq Hfit Hnan Hfresh Hio Hplain.
  assert (Hl : get_credit_by_id env db (TransactionRequest.credit_id request)
               = Return (Some (credit_of_row row))).
  { unfold get_credit_by_id. fold cid. rewrite Hparse, Hsel. reflexivity. }
  assert (H : purchase_credits env request user db
              = (Return (PurchaseResponse.Build
                           (uuid4 env) h
                           (nearest_double q * CreditRow.price_per_ton row)%float
                           "completed"),
                 {| carbon_credits := carbon_credits db;
                    transactions :=
                      transactions db
                      ++ [ TransactionRow.Build
                             (uuid4 env) cid (User.user_id user) q
                             (CreditRow.price_per_ton row) (datetime_now_isoformat env) h
                             "completed" ] |})).
  { rewrite (purchase_credits_succeeded env request user db (credit_of_row row) Hp Hl Hq).
    - rewrite create_transaction_hash_spec. unfold Spec.applied.
      cbn [Spec.submitted credit_transaction_of new_transaction row_of_transaction
           CreditTransaction.id CreditTransaction.credit_id CreditTransaction.buyer_id
           CreditTransaction.quantity CreditTransaction.price_per_ton
           CreditTransaction.transaction_date CreditTransaction.status
           CreditTransaction.transaction_hash
           Transaction.id Transaction.credit_id Transaction.buyer_id Transaction.quantity
           Transaction.price_per_ton Transaction.transaction_date Transaction.status
           credit_of_row Credit.price_per_ton].
      cbn [Transaction.credit_id Transaction.buyer_id Transaction.quantity
           Transaction.transaction_date].
      fold q cid h. f_equal. f_equal.
      + rewrite <- (map_id (carbon_credits db)) at 2. apply map_ext_in. intros r Hr.
        destruct (String.eqb_spec (CreditRow.id r) cid) as [E|_]; [|reflexivity].
        exfalso. unfold Spec.plain_ids in Hplain.
        pose proof (proj1 (forallb_forall _ _) Hplain r Hr) as Hr'. cbn beta in Hr'.
        rewrite E, (continued_not_plain _ _ Hparse) in Hr'. discriminate Hr'.
      + unfold row_of_transaction, Spec.submitted, credit_transaction_of.
        rewrite create_transaction_hash_spec. reflexivity.
    - rewrite purchase_credit_commits; [reflexivity|assumption..]. }
  rewrite H. split; reflexivity.
Qed.

(** The catalog of the examples and the text [CC001' OR '1'='1]: four
    tons are bought, the ledger has one row more, and the stock of CC001
    is the 100 tons it was. *)
Lemma purchase_through_continued_lookup_example :
  status_code
    (fst (purchase_credits Sample.injected (TransactionRequest.Build "CC001' OR '1'='1" 4)
            Sample.buyer Sample.catalog))
  = Some 200.
Proof.
  refine (proj2 (purchase_through_continued_lookup Sample.injected
                   (TransactionRequest.Build "CC001' OR '1'='1" 4)
                   Sample.buyer Sample.catalog " OR '1'='1'"
                   (Sample.listing "CC001" "Direct Air Capture" 100 12.5)
                   _ _ _ _ _ _ _ _ _)).
  - reflexivity.
  - reflexivity.
  - reflexivity.
  - reflexivity.
  - reflexivity.
  - reflexivity.
  - simpl. intuition discriminate.
  - reflexivity.
  - reflexivity.
Defined.
